(** * Ludolph: the bot orchestration engine of [ludolph/bot.py]

    A shallow embedding of [LudolphBot] (configuration load, plugin registry,
    room membership, presence handlers and the message router) together with
    the properties its specification states about it.

    Python sets of JIDs are [gset string], dicts are [gmap string _], the
    [OrderedDict] of plugins is an association list, and the handlers are
    written in a small state-and-exception monad whose state is the bot object
    plus the trace of calls made on the XMPP session.

    The lifecycle methods ([__init__], [session_start], [roster_cleanup],
    [prereload], [shutdown], [msg_broadcast]) are written in a second monad
    of the same shape, whose trace also holds the calls on the roster, the
    web server, the scheduler and the persistent DB, and whose results know
    [SystemExit]. *)

From Stdlib Require Import String Ascii List ZArith Bool Lia.
From stdpp Require Import base option gmap strings list fin_maps fin_sets.

Local Open Scope string_scope.
Local Open Scope Z_scope.
Local Open Scope list_scope.

(* ===================================================================== *)
(** ** Python [str] methods used by the bot *)
(* ===================================================================== *)

Module PyStr.

(** [str.isspace] on the ASCII range: TAB..CR, FS..US and the blank. *)
Definition is_space (c : ascii) : bool :=
  let n := nat_of_ascii c in
  ((9 <=? n)%nat && (n <=? 13)%nat) || ((28 <=? n)%nat && (n <=? 32)%nat).

Definition mem (c : ascii) (chars : string) : bool :=
  existsb (Ascii.eqb c) (list_ascii_of_string chars).

Fixpoint lstrip_by (p : ascii -> bool) (s : string) : string :=
  match s with
  | EmptyString => EmptyString
  | String c s' => if p c then lstrip_by p s' else s
  end.

Definition rev (s : string) : string :=
  string_of_list_ascii (List.rev (list_ascii_of_string s)).

(** [s.lstrip()], [s.rstrip()] and [s.strip()]: white space is removed. *)
Definition lstrip (s : string) : string := lstrip_by is_space s.
Definition rstrip (s : string) : string := rev (lstrip_by is_space (rev s)).
Definition strip (s : string) : string := lstrip (rstrip s).

(** [s.lstrip(chars)]: [chars] is a SET of characters; every leading
    character that occurs in it is removed. *)
Definition lstrip_chars (chars s : string) : string :=
  lstrip_by (fun c => mem c chars) s.

(** [s.startswith(p)] *)
Fixpoint startswith (s p : string) : bool :=
  match p, s with
  | EmptyString, _ => true
  | String a p', String b s' => Ascii.eqb a b && startswith s' p'
  | String _ _, EmptyString => false
  end.

(** [s.split()]: the maximal runs of characters that are not white space. *)
Fixpoint split_ws_from (cur : string) (s : string) : list string :=
  match s with
  | EmptyString =>
      match cur with EmptyString => [] | _ => [rev cur] end
  | String c s' =>
      if is_space c
      then match cur with
           | EmptyString => split_ws_from EmptyString s'
           | _ => rev cur :: split_ws_from EmptyString s'
           end
      else split_ws_from (String c cur) s'
  end.

Definition split (s : string) : list string := split_ws_from EmptyString s.

(** [s.split(sep)] for a one-character separator: never an empty list. *)
Fixpoint split_on (sep : ascii) (s : string) : list string :=
  match s with
  | EmptyString => [EmptyString]
  | String c s' =>
      if Ascii.eqb c sep then EmptyString :: split_on sep s'
      else match split_on sep s' with
           | [] => [String c EmptyString]
           | w :: ws => String c w :: ws
           end
  end.

(** [s[1:]] *)
Definition tail (s : string) : string :=
  match s with EmptyString => EmptyString | String _ s' => s' end.

(** Truth value of a string: non-empty. *)
Definition truthy (s : string) : bool :=
  match s with EmptyString => false | _ => true end.

(** [sep.join(l)] *)
Fixpoint join (sep : string) (l : list string) : string :=
  match l with
  | [] => EmptyString
  | [x] => x
  | x :: l' => x +:+ sep +:+ join sep l'
  end.

End PyStr.

(* ===================================================================== *)
(** ** Data model *)
(* ===================================================================== *)

(** Exceptions the modelled code can raise. *)
Inductive Exn : Type :=
| IndexError
| KeyError (key : string)
| ValueError (what : string)
| NoOptionError (section option : string)
| NoSectionError (section : string)
| IqError (text : string)
| Exception (what : string).

(** A JID with its bare form and its resource; [str(jid)] is [jid_full]. *)
Record JID : Type := mkJID { jid_bare : string; jid_resource : string }.

Definition jid_full (j : JID) : string :=
  match jid_resource j with
  | EmptyString => jid_bare j
  | r => jid_bare j +:+ "/" +:+ r
  end.

(** A room configuration form: field name to value;
    [form['fields'][name]['value'] = v] needs the field to exist. *)
Inductive Value : Type := VBool (b : bool) | VStr (s : string).

Abbreviation Form := (gmap string Value).

(** A message stanza, by the keys the bot reads. *)
Record Msg : Type := mkMsg {
  m_type : string;
  m_body : string;
  m_from : JID;
  m_mucroom : string;
  m_mucnick : string
}.

Definition set_body (body : string) (msg : Msg) : Msg :=
  mkMsg (m_type msg) body (m_from msg) (m_mucroom msg) (m_mucnick msg).

Inductive Level : Type := INFO | WARNING | ERROR | CRITICAL.

Inductive LogArg : Type := AStr (s : string) | ATime (t : Z) | AExn (e : Exn) | AElapsed.

(** What the bot does to its collaborators, in the order it does it;
    [SendReply msg body] is [msg.reply(body).send()]. *)
Inductive Call : Type :=
| Log (lvl : Level) (fmt : string) (args : list LogArg)
| SendMessage (mto mbody mtype : string)
| SendReply (msg : Msg) (mbody : string)
| SendPresence (pto : string)
| Invite (room jid : string)
| SetRoomConfig (room : string) (form : Form)
| SetAffiliations (room : string) (items : list (string * string))
| DefaultSubscription (user : string)
| LeaveMUC (room nick : string)
| JoinMUC (room nick maxhistory : string)
| DbEnable (dbfile : string)
| CronDbDisable.

(** The value of a plugin registry entry: the bot itself under its own
    module name, or the object a plugin constructor returned. *)
Inductive PluginObj : Type := SelfBot | Instance (obj : string).

(** The attributes of [LudolphBot] the modelled methods read or write;
    [muc] says whether [self.muc] holds the XEP-0045 plugin, whose own state
    is read through [Env]. *)
Record Bot : Type := mkBot {
  nick : string;
  room : option string;
  room_invites : bool;
  users : gset string;
  admins : gset string;
  room_users : gset string;
  room_admins : gset string;
  room_users_invited : gset string;
  room_users_last_seen : gmap string Z;
  _muc_ready : bool;
  _reloaded : bool;
  plugins : list (string * PluginObj);
  room_config : option Form;
  db : option string;
  webserver : option (string * Z);
  cron : bool;
  sslv3 : bool;
  muc : bool;
  boundjid : JID
}.

(** The class attributes before [__init__] runs. *)
Definition new_bot (jid : JID) : Bot :=
  {| nick := "Ludolph"; room := None; room_invites := true;
     users := ∅; admins := ∅; room_users := ∅; room_admins := ∅;
     room_users_invited := ∅; room_users_last_seen := ∅;
     _muc_ready := false; _reloaded := false; plugins := [];
     room_config := None; db := None; webserver := None; cron := false;
     sslv3 := false; muc := false; boundjid := jid |}.

(** Attribute assignment [self.f = v], one setter per attribute. *)
Definition set_nick (v : string) (b : Bot) : Bot :=
  mkBot v (room b) (room_invites b) (users b) (admins b) (room_users b) (room_admins b)
    (room_users_invited b) (room_users_last_seen b) (_muc_ready b) (_reloaded b)
    (plugins b) (room_config b) (db b) (webserver b) (cron b) (sslv3 b) (muc b)
    (boundjid b).
Definition set_room (v : option string) (b : Bot) : Bot :=
  mkBot (nick b) v (room_invites b) (users b) (admins b) (room_users b) (room_admins b)
    (room_users_invited b) (room_users_last_seen b) (_muc_ready b) (_reloaded b)
    (plugins b) (room_config b) (db b) (webserver b) (cron b) (sslv3 b) (muc b)
    (boundjid b).
Definition set_room_invites (v : bool) (b : Bot) : Bot :=
  mkBot (nick b) (room b) v (users b) (admins b) (room_users b) (room_admins b)
    (room_users_invited b) (room_users_last_seen b) (_muc_ready b) (_reloaded b)
    (plugins b) (room_config b) (db b) (webserver b) (cron b) (sslv3 b) (muc b)
    (boundjid b).
Definition set_users (v : gset string) (b : Bot) : Bot :=
  mkBot (nick b) (room b) (room_invites b) v (admins b) (room_users b) (room_admins b)
    (room_users_invited b) (room_users_last_seen b) (_muc_ready b) (_reloaded b)
    (plugins b) (room_config b) (db b) (webserver b) (cron b) (sslv3 b) (muc b)
    (boundjid b).
Definition set_admins (v : gset string) (b : Bot) : Bot :=
  mkBot (nick b) (room b) (room_invites b) (users b) v (room_users b) (room_admins b)
    (room_users_invited b) (room_users_last_seen b) (_muc_ready b) (_reloaded b)
    (plugins b) (room_config b) (db b) (webserver b) (cron b) (sslv3 b) (muc b)
    (boundjid b).
Definition set_room_users (v : gset string) (b : Bot) : Bot :=
  mkBot (nick b) (room b) (room_invites b) (users b) (admins b) v (room_admins b)
    (room_users_invited b) (room_users_last_seen b) (_muc_ready b) (_reloaded b)
    (plugins b) (room_config b) (db b) (webserver b) (cron b) (sslv3 b) (muc b)
    (boundjid b).
Definition set_room_admins (v : gset string) (b : Bot) : Bot :=
  mkBot (nick b) (room b) (room_invites b) (users b) (admins b) (room_users b) v
    (room_users_invited b) (room_users_last_seen b) (_muc_ready b) (_reloaded b)
    (plugins b) (room_config b) (db b) (webserver b) (cron b) (sslv3 b) (muc b)
    (boundjid b).
Definition set_room_users_invited (v : gset string) (b : Bot) : Bot :=
  mkBot (nick b) (room b) (room_invites b) (users b) (admins b) (room_users b)
    (room_admins b) v (room_users_last_seen b) (_muc_ready b) (_reloaded b) (plugins b)
    (room_config b) (db b) (webserver b) (cron b) (sslv3 b) (muc b) (boundjid b).
Definition set_room_users_last_seen (v : gmap string Z) (b : Bot) : Bot :=
  mkBot (nick b) (room b) (room_invites b) (users b) (admins b) (room_users b)
    (room_admins b) (room_users_invited b) v (_muc_ready b) (_reloaded b) (plugins b)
    (room_config b) (db b) (webserver b) (cron b) (sslv3 b) (muc b) (boundjid b).
Definition set_muc_ready (v : bool) (b : Bot) : Bot :=
  mkBot (nick b) (room b) (room_invites b) (users b) (admins b) (room_users b)
    (room_admins b) (room_users_invited b) (room_users_last_seen b) v (_reloaded b)
    (plugins b) (room_config b) (db b) (webserver b) (cron b) (sslv3 b) (muc b)
    (boundjid b).
Definition set_reloaded (v : bool) (b : Bot) : Bot :=
  mkBot (nick b) (room b) (room_invites b) (users b) (admins b) (room_users b)
    (room_admins b) (room_users_invited b) (room_users_last_seen b) (_muc_ready b) v
    (plugins b) (room_config b) (db b) (webserver b) (cron b) (sslv3 b) (muc b)
    (boundjid b).
Definition set_plugins (v : list (string * PluginObj)) (b : Bot) : Bot :=
  mkBot (nick b) (room b) (room_invites b) (users b) (admins b) (room_users b)
    (room_admins b) (room_users_invited b) (room_users_last_seen b) (_muc_ready b)
    (_reloaded b) v (room_config b) (db b) (webserver b) (cron b) (sslv3 b) (muc b)
    (boundjid b).
Definition set_room_config (v : option Form) (b : Bot) : Bot :=
  mkBot (nick b) (room b) (room_invites b) (users b) (admins b) (room_users b)
    (room_admins b) (room_users_invited b) (room_users_last_seen b) (_muc_ready b)
    (_reloaded b) (plugins b) v (db b) (webserver b) (cron b) (sslv3 b) (muc b)
    (boundjid b).
Definition set_db (v : option string) (b : Bot) : Bot :=
  mkBot (nick b) (room b) (room_invites b) (users b) (admins b) (room_users b)
    (room_admins b) (room_users_invited b) (room_users_last_seen b) (_muc_ready b)
    (_reloaded b) (plugins b) (room_config b) v (webserver b) (cron b) (sslv3 b) (muc b)
    (boundjid b).
Definition set_webserver (v : option (string * Z)) (b : Bot) : Bot :=
  mkBot (nick b) (room b) (room_invites b) (users b) (admins b) (room_users b)
    (room_admins b) (room_users_invited b) (room_users_last_seen b) (_muc_ready b)
    (_reloaded b) (plugins b) (room_config b) (db b) v (cron b) (sslv3 b) (muc b)
    (boundjid b).
Definition set_cron (v : bool) (b : Bot) : Bot :=
  mkBot (nick b) (room b) (room_invites b) (users b) (admins b) (room_users b)
    (room_admins b) (room_users_invited b) (room_users_last_seen b) (_muc_ready b)
    (_reloaded b) (plugins b) (room_config b) (db b) (webserver b) v (sslv3 b) (muc b)
    (boundjid b).
Definition set_sslv3 (v : bool) (b : Bot) : Bot :=
  mkBot (nick b) (room b) (room_invites b) (users b) (admins b) (room_users b)
    (room_admins b) (room_users_invited b) (room_users_last_seen b) (_muc_ready b)
    (_reloaded b) (plugins b) (room_config b) (db b) (webserver b) (cron b) v (muc b)
    (boundjid b).
Definition set_muc (v : bool) (b : Bot) : Bot :=
  mkBot (nick b) (room b) (room_invites b) (users b) (admins b) (room_users b)
    (room_admins b) (room_users_invited b) (room_users_last_seen b) (_muc_ready b)
    (_reloaded b) (plugins b) (room_config b) (db b) (webserver b) (cron b) (sslv3 b) v
    (boundjid b).

(* ===================================================================== *)
(** ** The handler monad: bot state, call trace and exceptions *)
(* ===================================================================== *)

Inductive Res (A : Type) : Type :=
| Ret (a : A)
| Raise (e : Exn).
Arguments Ret {A} a.
Arguments Raise {A} e.

(** A method body: from the bot and the calls made so far to its result (or
    the exception it raised), the bot after and the calls made by then. A
    raised exception keeps the attributes written and the calls made so far. *)
Definition M (A : Type) : Type := Bot -> list Call -> Res A * Bot * list Call.

Definition ret {A} (a : A) : M A := fun b tr => (Ret a, b, tr).
Definition raise {A} (e : Exn) : M A := fun b tr => (Raise e, b, tr).

Definition bind {A B} (m : M A) (k : A -> M B) : M B :=
  fun b tr =>
    match m b tr with
    | (Ret a, b1, tr1) => k a b1 tr1
    | (Raise e, b1, tr1) => (Raise e, b1, tr1)
    end.

#[global] Instance M_ret : MRet M := @ret.
#[global] Instance M_bind : MBind M := fun A B k m => bind m k.

Definition this : M Bot := fun b tr => (Ret b, b, tr).
Definition assign (f : Bot -> Bot) : M unit := fun b tr => (Ret tt, f b, tr).
Definition call (c : Call) : M unit := fun b tr => (Ret tt, b, tr ++ [c]).
Definition logger (lvl : Level) (fmt : string) (args : list LogArg) : M unit :=
  call (Log lvl fmt args).

(** A value computed outside the bot that may have raised. *)
Definition lift {A} (r : Exn + A) : M A :=
  match r with inl e => raise e | inr a => ret a end.

(** [try: m except <class>: h]; [catches e] says whether the except clause
    matches. *)
Definition try_except {A} (m : M A) (catches : Exn -> bool) (h : Exn -> M A) : M A :=
  fun b tr =>
    match m b tr with
    | (Raise e, b1, tr1) => if catches e then h e b1 tr1 else (Raise e, b1, tr1)
    | done => done
    end.

(** [for x in l: body x] *)
Fixpoint for_each {X} (l : list X) (body : X -> M unit) : M unit :=
  match l with
  | [] => ret tt
  | x :: l' => body x ;; for_each l' body
  end.

(** A loop that carries a local variable. *)
Fixpoint fold_each {X S} (l : list X) (body : S -> X -> M S) (acc : S) : M S :=
  match l with
  | [] => ret acc
  | x :: l' => acc' ← body acc x; fold_each l' body acc'
  end.

Definition when (c : bool) (m : M unit) : M unit := if c then m else ret tt.

(** A method called on bot [b]: its result, the bot after it and the calls
    it made. *)
Definition result_of {A} (m : M A) (b : Bot) : Res A := (m b []).1.1.
Definition bot_of {A} (m : M A) (b : Bot) : Bot := (m b []).1.2.
Definition calls_of {A} (m : M A) (b : Bot) : list Call := (m b []).2.

Definition is_iq_error (e : Exn) : bool :=
  match e with IqError _ => true | _ => false end.
Definition is_value_error (e : Exn) : bool :=
  match e with ValueError _ => true | _ => false end.
Definition any_exception (e : Exn) : bool := true.

(** The double-quote character and the line feed, for message texts. *)
Definition dq : string := String (ascii_of_nat 34) EmptyString.
Definition nl : string := String (ascii_of_nat 10) EmptyString.
Definition quoted (s : string) : string := dq +:+ s +:+ dq.

(** [str(x)] of an attribute that is a string or [None]. *)
Definition py_str (o : option string) : string :=
  match o with Some s => s | None => "None" end.

(** Truth value of an attribute that is a string or [None]. *)
Definition truthy_opt (o : option string) : bool :=
  match o with Some s => PyStr.truthy s | None => false end.

(* ===================================================================== *)
(** ** Collaborators *)
(* ===================================================================== *)

(** The [ConfigParser] object handed to the bot, by the methods called on it. *)
Record Config : Type := mkConfig {
  has_option : string -> string -> bool;
  get : string -> string -> Exn + string;
  getboolean : string -> string -> Exn + bool;
  getint : string -> string -> Exn + Z;
  items : string -> Exn + list (string * string)
}.

(** A plugin as [main] hands it over: [plugin.name], [plugin.module] and
    [plugin.cls], the constructor, called with the bot, the plugin's
    configuration section and the [reinit] flag. *)
Record Plugin : Type := mkPlugin {
  name : string;
  module : string;
  cls : Bot -> list (string * string) -> bool -> Exn + string
}.

(** A room presence stanza: [presence['from']] and [presence['muc']]. *)
Record Presence : Type := mkPresence {
  p_from : JID;
  muc_jid : JID;
  muc_nick : string;
  muc_role : string;
  muc_affiliation : string
}.

(** A registered command: [cmd.get_fun(bot)(msg)] is [cmd_fun cmd bot msg]. *)
Record Command : Type := mkCommand {
  cmd_name : string;
  cmd_module : string;
  cmd_fun : Bot -> Msg -> Exn + option string
}.

(** What the bot reads from the objects around it while a method runs:
    the clock, the XEP-0045 plugin ([self.muc]), the persistent DB, the
    command table of [ludolph.command], the web server and the scheduler. *)
Record Env : Type := mkEnv {
  now : Z;
  muc_rooms : gmap string (gmap string (option JID));
  getRoomConfig : option string -> Exn + Form;
  setRoomConfig : option string -> Form -> option Exn;
  iq_send : option string -> list (string * string) -> option Exn;
  db_items : string -> gset string * gmap string Z;
  in_plugins : string -> list Plugin -> bool;
  commands_all : list (string * PluginObj) -> list string;
  get_command : string -> option Command;
  webhooks : list string;
  crontab : list string
}.

(** [getJidProperty(room, nick, 'jid')] of XEP-0045: the occupant's JID when
    the room and the nick are known, else [None]. *)
Definition getJidProperty (env : Env) (room nick : string) : option JID :=
  match muc_rooms env !! room with
  | Some occupants =>
      match occupants !! nick with
      | Some (Some jid) => Some jid
      | _ => None
      end
  | None => None
  end.

(** [getRoster(room)] of XEP-0045: the nicks in the room, [None] when the
    room is not joined. *)
Definition getRoster (env : Env) (room : option string) : option (list string) :=
  match room with
  | Some r => (fun occupants : gmap string (option JID) => (map_to_list occupants).*1) <$> muc_rooms env !! r
  | None => None
  end.

(* ===================================================================== *)
(** ** The plugin registry: an [OrderedDict] *)
(* ===================================================================== *)

Module OrderedDict.

Definition t : Type := list (string * PluginObj).

(** [d.get(k)] / [k in d] *)
Fixpoint get (k : string) (d : t) : option PluginObj :=
  match d with
  | [] => None
  | (k', v) :: d' => if String.eqb k k' then Some v else get k d'
  end.

Definition contains (k : string) (d : t) : bool :=
  match get k d with Some _ => true | None => false end.

(** [del d[k]] (the callers only delete a key that is there) *)
Definition del (k : string) (d : t) : t :=
  List.filter (fun kv => negb (String.eqb k kv.1)) d.

(** [d[k] = v]: an existing key keeps its place, a new one goes last. *)
Fixpoint set (k : string) (v : PluginObj) (d : t) : t :=
  match d with
  | [] => [(k, v)]
  | (k', v') :: d' => if String.eqb k k' then (k', v) :: d' else (k', v') :: set k v d'
  end.

Definition keys (d : t) : list string := d.*1.

End OrderedDict.

(* ===================================================================== *)
(** ** Configuration load: [_load_config] *)
(* ===================================================================== *)

Definition joined (s : gset string) : LogArg := AStr (PyStr.join ", " (elements s)).

(** [_db_load_items]: the persisted invitations and last-seen times are
    merged into the bot's own. *)
Definition _db_load_items (env : Env) (dbfile : string) : M unit :=
  logger INFO "Loading LudolphBot data from persistent DB file" [];;
  assign (fun b => set_room_users_invited (room_users_invited b ∪ (db_items env dbfile).1) b);;
  assign (fun b => set_room_users_last_seen ((db_items env dbfile).2 ∪ room_users_last_seen b) b).

(** Modelled from the spec: [db_enable] of [LudolphDBMixin] (ludolph/db.py is
    not among the sources). The persistent store is attached and, on attach,
    the two persisted keys are loaded. *)
Definition db_enable (env : Env) (dbfile : string) (init : bool) : M unit :=
  call (DbEnable dbfile);;
  assign (set_db (Some dbfile));;
  when init (_db_load_items env dbfile).

(** [getattr(self, kwd)] for the keywords [read_jid_array] accepts. *)
Definition getattr (b : Bot) (kwd : string) : gset string :=
  if String.eqb kwd "users" then users b
  else if String.eqb kwd "admins" then admins b
  else if String.eqb kwd "room_users" then room_users b
  else ∅.

(** One turn of the loop of [read_jid_array]. *)
Definition read_jid (option : string) (keywords : list string)
    (jids : gset string) (item : string) : M (gset string) :=
  let jid := PyStr.strip item in
  if negb (PyStr.truthy jid) then mret jids
  else if PyStr.mem "@" jid then
    if PyStr.startswith jid "@" then
      let kwd := PyStr.tail jid in
      if bool_decide (kwd ∈ keywords)
      then b ← this; mret (jids ∪ getattr b kwd)
      else logger WARNING ("Skipping invalid keyword " +:+ quoted "%s" +:+ " from setting " +:+ quoted "%s")
             [AStr jid; AStr option];; mret jids
    else mret (jids ∪ {[jid]})
  else logger WARNING ("Skipping invalid JID " +:+ quoted "%s" +:+ " from setting " +:+ quoted "%s")
         [AStr jid; AStr option];; mret jids.

(** [read_jid_array(section, option, keywords)]: a comma-separated option as
    a set of JIDs. *)
Definition read_jid_array (config : Config) (section option : string)
    (keywords : list string) : M (gset string) :=
  if has_option config section option then
    value ← lift (get config section option);
    fold_each (PyStr.split_on "," (PyStr.strip value)) (read_jid option keywords) ∅
  else mret ∅.

Definition log_missing (fmt : string) (missing : gset string) : M unit :=
  for_each (elements missing) (fun i => logger ERROR fmt [AStr i]).

Definition _load_config (env : Env) (config : Config) (init : bool) : M unit :=
  logger INFO "Configuring jabber bot" [];;
  (* Get DB file *)
  (if has_option config "global" "dbfile" then
     dbfile ← lift (get config "global" "dbfile");
     when (PyStr.truthy dbfile) (db_enable env dbfile true)
   else mret tt);;
  (* Get nick name *)
  (if has_option config "xmpp" "nick" then
     value ← lift (get config "xmpp" "nick");
     when (PyStr.truthy (PyStr.strip value)) (assign (set_nick (PyStr.strip value)))
   else mret tt);;
  (if has_option config "xmpp" "sslv3" then
     v3 ← lift (getboolean config "xmpp" "sslv3");
     when v3 (assign (set_sslv3 true))
   else mret tt);;
  (* Users *)
  assign (set_users ∅);;
  jids ← read_jid_array config "xmpp" "users" [];
  assign (fun b => set_users (users b ∪ jids) b);;
  b ← this; logger INFO "Current users: %s" [joined (users b)];;
  (* Admins *)
  assign (set_admins ∅);;
  jids ← read_jid_array config "xmpp" "admins" ["users"];
  assign (fun b => set_admins (admins b ∪ jids) b);;
  b ← this; logger INFO "Current admins: %s" [joined (admins b)];;
  (* Admins vs. users *)
  b ← this;
  when (negb (bool_decide (admins b ⊆ users b)))
    (log_missing ("Admin " +:+ quoted "%s" +:+ " is not specified in users. "
                  +:+ "This may lead to unexpected behaviour.") (admins b ∖ users b));;
  (* MUC room *)
  (if has_option config "xmpp" "room" then
     value ← lift (get config "xmpp" "room");
     assign (set_room (Some (PyStr.strip value)))
   else assign (set_room None));;
  (if has_option config "xmpp" "enabled" then
     invites ← lift (getboolean config "xmpp" "room_invites");
     assign (set_room_invites invites)
   else assign (set_room_invites true));;
  (* MUC room users *)
  assign (set_room_users ∅);;
  b ← this;
  (if truthy_opt (room b) then
     jids ← read_jid_array config "xmpp" "room_users" ["users"; "admins"];
     assign (fun b => set_room_users (room_users b ∪ jids) b);;
     b ← this; logger INFO "Current room users: %s" [joined (room_users b)]
   else mret tt);;
  (* MUC room admins *)
  assign (set_room_admins ∅);;
  b ← this;
  (if truthy_opt (room b) then
     jids ← read_jid_array config "xmpp" "room_admins" ["users"; "admins"; "room_users"];
     assign (fun b => set_room_admins (room_admins b ∪ jids) b);;
     b ← this; logger INFO "Current room admins: %s" [joined (room_admins b)]
   else mret tt);;
  (* Room admins vs. users *)
  b ← this;
  when (negb (bool_decide (room_admins b ⊆ room_users b)))
    (log_missing ("Room admin " +:+ quoted "%s" +:+ " is not specified in room_users. "
                  +:+ "This may lead to unexpected behaviour.") (room_admins b ∖ room_users b));;
  (* Room users vs. room_users_invited *)
  b ← this;
  when (negb (bool_decide (room_users_invited b = ∅)))
    (assign (fun b => set_room_users_invited (room_users_invited b ∩ room_users b) b));;
  (* Web server (any change in configuration requires restart) *)
  b ← this;
  when (init && negb (bool_decide (is_Some (webserver b))))
    (if has_option config "webserver" "host" && has_option config "webserver" "port" then
       host ← lift (get config "webserver" "host");
       port ← lift (getint config "webserver" "port");
       when (PyStr.truthy (PyStr.strip host) && negb (port =? 0))
         (assign (set_webserver (Some (PyStr.strip host, port))))
     else mret tt);;
  (* Cron (any change in configuration requires restart) *)
  b ← this;
  when (init && negb (cron b))
    (if has_option config "cron" "enabled" then
       enabled ← lift (getboolean config "cron" "enabled");
       when enabled (assign (set_cron true))
     else mret tt);;
  b ← this;
  when (_reloaded b && cron b && negb (bool_decide (is_Some (db b)))) (call CronDbDisable).

(* ===================================================================== *)
(** ** Plugin load and reload: [_load_plugins] *)
(* ===================================================================== *)

(** [__name__] of bot.py: the key under which the bot registers itself. *)
Definition __name__ : string := "ludolph.bot".

(** Bot reload - remove disabled plugins: one turn of the loop over a copy of
    the registry keys. [enabled_plugin not in plugins] is the membership test
    of the collection [main] passes as [plugins] (here [plugin_list]). *)
Definition disable_plugin (env : Env) (plugin_list : list Plugin) (enabled_plugin : string) : M unit :=
  if String.eqb enabled_plugin __name__ then mret tt
  else if negb (in_plugins env enabled_plugin plugin_list) then
    logger INFO "Disabling plugin: %s" [AStr enabled_plugin];;
    assign (fun b => set_plugins (OrderedDict.del enabled_plugin (plugins b)) b)
  else mret tt.

(** [cfg = config.items(plugin.name); obj = plugin.cls(self, cfg, reinit=reinit)]
    on bot [b]: the object constructed, or what was raised. *)
Definition constructed (config : Config) (plugin : Plugin) (b : Bot) (reinit : bool)
    : Exn + string :=
  match items config (name plugin) with
  | inl e => inl e
  | inr cfg => cls plugin b cfg reinit
  end.

Definition construct (config : Config) (plugin : Plugin) (reinit : bool) : M string :=
  b ← this;
  lift (constructed config plugin b reinit).

(** One turn of the loop over the plugins to load. *)
Definition load_plugin (config : Config) (init : bool) (plugin : Plugin) : M unit :=
  let modname := module plugin in
  b ← this;
  reinit ←
    (if init || negb (OrderedDict.contains modname (plugins b)) then
       logger INFO "Initializing plugin: %s" [AStr modname];; mret false
     else
       logger INFO "Reloading plugin: %s" [AStr modname];;
       assign (fun b => set_plugins (OrderedDict.del modname (plugins b)) b);;
       mret true);
  try_except
    (obj ← construct config plugin reinit;
     assign (fun b => set_plugins (OrderedDict.set modname (Instance obj) (plugins b)) b))
    any_exception
    (fun ex =>
       logger CRITICAL "Could not load plugin: %s" [AStr modname];;
       logger ERROR "%s" [AExn ex]).

Definition _load_plugins (env : Env) (config : Config) (plugin_list : list Plugin) (init : bool) : M unit :=
  (if init then
     (* First-time plugin initialization -> include ourself to plugins dict *)
     assign (set_plugins []);;
     assign (fun b => set_plugins (OrderedDict.set __name__ SelfBot (plugins b)) b)
   else
     b ← this;
     for_each (OrderedDict.keys (plugins b)) (disable_plugin env plugin_list));;
  for_each plugin_list (load_plugin config init);;
  (* Update commands cache *)
  b ← this;
  (match commands_all env (plugins b) with
   | [] => logger WARNING "NO commands registered" []
   | cmds => logger INFO ("Registered commands:" +:+ nl +:+ "%s" +:+ nl) [AStr (PyStr.join nl cmds)]
   end);;
  (if bool_decide (is_Some (webserver b)) then
     match webhooks env with
     | [] => logger WARNING "NO webhooks registered" []
     | hooks => logger INFO ("Registered webhooks:" +:+ nl +:+ "%s" +:+ nl) [AStr (PyStr.join nl hooks)]
     end
   else logger WARNING "Web server support disabled - webhooks will not work" []);;
  (if cron b then
     match crontab env with
     | [] => logger WARNING "NO cron jobs registered" []
     | jobs => logger INFO ("Registered cron jobs:" +:+ nl +:+ "%s" +:+ nl) [AStr (PyStr.join nl jobs)]
     end
   else logger WARNING "Cron support disabled - cron jobs will not work" []).

(* ===================================================================== *)
(** ** Room configuration: [_room_members] and [_room_config] *)
(* ===================================================================== *)

(** The [(affiliation, jid)] item of one configured room user. *)
Definition affiliation_item (b : Bot) (jid : string) : string * string :=
  (if bool_decide (jid ∈ room_admins b) then "admin" else "member", jid).

(** The items of the query, in the order they are appended. *)
Definition affiliation_items (b : Bot) : list (string * string) :=
  ("owner", jid_bare (boundjid b)) :: map (affiliation_item b) (elements (room_users b)).

(** [_room_members]: change the room's member list; [iq.send()] raises
    [IqError] when the server rejects it. *)
Definition _room_members (env : Env) : M unit :=
  b ← this;
  call (SetAffiliations (py_str (room b)) (affiliation_items b));;
  match iq_send env (room b) (affiliation_items b) with
  | Some e => raise e
  | None => mret tt
  end.

Definition membersonly : string := "muc#roomconfig_membersonly".
Definition members_by_default : string := "members_by_default".

(** [self.room_config['fields'][field]['value'] = v]: the form kept in
    [self.room_config] is changed in place; a form without the field raises
    [KeyError]. *)
Definition set_field (field : string) (v : bool) : M unit :=
  b ← this;
  match room_config b with
  | Some form =>
      match form !! field with
      | Some _ => assign (set_room_config (Some (<[field := VBool v]> form)))
      | None => raise (KeyError field)
      end
  | None => raise (Exception "TypeError")
  end.

Definition log_iq_error (fmt : string) (e : Exn) : M unit :=
  logger ERROR fmt [AExn e].

Definition _room_config (env : Env) : M unit :=
  b ← this;
  logger INFO "Getting current configuration for MUC room %s" [AStr (py_str (room b))];;
  match getRoomConfig env (room b) with
  | inl e =>
      if is_value_error e
      then logger ERROR
             "Could not get MUC room configuration. Maybe the room is not (properly) initialized." []
      else raise e
  | inr form =>
      assign (set_room_config (Some form));;
      (if negb (bool_decide (room_users b = ∅)) then
         set_field membersonly true;;
         set_field members_by_default false
       else
         set_field membersonly false;;
         set_field members_by_default true);;
      logger INFO "Setting new configuration for MUC room %s" [AStr (py_str (room b))];;
      b1 ← this;
      try_except
        (match room_config b1 with
         | Some form1 =>
             call (SetRoomConfig (py_str (room b1)) form1);;
             match setRoomConfig env (room b1) form1 with
             | Some e => raise e
             | None => mret tt
             end
         | None => mret tt
         end)
        is_iq_error
        (log_iq_error "Could not configure MUC room. Error was: %s (condition=%s, etype=%s)");;
      logger INFO "Setting member list for MUC room %s" [AStr (py_str (room b))];;
      try_except (_room_members env) is_iq_error
        (log_iq_error
           "Could not configure MUC room member list. Error was: %s (condition=%s, etype=%s)")
  end.

(* ===================================================================== *)
(** ** Presence in the room *)
(* ===================================================================== *)

(** The loop of [_is_jid_in_room] over the occupants of the room: is some
    entry not [None] with [entry['jid'].bare == jid]? *)
Definition jid_among (occupants : gmap string (option JID)) (jid : string) : bool :=
  existsb
    (fun nick_entry : string * option JID =>
       match nick_entry.2 with
       | Some j => String.eqb (jid_bare j) jid
       | None => false
       end)
    (map_to_list occupants).

(** [self.muc.rooms[self.room]], [None] where it raises [KeyError]. *)
Definition room_occupants (env : Env) (b : Bot) : option (gmap string (option JID)) :=
  match room b with
  | Some r => muc_rooms env !! r
  | None => None
  end.

(** [_is_jid_in_room]: determine if jid is present in chat room.
    [self.muc.rooms[self.room]] raises [KeyError] for a room never joined. *)
Definition _is_jid_in_room (env : Env) (jid : string) : M bool :=
  b ← this;
  match room_occupants env b with
  | Some occupants => mret (jid_among occupants jid)
  | None => raise (KeyError (py_str (room b)))
  end.

(** [_update_room_users_last_seen]: [room_users_last_seen[jid] = datetime.now()] *)
Definition _update_room_users_last_seen (env : Env) (jid : string) : M unit :=
  assign (fun b => set_room_users_last_seen (<[jid := now env]> (room_users_last_seen b)) b).

Definition _jid_entered_room (env : Env) (jid : string) : M unit :=
  _update_room_users_last_seen env jid.

Definition _jid_left_room (env : Env) (jid : string) : M unit :=
  _update_room_users_last_seen env jid.

(** [_handle_new_subscription]: auto-subscription restricted to [users],
    when that set is not empty. Handing over to the default implementation of
    the XMPP client is the call [DefaultSubscription]. *)
Definition _handle_new_subscription (pres_from : JID) : M unit :=
  let user := jid_full pres_from in
  b ← this;
  if bool_decide (users b = ∅) || bool_decide (user ∈ users b) then
    logger INFO ("Allowing user " +:+ quoted "%s" +:+ " to auto subscribe") [AStr user];;
    call (DefaultSubscription user)
  else
    logger WARNING ("User " +:+ quoted "%s" +:+ " is not allowed to subscribe") [AStr user].

(** [msg_send(mto, mbody, mtype=...)] *)
Definition msg_send (mto mbody mtype : string) : M unit :=
  call (SendMessage mto mbody mtype).

(** The body of the loop of [muc_online] over [room_users]: save last seen
    info and invite the user, unless an invitation was sent in the past. *)
Definition check_room_user (env : Env) (user : string) : M unit :=
  _is_jid_in_room env user ≫= fun present : bool =>
  b ← this;
  if present then
    logger INFO ("User " +:+ quoted "%s" +:+ " already in MUC room") [AStr user];;
    _update_room_users_last_seen env user
  else if negb (bool_decide (Some user = room b)) then
    match room_users_last_seen b !! user with
    | Some seen =>
        logger INFO ("User " +:+ quoted "%s"
                     +:+ " is not currently present in MUC room, but was last seen %s")
          [AStr user; ATime seen]
    | None =>
        logger INFO ("User " +:+ quoted "%s" +:+ " is not present in MUC room") [AStr user]
    end;;
    when (room_invites b)
      (if bool_decide (user ∈ room_users_invited b) then
         logger INFO ("User " +:+ quoted "%s" +:+ " was already invited to MUC room") [AStr user]
       else
         logger INFO ("Inviting " +:+ quoted "%s" +:+ " to MUC room") [AStr user];;
         call (Invite (py_str (room b)) user);;
         assign (fun b => set_room_users_invited (room_users_invited b ∪ {[user]}) b))
  else mret tt.

(** The presence reconciliation at the end of the own-presence branch. *)
Definition check_room_users (env : Env) : M unit :=
  b ← this;
  for_each (elements (room_users b)) (check_room_user env).

(** [muc_online]: an online presence stanza from the chat room. The last-seen
    time of a member entering is kept under [muc['jid']], a JID object,
    which hashes and compares as its full string. *)
Definition muc_online (env : Env) (presence : Presence) : M unit :=
  b ← this;
  if String.eqb (jid_full (p_from presence)) (py_str (room b) +:+ "/" +:+ nick b) then
    _room_config env;;
    msg_send (py_str (room b)) (nick b +:+ " is here!") "groupchat";;
    assign (set_muc_ready true);;
    call (SendPresence (jid_full (p_from presence)));;
    match getRoster env (room b) with
    | Some nicks => logger INFO "People in MUC room: %s" [AStr (PyStr.join ", " nicks)]
    | None => raise (Exception "TypeError")
    end;;
    check_room_users env
  else
    (* Say hello to new user *)
    logger INFO ("User " +:+ quoted "%s" +:+ " with nick " +:+ quoted "%s" +:+ ", role "
                 +:+ quoted "%s" +:+ " and affiliation " +:+ quoted "%s"
                 +:+ " is joining MUC room")
      [AStr (jid_full (muc_jid presence)); AStr (muc_nick presence);
       AStr (muc_role presence); AStr (muc_affiliation presence)];;
    _jid_entered_room env (jid_full (muc_jid presence));;
    msg_send (jid_bare (p_from presence)) ("Hello " +:+ muc_nick presence +:+ "!") "groupchat".

(** [muc_offline]: an offline presence stanza from the chat room. *)
Definition muc_offline (env : Env) (presence : Presence) : M unit :=
  logger INFO ("User " +:+ quoted "%s" +:+ " with nick " +:+ quoted "%s" +:+ ", role "
               +:+ quoted "%s" +:+ " and affiliation " +:+ quoted "%s"
               +:+ " is leaving MUC room")
    [AStr (jid_full (muc_jid presence)); AStr (muc_nick presence);
     AStr (muc_role presence); AStr (muc_affiliation presence)];;
  _jid_left_room env (jid_full (muc_jid presence));;
  msg_send (jid_bare (p_from presence)) ("Bye bye " +:+ muc_nick presence) "groupchat".

(* ===================================================================== *)
(** ** The command router: [message], [get_jid] and [muc_message] *)
(* ===================================================================== *)

(** [get_jid(msg)] with [bare=True]: the sender's bare JID, [None] when the
    room does not tell it. *)
Definition get_jid (env : Env) (msg : Msg) : M (option string) :=
  b ← this;
  let jid :=
    if String.eqb (m_type msg) "groupchat" && truthy_opt (room b)
    then getJidProperty env (m_mucroom msg) (m_mucnick msg)
    else Some (m_from msg) in
  mret (jid_bare <$> jid).

(** The reply of [message] to a text that is no command. *)
Definition not_understood (body : string) : string :=
  "Sorry, I don't understand " +:+ quoted body +:+ nl
  +:+ "Please type " +:+ quoted "help" +:+ " for more info".

(** [msg['body'].split()[0]]: indexing an empty list raises [IndexError]. *)
Definition first_word (body : string) : M string :=
  match PyStr.split body with
  | [] => raise IndexError
  | word :: _ => mret word
  end.

(** [message(msg, types)]: the result is what the command returned, [None]
    for a stanza type that is not accepted and after the fallback reply. *)
Definition message (env : Env) (msg : Msg) (types : list string) : M (option string) :=
  if negb (bool_decide (m_type msg ∈ types)) then mret None
  else
    word ← first_word (m_body msg);
    (* Seek received text in available commands and get command *)
    match get_command env (PyStr.strip word) with
    | Some cmd =>
        (* Get and run command *)
        b ← this;
        lift (cmd_fun cmd b msg) ≫= fun out : option string =>
        when (truthy_opt out)
          (logger INFO "Command %s.%s finished in %g seconds"
             [AStr (cmd_module cmd); AStr (cmd_name cmd); AElapsed]);;
        mret out
    | None =>
        (* Send message that command was not understood and what to do *)
        call (SendReply msg (not_understood (m_body msg)));;
        mret None
    end.

Definition chat_types : list string := ["chat"; "normal"].

(** The body [muc_message] hands to [message]. *)
Definition muc_body (nick body : string) : string :=
  PyStr.lstrip (PyStr.lstrip_chars (nick +:+ ":") body).

(** [muc_message(msg)]: a message from the chat room. *)
Definition muc_message (env : Env) (msg : Msg) : M (option string) :=
  b ← this;
  if negb (_muc_ready b) then mret None
  else if String.eqb (m_mucnick msg) (nick b) then mret None
  else
    (* Respond to the message only if the bots nickname is mentioned
       And only if we can get user's JID *)
    if PyStr.startswith (m_body msg) (nick b +:+ ":") then
      get_jid env msg ≫= fun jid : option string =>
      if match jid with Some j => PyStr.truthy j | None => false end
      then message env (set_body (muc_body (nick b) (m_body msg)) msg) ["groupchat"]
      else mret None
    else mret None.

(* ===================================================================== *)
(** ** Reload *)
(* ===================================================================== *)

Definition maxhistory : string := "4096".

(** [reload(config, plugins)]: reload bot configuration and plugins, then
    leave and rejoin the room. *)
Definition reload (env : Env) (config : Config) (plugin_list : list Plugin) : M unit :=
  logger INFO "Requested reload" [];;
  assign (set_reloaded true);;
  _load_config env config false;;
  _load_plugins env config plugin_list false;;
  b ← this;
  when (truthy_opt (room b) && muc b)
    (assign (set_muc_ready false);;
     call (LeaveMUC (py_str (room b)) (nick b));;
     logger INFO "Reinitializing multi-user chat room %s" [AStr (py_str (room b))];;
     call (JoinMUC (py_str (room b)) (nick b) maxhistory)).

(* ===================================================================== *)
(** ** Specification vocabulary *)
(* ===================================================================== *)

(** Assertions speak about the bot and the calls made so far. *)
Definition Pred : Type := Bot -> list Call -> Prop.

(** [triple P m Q E]: started where [P] holds, [m] ends where [Q] holds when
    it returns and where [E] holds when it raises. *)
Definition triple {A} (P : Pred) (m : M A) (Q : A -> Pred) (E : Pred) : Prop :=
  forall b tr, P b tr ->
    match m b tr with
    | (Ret a, b', tr') => Q a b' tr'
    | (Raise _, b', tr') => E b' tr'
    end.

(** [preserves I m]: [I] holds after [m], returned or raised, if it held before. *)
Definition preserves {A} (I : Pred) (m : M A) : Prop := triple I m (fun _ => I) I.

(** The JIDs invited by a trace of calls, in order. *)
Definition invites (tr : list Call) : list string :=
  omap (fun c => match c with Invite _ jid => Some jid | _ => None end) tr.

(** Is [jid] in the room, as [_is_jid_in_room] finds it ([false] where it
    raises). *)
Definition present (env : Env) (b : Bot) (jid : string) : bool :=
  match room_occupants env b with
  | Some occupants => jid_among occupants jid
  | None => false
  end.

(** What holds of the bot and of the invitations sent while presence stanzas
    are handled, relative to the bot [b0] before them. *)
Definition reconciled (env : Env) (b0 : Bot) : Pred := fun b tr =>
  room_users b = room_users b0 /\ room b = room b0 /\
  room_users_invited b = room_users_invited b0 ∪ list_to_set (invites tr) /\
  NoDup (invites tr) /\
  forall jid, jid ∈ invites tr ->
    jid ∈ room_users b0 /\ (jid ∉ room_users_invited b0) /\ present env b0 jid = false.

(** Nothing is left to do for [jid]: it is in the room, or it is the room
    itself, or invitations are off, or it has been invited. *)
Definition covered (env : Env) (b : Bot) (jid : string) : Prop :=
  present env b jid = true \/ Some jid = room b \/ room_invites b = false
  \/ jid ∈ room_users_invited b.

(** The attributes the reconciliation reads and never writes are those of
    [b0]. *)
Definition unchanged (b0 : Bot) : Pred := fun b _ =>
  room b = room b0 /\ nick b = nick b0 /\ room_invites b = room_invites b0
  /\ room_users b = room_users b0.

(** As [unchanged], and no invitation has been sent nor recorded. *)
Definition quiet (b0 : Bot) : Pred := fun b tr =>
  unchanged b0 b tr /\ room_users_invited b = room_users_invited b0 /\ invites tr = [].

(** The invariant of the invited set: every invited JID is a configured room
    user. *)
Definition invited_within (b : Bot) : Prop := room_users_invited b ⊆ room_users b.

(** Room presence stanzas, each with what the collaborators hold when it is
    handled. *)
Inductive RoomEvent : Type :=
| GotOnline (env : Env) (presence : Presence)
| GotOffline (env : Env) (presence : Presence).

(** The handler a stanza goes to. *)
Definition handle (ev : RoomEvent) : M unit :=
  match ev with
  | GotOnline env presence => muc_online env presence
  | GotOffline env presence => muc_offline env presence
  end.

(** The bot after a sequence of room presence stanzas, each handled on the
    bot the one before left (also when that one raised). *)
Fixpoint after_events (evs : list RoomEvent) (b : Bot) : Bot :=
  match evs with
  | [] => b
  | ev :: evs' => after_events evs' (bot_of (handle ev) b)
  end.

(** What the policy asks of a call: a pushed room configuration is
    members-only exactly when room users are configured, and makes everybody
    a member by default exactly when none is. *)
Definition policy_of (b : Bot) (c : Call) : Prop :=
  match c with
  | SetRoomConfig _ form =>
      form !! membersonly = Some (VBool (negb (bool_decide (room_users b = ∅))))
      /\ form !! members_by_default = Some (VBool (bool_decide (room_users b = ∅)))
  | _ => True
  end.

(** The form [_room_config] pushes when it got [form] from the server. *)
Definition configured (b : Bot) (form : Form) : Form :=
  <[members_by_default := VBool (bool_decide (room_users b = ∅))]>
    (<[membersonly := VBool (negb (bool_decide (room_users b = ∅)))]> form).

(** The chat messages sent by a trace of calls: [(to, body, type)]. *)
Definition messages_sent (tr : list Call) : list (string * string * string) :=
  omap (fun c => match c with SendMessage mto mbody mtype => Some (mto, mbody, mtype)
                         | _ => None end) tr.

(** The calls that change the room on the server or invite to it. *)
Definition changes_room (c : Call) : bool :=
  match c with
  | Invite _ _ | SetRoomConfig _ _ | SetAffiliations _ _ => true
  | _ => false
  end.

(** The bot's own occupant JID, [room/nick]. *)
Definition own_jid (b : Bot) : string := py_str (room b) +:+ "/" +:+ nick b.

(** The registry entry of module [k] is [v]. *)
Definition entry_is (k : string) (v : option PluginObj) : Pred :=
  fun b _ => OrderedDict.get k (plugins b) = v.

(** The call [c] has been made. *)
Definition made (c : Call) : Pred := fun _ tr => c ∈ tr.

(** The assertion nothing satisfies (nothing is raised) and the one
    everything does. *)
Definition never : Pred := fun _ _ => False.
Definition always : Pred := fun _ _ => True.

(** The log entry of a constructor failure. *)
Definition could_not_load (plugin : Plugin) : Call :=
  Log CRITICAL "Could not load plugin: %s" [AStr (module plugin)].

(** The first statement of [_load_plugins]: on the first load the registry
    is emptied and the bot registers itself, on a reload the plugins that
    are no plugins any more are removed. *)
Definition prepare_registry (env : Env) (plugin_list : list Plugin) (init : bool) : M unit :=
  if init then
    assign (set_plugins []);;
    assign (fun b => set_plugins (OrderedDict.set __name__ SelfBot (plugins b)) b)
  else
    b ← this;
    for_each (OrderedDict.keys (plugins b)) (disable_plugin env plugin_list).

(** The last statements of [_load_plugins]: the commands, web hooks and cron
    jobs registered are logged. *)
Definition report_registered (env : Env) : M unit :=
  b ← this;
  (match commands_all env (plugins b) with
   | [] => logger WARNING "NO commands registered" []
   | cmds => logger INFO ("Registered commands:" +:+ nl +:+ "%s" +:+ nl) [AStr (PyStr.join nl cmds)]
   end);;
  (if bool_decide (is_Some (webserver b)) then
     match webhooks env with
     | [] => logger WARNING "NO webhooks registered" []
     | hooks => logger INFO ("Registered webhooks:" +:+ nl +:+ "%s" +:+ nl) [AStr (PyStr.join nl hooks)]
     end
   else logger WARNING "Web server support disabled - webhooks will not work" []);;
  (if cron b then
     match crontab env with
     | [] => logger WARNING "NO cron jobs registered" []
     | jobs => logger INFO ("Registered cron jobs:" +:+ nl +:+ "%s" +:+ nl) [AStr (PyStr.join nl jobs)]
     end
   else logger WARNING "Cron support disabled - cron jobs will not work" []).

(** The bot when, in the pass over [plugin_list], the turn of the plugin
    that follows [before] comes. *)
Definition at_turn (env : Env) (config : Config) (plugin_list before : list Plugin)
    (init : bool) (b : Bot) : Bot :=
  bot_of (prepare_registry env plugin_list init;;
          for_each before (load_plugin config init)) b.

(** The [reinit] flag of the turn of [plugin] on bot [b]: the module is
    registered and the pass is a reload. *)
Definition reinit_of (init : bool) (plugin : Plugin) (b : Bot) : bool :=
  negb (init || negb (OrderedDict.contains (module plugin) (plugins b))).

(** The bot the constructor is called with: the module to reload has been
    deleted from its registry. *)
Definition bot_at_call (init : bool) (plugin : Plugin) (b : Bot) : Bot :=
  if reinit_of init plugin b
  then set_plugins (OrderedDict.del (module plugin) (plugins b)) b
  else b.

(** What the constructor call of the turn of [plugin] on bot [b] gives: the
    object, or what was raised (by [config.items] or by the constructor). *)
Definition constructor_call (config : Config) (init : bool) (plugin : Plugin) (b : Bot)
    : Exn + string :=
  constructed config plugin (bot_at_call init plugin b) (reinit_of init plugin b).

(** What the turn of [plugin], run on bot [b0], leaves behind. *)
Definition turned (config : Config) (init : bool) (plugin : Plugin) (b0 : Bot) : Pred :=
  fun b tr =>
    match constructor_call config init plugin b0 with
    | inl _ =>
        OrderedDict.get (module plugin) (plugins b) = None /\ could_not_load plugin ∈ tr
    | inr obj => OrderedDict.get (module plugin) (plugins b) = Some (Instance obj)
    end.

(** The pass, turn by turn. *)

(* ===================================================================== *)
(** ** A small deployment to run the methods on *)
(* ===================================================================== *)

(** A [ConfigParser] holding the given [((section, option), value)] list. *)
Definition find_option (opts : list ((string * string) * string)) (section name : string)
    : option string :=
  snd <$> List.find (fun o => String.eqb o.1.1 section && String.eqb o.1.2 name) opts.

(** [value.lower()], on the letters [A] to [Z]. *)
Definition lower_char (c : ascii) : ascii :=
  let n := nat_of_ascii c in
  if (65 <=? n)%nat && (n <=? 90)%nat then ascii_of_nat (n + 32) else c.

Definition lower (value : string) : string :=
  string_of_list_ascii (lower_char <$> list_ascii_of_string value).

(** [getboolean]: the value in lower case is looked up among the spellings
    [ConfigParser] accepts. *)
Definition parse_boolean (value : string) : Exn + bool :=
  if bool_decide (lower value ∈ ["1"; "yes"; "true"; "on"]) then inr true
  else if bool_decide (lower value ∈ ["0"; "no"; "false"; "off"]) then inr false
  else inl (ValueError value).

(** [int(value)]: white space around is dropped, a sign may come first, and
    the decimal digits may be separated by single underscores. *)
Definition digit_of (c : ascii) : option Z :=
  let n := nat_of_ascii c in
  if (48 <=? n)%nat && (n <=? 57)%nat then Some (Z.of_nat (n - 48)) else None.

Fixpoint digits_value (acc : Z) (after_digit : bool) (s : string) : option Z :=
  match s with
  | EmptyString => if after_digit then Some acc else None
  | String c rest =>
      match digit_of c with
      | Some d => digits_value (10 * acc + d) true rest
      | None =>
          if Ascii.eqb c "_" && after_digit then
            match rest with
            | String c' _ =>
                if bool_decide (is_Some (digit_of c')) then digits_value acc false rest
                else None
            | EmptyString => None
            end
          else None
      end
  end.

Definition parse_int (value : string) : Exn + Z :=
  let signed :=
    match PyStr.strip value with
    | String "-" digits => (fun n => - n) <$> digits_value 0 false digits
    | String "+" digits => digits_value 0 false digits
    | digits => digits_value 0 false digits
    end in
  match signed with Some n => inr n | None => inl (ValueError value) end.

Definition has_section (opts : list ((string * string) * string)) (section : string) : bool :=
  existsb (fun o : (string * string) * string => String.eqb o.1.1 section) opts.

(** What a getter raises when the option is not found: [NoSectionError] if
    the section is missing too. *)
Definition not_found (opts : list ((string * string) * string)) (section name : string)
    : Exn :=
  if has_section opts section then NoOptionError section name else NoSectionError section.

(** The parser over the list: section and option names in lower case, values
    in ASCII and free of interpolation, no [DEFAULT] section. A section
    exists when it holds an option; [items] and the getters raise
    [NoSectionError] for one that does not. *)
Definition config_of (opts : list ((string * string) * string)) : Config :=
  {| has_option := fun s o => bool_decide (is_Some (find_option opts s o));
     get := fun s o =>
       match find_option opts s o with Some v => inr v | None => inl (not_found opts s o) end;
     getboolean := fun s o =>
       match find_option opts s o with
       | Some v => parse_boolean v
       | None => inl (not_found opts s o)
       end;
     getint := fun s o =>
       match find_option opts s o with
       | Some v => parse_int v
       | None => inl (not_found opts s o)
       end;
     items := fun s =>
       if has_section opts s then
         inr (omap (fun o : (string * string) * string =>
                      if String.eqb o.1.1 s then Some (o.1.2, o.2) else None) opts)
       else inl (NoSectionError s) |}.

(** One room, two users of whom alice administers, and carol, whose entry
    lacks the address marker; a section for each plugin. *)
Definition demo_room : string := "ops@conference.example.com".

Definition demo_config : Config :=
  config_of
    [ (("xmpp", "nick"), "Ludolph");
      (("xmpp", "users"), "alice@example.com, bob@example.com, carol");
      (("xmpp", "admins"), "alice@example.com");
      (("xmpp", "room"), demo_room);
      (("xmpp", "room_users"), "@users");
      (("xmpp", "room_admins"), "@admins");
      (("zabbix", "server"), "https://zabbix.example.com");
      (("hooks", "secret"), "s3cret");
      (("base", "enabled"), "true") ].

(** The form the server hands out for the room. *)
Definition demo_form : Form :=
  {[ membersonly := VBool false;
     members_by_default := VBool true;
     "muc#roomconfig_roomname" := VStr "ops" ]}.

(** The room holds the bot and alice; the server accepts everything. *)
Definition demo_env : Env :=
  {| now := 1700000000;
     muc_rooms :=
       {[ demo_room := {[ "Ludolph" := Some (mkJID "ludolph@example.com" "bot");
                          "alice" := Some (mkJID "alice@example.com" "home") ]} ]};
     getRoomConfig := fun _ => inr demo_form;
     setRoomConfig := fun _ _ => None;
     iq_send := fun _ _ => None;
     db_items := fun _ => (∅, ∅);
     in_plugins := fun k l => bool_decide (k ∈ map module l);
     commands_all := fun _ => [];
     get_command := fun _ => None;
     webhooks := [];
     crontab := [] |}.

(** A bot whose invited set still names mallory, who is configured no more. *)
Definition stale_bot : Bot :=
  set_room_users_invited {[ "mallory@example.com" ]}
    (set_muc true (new_bot (mkJID "ludolph@example.com" "bot"))).

(** The bot once [demo_config] is loaded. *)
Definition demo_bot : Bot := bot_of (_load_config demo_env demo_config true) stale_bot.

(** The bot's own presence in the room, and bob's. *)
Definition own_presence : Presence :=
  mkPresence (mkJID demo_room "Ludolph") (mkJID "ludolph@example.com" "bot")
    "Ludolph" "moderator" "owner".

Definition bob_presence : Presence :=
  mkPresence (mkJID demo_room "bob") (mkJID "bob@example.com" "phone")
    "bob" "participant" "member".

(** The bot arrives, bob enters and leaves, the bot's presence is echoed. *)
Definition demo_events : list RoomEvent :=
  [GotOnline demo_env own_presence; GotOnline demo_env bob_presence;
   GotOffline demo_env bob_presence; GotOnline demo_env own_presence].

(** A configuration whose room admins name root, who is no room user. *)
Definition outsider_config : Config :=
  config_of
    [ (("xmpp", "room"), demo_room);
      (("xmpp", "room_users"), "alice@example.com, bob@example.com");
      (("xmpp", "room_admins"), "alice@example.com, root@example.com") ].

(** The bot once [outsider_config] is loaded. *)
Definition outsider_bot : Bot :=
  bot_of (_load_config demo_env outsider_config true)
    (new_bot (mkJID "ludolph@example.com" "bot")).

(** Two plugins: the constructor of the first raises, the second loads. *)
Definition zabbix_plugin : Plugin :=
  mkPlugin "zabbix" "ludolph.plugins.zabbix"
    (fun _ _ _ => inl (Exception "Zabbix API not available")).

Definition base_plugin : Plugin :=
  mkPlugin "base" "ludolph.plugins.base" (fun _ _ _ => inr "Base").

Definition demo_plugins : list Plugin := [zabbix_plugin; base_plugin].

(** A plugin whose constructor needs the web server: it raises on a bot
    that has none. *)
Definition hooks_plugin : Plugin :=
  mkPlugin "hooks" "ludolph.plugins.hooks"
    (fun b _ _ => if bool_decide (is_Some (webserver b)) then inr "Hooks"
                  else inl (Exception "web server required")).

Definition pass_plugins : list Plugin := [zabbix_plugin; hooks_plugin; base_plugin].

(** A plugin that cannot be reloaded: its constructor raises when [reinit]
    is set. The bot on which it has been loaded once. *)
Definition fragile_plugin : Plugin :=
  mkPlugin "base" "ludolph.plugins.base"
    (fun _ _ reinit => if reinit then inl (Exception "cannot be reloaded") else inr "Base").

Definition loaded_once_bot : Bot :=
  bot_of (_load_plugins demo_env demo_config [fragile_plugin] true) demo_bot.

(** The command [help] and its answer. *)
Definition help_command : Command :=
  mkCommand "help" "ludolph.plugins.base" (fun _ _ => inr (Some "Available commands: help")).

(** [demo_env] with one registered command, [help]. *)
Definition router_env : Env :=
  mkEnv (now demo_env) (muc_rooms demo_env) (getRoomConfig demo_env) (setRoomConfig demo_env)
    (iq_send demo_env) (db_items demo_env) (in_plugins demo_env) (commands_all demo_env)
    (fun word => if String.eqb word "help" then Some help_command else None)
    (webhooks demo_env) (crontab demo_env).

(** The demo bot with the room ready, and a room message from alice. *)
Definition ready_bot : Bot := set_muc_ready true demo_bot.

Definition room_msg (body : string) : Msg :=
  mkMsg "groupchat" body (mkJID demo_room "alice") demo_room "alice".

(* ===================================================================== *)
(** ** Vocabulary for message bodies *)
(* ===================================================================== *)

(** A body without a word: every character is white space. *)
Definition blank (s : string) : bool :=
  forallb PyStr.is_space (list_ascii_of_string s).

(** A word: no character is white space. *)
Definition spaceless (s : string) : bool :=
  forallb (fun c => negb (PyStr.is_space c)) (list_ascii_of_string s).

(** A string of ASCII characters only. On such a string the white space of
    [PyStr] is all the white space [str.split] and [str.lstrip] know, and a
    character is a code point. *)
Definition ascii_only (s : string) : bool :=
  forallb (fun c => (nat_of_ascii c <? 128)%nat) (list_ascii_of_string s).

(** The sender of a room message as [muc_message] resolves it. *)
Definition sender_of (env : Env) (b : Bot) (msg : Msg) : option JID :=
  if truthy_opt (room b) then getJidProperty env (m_mucroom msg) (m_mucnick msg)
  else Some (m_from msg).

(** The first character of a string, if any. *)
Definition first_char (s : string) : option ascii :=
  match s with EmptyString => None | String c _ => Some c end.

(** The log entry of a command that returned a text. *)
Definition finished (cmd : Command) : Call :=
  Log INFO "Command %s.%s finished in %g seconds"
    [AStr (cmd_module cmd); AStr (cmd_name cmd); AElapsed].

(* ===================================================================== *)
(** ** Vocabulary for the readiness of the room *)
(* ===================================================================== *)

(** The calls that leave or join a room, in order. *)
Definition rejoins (tr : list Call) : list Call :=
  List.filter (fun c => match c with LeaveMUC _ _ | JoinMUC _ _ _ => true | _ => false end) tr.

(** The server accepts a request or rejects it with an [IqError]. *)
Definition accepted_or_rejected (r : option Exn) : Prop :=
  r = None \/ exists text, r = Some (IqError text).

(** The failures [_room_config] is written to survive: the room has no
    configuration to hand out ([ValueError]), or it hands out a form with the
    two fields the bot sets, and the server answers the two pushes by
    accepting or rejecting them. *)
Definition room_config_tolerated (env : Env) (b : Bot) : Prop :=
  ((exists what, getRoomConfig env (room b) = inl (ValueError what))
   \/ (exists form, getRoomConfig env (room b) = inr form
        /\ is_Some (form !! membersonly) /\ is_Some (form !! members_by_default)))
  /\ (forall r form, accepted_or_rejected (setRoomConfig env r form))
  /\ (forall r items, accepted_or_rejected (iq_send env r items)).

(** The greeting of the bot to the room. *)
Definition greeting (b : Bot) : string * string * string :=
  (py_str (room b), nick b +:+ " is here!", "groupchat").

(** The room is marked ready and has been greeted. *)
Definition announced (b0 : Bot) : Pred := fun b tr =>
  _muc_ready b = true /\ greeting b0 ∈ messages_sent tr.

(** A server that rejects both pushes of the room configuration. *)
Definition rejecting_env : Env :=
  mkEnv (now demo_env) (muc_rooms demo_env) (getRoomConfig demo_env)
    (fun _ _ => Some (IqError "forbidden")) (fun _ _ => Some (IqError "forbidden"))
    (db_items demo_env) (in_plugins demo_env) (commands_all demo_env)
    (get_command demo_env) (webhooks demo_env) (crontab demo_env).

(** A server whose room form lacks the members-only field. *)
Definition bare_form_env : Env :=
  mkEnv (now demo_env) (muc_rooms demo_env)
    (fun _ => inr {[ members_by_default := VBool true ]})
    (setRoomConfig demo_env) (iq_send demo_env)
    (db_items demo_env) (in_plugins demo_env) (commands_all demo_env)
    (get_command demo_env) (webhooks demo_env) (crontab demo_env).

(** What the two loads of a reload keep: the reload mark, the readiness of
    the room and the chat plugin as they were, and no leave nor join. *)
Definition reloading (b0 : Bot) : Pred := fun b tr =>
  _reloaded b = true /\ _muc_ready b = _muc_ready b0 /\ muc b = muc b0
  /\ rejoins tr = [].

(* ===================================================================== *)
(** ** The bot behind the registry: [get_xmpp] *)
(* ===================================================================== *)

(** [get_xmpp()]: [PLUGINS[__name__]], the registry being the object behind
    [self.plugins]; a registry without the key raises [KeyError]. *)
Definition get_xmpp : M PluginObj :=
  b ← this;
  match OrderedDict.get __name__ (plugins b) with
  | Some obj => mret obj
  | None => raise (KeyError __name__)
  end.

(** What the constructor calls of a first load over [plugin_list] give, turn
    by turn, from bot [b] on: [Some obj] for the object returned, [None]
    for a call that raised. Each constructor is called with [reinit] false,
    on the bot as the turns before it left it: a constructor that returned
    has had its object registered. *)
Fixpoint constructor_results (config : Config) (plugin_list : list Plugin) (b : Bot)
    : list (option string) :=
  match plugin_list with
  | [] => []
  | plugin :: rest =>
      match constructed config plugin b false with
      | inr obj =>
          Some obj
          :: constructor_results config rest
               (set_plugins (OrderedDict.set (module plugin) (Instance obj) (plugins b)) b)
      | inl _ => None :: constructor_results config rest b
      end
  end.

(** The registry entries of the plugins whose constructors returned, in the
    order of the plugins. *)
Definition instances (plugin_list : list Plugin) (objs : list (option string))
    : OrderedDict.t :=
  omap (fun po : Plugin * option string =>
          (fun obj => (module po.1, Instance obj)) <$> po.2)
       (zip plugin_list objs).

(** A registry left by an earlier configuration, in which the plugin
    [ludolph.plugins.old] is still registered. *)
Definition old_registry_bot : Bot :=
  set_plugins [(__name__, SelfBot); ("ludolph.plugins.old", Instance "Old");
               ("ludolph.plugins.base", Instance "Base")] demo_bot.

(* ===================================================================== *)
(** ** Vocabulary for the configured roles and the persisted room state *)
(* ===================================================================== *)

(** The sets a keyword of [read_jid_array] stands for. *)
Definition known_sets (us ads rus : gset string) (kwd : string) : gset string :=
  if String.eqb kwd "users" then us
  else if String.eqb kwd "admins" then ads
  else if String.eqb kwd "room_users" then rus
  else ∅.

(** What one item of a comma-separated option contributes. *)
Definition jid_entry (known : string -> gset string) (keywords : list string)
    (item : string) : gset string :=
  let jid := PyStr.strip item in
  if negb (PyStr.truthy jid) then ∅
  else if PyStr.mem "@" jid then
    if PyStr.startswith jid "@" then
      if bool_decide (PyStr.tail jid ∈ keywords) then known (PyStr.tail jid) else ∅
    else {[jid]}
  else ∅.

(** What the value of an option contributes. *)
Definition jid_entries (known : string -> gset string) (keywords : list string)
    (value : string) : gset string :=
  ⋃ (jid_entry known keywords <$> PyStr.split_on "," (PyStr.strip value)).

(** The set an option of section [xmpp] stands for; empty without the option. *)
Definition configured_set (config : Config) (option : string)
    (known : string -> gset string) (keywords : list string) : gset string :=
  if has_option config "xmpp" option then
    match get config "xmpp" option with
    | inr value => jid_entries known keywords value
    | inl _ => ∅
    end
  else ∅.

Definition configured_users (config : Config) : gset string :=
  configured_set config "users" (known_sets ∅ ∅ ∅) [].

Definition configured_admins (config : Config) : gset string :=
  configured_set config "admins" (known_sets (configured_users config) ∅ ∅) ["users"].

Definition configured_room (config : Config) : option string :=
  if has_option config "xmpp" "room" then
    match get config "xmpp" "room" with
    | inr value => Some (PyStr.strip value)
    | inl _ => None
    end
  else None.

Definition configured_room_users (config : Config) : gset string :=
  if truthy_opt (configured_room config) then
    configured_set config "room_users"
      (known_sets (configured_users config) (configured_admins config) ∅)
      ["users"; "admins"]
  else ∅.

Definition configured_room_admins (config : Config) : gset string :=
  if truthy_opt (configured_room config) then
    configured_set config "room_admins"
      (known_sets (configured_users config) (configured_admins config)
         (configured_room_users config))
      ["users"; "admins"; "room_users"]
  else ∅.

(** What a load reads from the persistent DB: the items of the configured
    file, nothing without one. *)
Definition db_loaded (env : Env) (config : Config) : gset string * gmap string Z :=
  if has_option config "global" "dbfile" then
    match get config "global" "dbfile" with
    | inr dbfile => if PyStr.truthy dbfile then db_items env dbfile else (∅, ∅)
    | inl _ => (∅, ∅)
    end
  else (∅, ∅).

(** The invited set and the last-seen times once the DB is read, relative to
    the bot [b0] before the load. *)
Definition merged (env : Env) (config : Config) (b0 b : Bot) : Prop :=
  room_users_invited b = room_users_invited b0 ∪ (db_loaded env config).1
  /\ room_users_last_seen b = (db_loaded env config).2 ∪ room_users_last_seen b0.

(** The role sets read so far, in the order [_load_config] reads them: the
    first [n] of users, admins, room, room users and room admins. *)
Definition roles_read (n : nat) (config : Config) (b : Bot) : Prop :=
  (if (1 <=? n)%nat then users b = configured_users config else True)
  /\ (if (2 <=? n)%nat then admins b = configured_admins config else True)
  /\ (if (3 <=? n)%nat then room b = configured_room config else True)
  /\ (if (4 <=? n)%nat then room_users b = configured_room_users config else True)
  /\ (if (5 <=? n)%nat then room_admins b = configured_room_admins config else True).

(** The load of [config] on bot [b0] has come to the point where [n] role
    sets are read. *)
Definition stage (n : nat) (env : Env) (config : Config) (b0 b : Bot) : Prop :=
  merged env config b0 b /\ roles_read n config b.

(** What a load that returns leaves: the roles of the configuration, the
    invited set merged with the persisted one and pruned to the room users,
    and the last-seen times merged with the persisted ones. *)
Definition loaded_from (env : Env) (config : Config) (b0 b : Bot) : Prop :=
  roles_read 5 config b
  /\ room_users_invited b
     = (room_users_invited b0 ∪ (db_loaded env config).1) ∩ configured_room_users config
  /\ room_users_last_seen b = (db_loaded env config).2 ∪ room_users_last_seen b0.

(** A configured JID: not empty, with the address marker, which is not its
    first character. *)
Definition well_formed (jid : string) : Prop :=
  jid <> EmptyString /\ PyStr.mem "@" jid = true /\ PyStr.startswith jid "@" = false.

(** A configuration without a room, and a bot that still holds an
    invitation and a last-seen time from a room it managed before. *)
Definition roomless_config : Config :=
  config_of [ (("xmpp", "users"), "alice@example.com, bob@example.com") ].

Definition invited_bot : Bot :=
  set_room_users_last_seen {[ "bob@example.com/phone" := 1600000000 ]}
    (set_room_users_invited {[ "bob@example.com" ]} demo_bot).

(** The demo configuration with a DB file, and a DB that holds an
    invitation of bob and the time alice was last seen. *)
Definition stored_config : Config :=
  config_of
    [ (("global", "dbfile"), "/var/lib/ludolph/ludolph.db");
      (("xmpp", "users"), "alice@example.com, bob@example.com");
      (("xmpp", "room"), demo_room);
      (("xmpp", "room_users"), "@users") ].

Definition stored_env : Env :=
  mkEnv (now demo_env) (muc_rooms demo_env) (getRoomConfig demo_env) (setRoomConfig demo_env)
    (iq_send demo_env)
    (fun dbfile =>
       if String.eqb dbfile "/var/lib/ludolph/ludolph.db"
       then ({[ "bob@example.com" ]}, {[ "alice@example.com/home" := 1650000000 ]})
       else (∅, ∅))
    (in_plugins demo_env) (commands_all demo_env) (get_command demo_env)
    (webhooks demo_env) (crontab demo_env).

(** The invitations switch a load of [config] leaves. *)
Definition invites_switch (config : Config) (b : Bot) : Prop :=
  (has_option config "xmpp" "enabled" = false -> room_invites b = true)
  /\ (has_option config "xmpp" "enabled" = true ->
      getboolean config "xmpp" "room_invites" = inr (room_invites b)).

(** A configuration that switches the invitations off, without the option
    [enabled]. *)
Definition invites_off_config : Config :=
  config_of
    [ (("xmpp", "users"), "alice@example.com, bob@example.com");
      (("xmpp", "room"), demo_room);
      (("xmpp", "room_users"), "@users");
      (("xmpp", "room_invites"), "false") ].


(* ===================================================================== *)
(** ** The lifecycle: start of the session, reload, shutdown *)
(* ===================================================================== *)

(** The bot object with the attributes the lifecycle methods add to those
    of the handlers ([core]). *)
Record Client : Type := mkClient {
  core : Bot;
  shutting_down : bool;
  auto_authorize : bool;
  _start_time : option Z
}.

(** The object before [__init__] runs. *)
Definition new_client (jid : JID) : Client :=
  {| core := new_bot jid; shutting_down := false; auto_authorize := false;
     _start_time := None |}.

Definition set_core (b : Bot) (c : Client) : Client :=
  mkClient b (shutting_down c) (auto_authorize c) (_start_time c).
Definition set_shutting_down (v : bool) (c : Client) : Client :=
  mkClient (core c) v (auto_authorize c) (_start_time c).
Definition set_auto_authorize (v : bool) (c : Client) : Client :=
  mkClient (core c) (shutting_down c) v (_start_time c).
Definition set_start_time (v : option Z) (c : Client) : Client :=
  mkClient (core c) (shutting_down c) (auto_authorize c) v.

(** An attribute of the handlers written by a lifecycle method. *)
Definition on_core (f : Bot -> Bot) (c : Client) : Client := set_core (f (core c)) c.

(** An argument of a log record of the lifecycle methods. *)
Inductive Arg : Type := Plain (a : LogArg) | AInt (n : Z).

(** A value kept in the persistent DB. *)
Inductive Stored : Type :=
| Invited (jids : gset string)
| LastSeen (times : gmap string Z).

(** What the lifecycle methods do to the objects around the bot, in the
    order they do it: what the handlers do ([Handler]), and the calls on the
    roster, the web server, the scheduler, the persistent DB, the command
    table and the XMPP session. [DbSet] is [self.db[key] = value]. *)
Inductive Act : Type :=
| Handler (c : Call)
| Logged (lvl : Level) (fmt : string) (args : list Arg)
| LogException (e : Exn)
| ClientInit (jid password : string)
| RegisterPlugin (name : string)
| AddEventHandler (event method : string)
| StartThread (name : string)
| GetRoster
| SendNickPresence (pnick : string)
| Unsubscribe (pto : string)
| DelRosterItem (jid : string)
| SendPresenceSubscription (pto : string)
| WebserverStop
| CronStop
| DbSet (dbfile key : string) (value : Stored)
| DbClose (dbfile : string)
| Abort
| CommandsReset
| ResetWebhooks
| ResetWebapp
| CronReset.

(** What the objects around the bot answer while a lifecycle method runs:
    what stopping the web server and the scheduler, writing a key of the DB,
    closing the DB and aborting the session raise, if anything; whether the
    session has a socket; the roster, as [(jid, subscription)] in the order
    of its keys. *)
Record Sys : Type := mkSys {
  webserver_stop : option Exn;
  cron_stop : option Exn;
  db_set : string -> option Exn;
  db_close : option Exn;
  abort : option Exn;
  socket : bool;
  client_roster : list (string * string)
}.

(** How a lifecycle method ends: it returns, it raises, or it ends the
    process with [SystemExit(code)], which no [except Exception] catches. *)
Inductive Outcome (A : Type) : Type :=
| Done (a : A)
| Failed (e : Exn)
| Exited (code : Z).
Arguments Done {A} a.
Arguments Failed {A} e.
Arguments Exited {A} code.

Definition L (A : Type) : Type := Client -> list Act -> Outcome A * Client * list Act.

Definition l_ret {A} (a : A) : L A := fun c tr => (Done a, c, tr).
Definition l_raise {A} (e : Exn) : L A := fun c tr => (Failed e, c, tr).
Definition system_exit {A} (code : Z) : L A := fun c tr => (Exited code, c, tr).

Definition l_bind {A B} (m : L A) (k : A -> L B) : L B :=
  fun c tr =>
    match m c tr with
    | (Done a, c1, tr1) => k a c1 tr1
    | (Failed e, c1, tr1) => (Failed e, c1, tr1)
    | (Exited code, c1, tr1) => (Exited code, c1, tr1)
    end.

#[global] Instance L_ret : MRet L := @l_ret.
#[global] Instance L_bind : MBind L := fun A B k m => l_bind m k.

Definition self : L Client := fun c tr => (Done c, c, tr).
Definition update (f : Client -> Client) : L unit := fun c tr => (Done tt, f c, tr).
Definition act (a : Act) : L unit := fun c tr => (Done tt, c, tr ++ [a]).
Definition log (lvl : Level) (fmt : string) (args : list Arg) : L unit :=
  act (Logged lvl fmt args).

(** A call on an object around the bot that may raise. *)
Definition perform (a : Act) (raised : option Exn) : L unit :=
  act a;; match raised with Some e => l_raise e | None => mret tt end.

(** [try: m except Exception as e: h e] *)
Definition attempt {A} (m : L A) (h : Exn -> L A) : L A :=
  fun c tr =>
    match m c tr with
    | (Failed e, c1, tr1) => h e c1 tr1
    | ended => ended
    end.

(** A value computed outside the bot that may have raised. *)
Definition l_lift {A} (r : Exn + A) : L A :=
  match r with inl e => l_raise e | inr a => mret a end.

(** A method of the handlers, run on the bot of the client. *)
Definition handler {A} (m : M A) : L A :=
  fun c tr =>
    match m (core c) [] with
    | (Ret a, b, calls) => (Done a, set_core b c, tr ++ (Handler <$> calls))
    | (Raise e, b, calls) => (Failed e, set_core b c, tr ++ (Handler <$> calls))
    end.

Fixpoint l_for_each {X} (l : list X) (body : X -> L unit) : L unit :=
  match l with
  | [] => mret tt
  | x :: l' => body x ;; l_for_each l' body
  end.

(** [_db_set_items]: save data to persistent DB; without a DB the item
    assignment on [None] raises [TypeError]. *)
Definition _db_set_items (sys : Sys) : L unit :=
  log INFO "Syncing LudolphBot data with persistent DB file" [];;
  c ← self;
  match db (core c) with
  | Some dbfile =>
      perform (DbSet dbfile "room_users_invited" (Invited (room_users_invited (core c))))
        (db_set sys "room_users_invited");;
      perform (DbSet dbfile "room_users_last_seen" (LastSeen (room_users_last_seen (core c))))
        (db_set sys "room_users_last_seen")
  | None => l_raise (Exception "TypeError")
  end.

(** Modelled from the spec: [db_disable] of [LudolphDBMixin] (ludolph/db.py
    is not among the sources). The persistent store is detached: [self.db]
    is [None] again. *)
Definition db_disable : L unit :=
  update (on_core (set_db None)).

(** [self.db.close()] *)
Definition close_db (sys : Sys) : L unit :=
  c ← self;
  match db (core c) with
  | Some dbfile => perform (DbClose dbfile) (db_close sys)
  | None => l_raise (Exception "AttributeError")
  end.

(** The statements both [shutdown] and [prereload] run on the DB. *)
Definition sync_and_close (sys : Sys) : L unit :=
  c ← self;
  match db (core c) with
  | Some _ =>
      _db_set_items sys;;
      close_db sys;;
      db_disable
  | None => mret tt
  end.

(** [shutdown(signalnum, handler)]: the shutdown signal handler. *)
Definition shutdown (sys : Sys) (signalnum : Z) : L unit :=
  log INFO "Requested shutdown (%s)" [AInt signalnum];;
  c ← self;
  if shutting_down c then log WARNING "Shutdown is already in progress..." []
  else
    update (set_shutting_down true);;
    attempt
      (c ← self;
       if bool_decide (is_Some (webserver (core c)))
       then perform WebserverStop (webserver_stop sys) else mret tt)
      (fun e => log ERROR "Webserver shutdown failed: %s" [Plain (AExn e)]);;
    attempt
      (c ← self;
       if cron (core c) then perform CronStop (cron_stop sys) else mret tt)
      (fun e => log ERROR "Cron shutdown failed: %s" [Plain (AExn e)]);;
    attempt (sync_and_close sys)
      (fun e => log CRITICAL "Persistent DB file could not be properly closed: %s"
                  [Plain (AExn e)]);;
    attempt (perform Abort (abort sys))
      (fun e =>
         (* Unhandled exception in SleekXMPP when socket is not connected and
            shutdown is requested *)
         if negb (socket sys) then act (LogException e);; system_exit 99
         else l_raise e).

(** [prereload()]: cleanup during reload phase. Runs before plugin loading
    in main. *)
Definition prereload (sys : Sys) : L unit :=
  act CommandsReset;;
  c ← self;
  (if bool_decide (is_Some (webserver (core c)))
   then act ResetWebhooks;; act ResetWebapp else mret tt);;
  (if cron (core c) then act CronReset else mret tt);;
  sync_and_close sys.

(** One turn of the loop of [roster_cleanup] over the keys of the roster. *)
Definition roster_item (item : string * string) : L unit :=
  let i := item.1 in
  let subscription := item.2 in
  c ← self;
  if String.eqb subscription "none"
     || (negb (bool_decide (users (core c) = ∅)) && negb (bool_decide (i ∈ users (core c))))
  then
    log WARNING "Roster item: %s (%s) - removing!" [Plain (AStr i); Plain (AStr subscription)];;
    act (Unsubscribe i);;
    act (DelRosterItem i)
  else if String.eqb subscription "to" then
    log INFO "Roster item: %s (%s) - sending presence subscription"
      [Plain (AStr i); Plain (AStr subscription)];;
    act (SendPresenceSubscription i)
  else
    log INFO "Roster item: %s (%s) - ok" [Plain (AStr i); Plain (AStr subscription)].

(** [roster_cleanup()]: remove roster items with none subscription, and
    users that are not in the users setting (if set). *)
Definition roster_cleanup (sys : Sys) : L unit :=
  log INFO "Current roster: %s" [Plain (AStr (PyStr.join ", " (client_roster sys).*1))];;
  l_for_each (client_roster sys) roster_item.

(** [session_start(event)]: process the session_start event. *)
Definition session_start (sys : Sys) : L unit :=
  act GetRoster;;
  roster_cleanup sys;;
  c ← self;
  act (SendNickPresence (nick (core c)));;
  if truthy_opt (room (core c)) && muc (core c) then
    log INFO "Initializing multi-user chat room %s" [Plain (AStr (py_str (room (core c))))];;
    act (Handler (JoinMUC (py_str (room (core c))) (nick (core c)) maxhistory))
  else mret tt.

(** [msg_broadcast(mbody)]: send message to all users in roster; the number
    of roster items is returned. *)
Definition msg_broadcast (sys : Sys) (mbody mtype : string) : L nat :=
  l_for_each (client_roster sys).*1
    (fun jid => act (Handler (SendMessage jid mbody mtype)));;
  mret (length (client_roster sys)).

(** [__init__(config, plugins)]: the configuration and the plugins are
    loaded on empty room sets, then the XMPP client is initialised and the
    event handlers are registered, those of the room only when a room is
    configured. The arguments of the client's initialiser are read from the
    configuration before it runs. *)
Definition __init__ (env : Env) (config : Config) (plugin_list : list Plugin) : L unit :=
  update (on_core (set_room_users ∅));;
  update (on_core (set_room_admins ∅));;
  update (on_core (set_room_users_invited ∅));;
  update (on_core (set_room_users_last_seen ∅));;
  handler (_load_config env config true);;
  c ← self;
  log INFO "Initializing *%s* jabber bot" [Plain (AStr (nick (core c)))];;
  handler (_load_plugins env config plugin_list true);;
  (* Initialize the SleekXMPP client *)
  username ← l_lift (get config "xmpp" "username");
  password ← l_lift (get config "xmpp" "password");
  act (ClientInit username password);;
  update (set_auto_authorize true);;
  (* Register XMPP plugins *)
  act (RegisterPlugin "xep_0030");;
  act (RegisterPlugin "xep_0045");;
  act (RegisterPlugin "xep_0199");;
  act (RegisterPlugin "xep_0084");;
  act (RegisterPlugin "xep_0153");;
  (* Register event handlers *)
  act (AddEventHandler "session_start" "session_start");;
  act (AddEventHandler "message" "message");;
  c ← self;
  (if truthy_opt (room (core c)) then
     update (on_core (set_muc true));;
     act (AddEventHandler "groupchat_message" "muc_message");;
     act (AddEventHandler ("muc::" +:+ py_str (room (core c)) +:+ "::got_online") "muc_online");;
     act (AddEventHandler ("muc::" +:+ py_str (room (core c)) +:+ "::got_offline") "muc_offline")
   else mret tt);;
  (* Start the web server thread for processing HTTP requests *)
  c ← self;
  (if bool_decide (is_Some (webserver (core c))) then act (StartThread "webserver")
   else mret tt);;
  (* Start the scheduler thread for running periodic cron jobs *)
  c ← self;
  (if cron (core c) then act (StartThread "cron") else mret tt);;
  (* Save start time *)
  update (set_start_time (Some (now env))).

(** Running a lifecycle method from an empty trace. *)
Definition outcome_of {A} (m : L A) (c : Client) : Outcome A := (m c []).1.1.
Definition client_of {A} (m : L A) (c : Client) : Client := (m c []).1.2.
Definition acts_of {A} (m : L A) (c : Client) : list Act := (m c []).2.

(** What the DB file [dbfile] holds under the two keys of the bot after a
    trace of acts, given what it held before. *)
Definition db_write (dbfile : string) (held : gset string * gmap string Z) (a : Act)
    : gset string * gmap string Z :=
  match a with
  | DbSet f key value =>
      if String.eqb f dbfile then
        match value with
        | Invited jids => if String.eqb key "room_users_invited" then (jids, held.2) else held
        | LastSeen times => if String.eqb key "room_users_last_seen" then (held.1, times) else held
        end
      else held
  | _ => held
  end.

Definition db_after (dbfile : string) (held : gset string * gmap string Z)
    (acts : list Act) : gset string * gmap string Z :=
  foldl (db_write dbfile) held acts.

(** The rooms joined by a trace of acts, in order. *)
Definition joined_rooms (acts : list Act) : list Call :=
  omap (fun a => match a with
                 | Handler (JoinMUC r n h) => Some (JoinMUC r n h)
                 | _ => None
                 end) acts.

(** What the last [try] of [shutdown] makes of the answer of [abort]. *)
Definition teardown (sys : Sys) : Outcome unit :=
  match abort sys with
  | None => Done tt
  | Some e => if socket sys then Failed e else Exited 99
  end.

(** Does the cleanup remove the roster item? *)
Definition removed (b : Bot) (item : string * string) : bool :=
  String.eqb item.2 "none"
  || (negb (bool_decide (users b = ∅)) && negb (bool_decide (item.1 ∈ users b))).

(** The bot as the first statements of [__init__] leave it: no room users,
    no room admins, nobody invited, nobody seen. *)
Definition reset (b : Bot) : Bot :=
  set_room_users_last_seen ∅
    (set_room_users_invited ∅ (set_room_admins ∅ (set_room_users ∅ b))).

(** Two bots that differ in the plugin registry at most. *)
Definition same_but_plugins (b0 : Bot) : Pred := fun b _ =>
  set_plugins [] b = set_plugins [] b0.

(** A running bot with a web server, a scheduler and a DB attached. *)
Definition demo_dbfile : string := "/var/lib/ludolph/ludolph.db".

Definition demo_client : Client :=
  {| core := set_db (Some demo_dbfile)
               (set_cron true (set_webserver (Some ("127.0.0.1", 8922)) invited_bot));
     shutting_down := false; auto_authorize := true; _start_time := Some 1690000000 |}.

(** Collaborators that all fail to stop, a DB that takes no write, and a
    session that was never connected. *)
Definition failing_sys : Sys :=
  {| webserver_stop := Some (Exception "webserver");
     cron_stop := Some (Exception "cron");
     db_set := fun _ => Some (Exception "read-only file system");
     db_close := Some (Exception "closed");
     abort := Some (Exception "socket");
     socket := false;
     client_roster := [] |}.

(** Collaborators that do as they are told; three roster items. *)
Definition demo_sys : Sys :=
  {| webserver_stop := None; cron_stop := None; db_set := fun _ => None;
     db_close := None; abort := None; socket := true;
     client_roster := [("alice@example.com", "both"); ("bob@example.com", "to");
                       ("mallory@example.com", "both"); ("carol@example.com", "none")] |}.

(** The next start: the configuration names the DB file and the account,
    and the DB holds what the shutdown of [demo_client] wrote. *)
Definition restart_config : Config :=
  config_of
    [ (("global", "dbfile"), demo_dbfile);
      (("xmpp", "username"), "ludolph@example.com");
      (("xmpp", "password"), "secret");
      (("xmpp", "users"), "alice@example.com, bob@example.com");
      (("xmpp", "room"), demo_room);
      (("xmpp", "room_users"), "@users") ].

Definition restart_env : Env :=
  mkEnv (now demo_env) (muc_rooms demo_env) (getRoomConfig demo_env) (setRoomConfig demo_env)
    (iq_send demo_env)
    (fun dbfile => db_after dbfile (∅, ∅) (acts_of (shutdown demo_sys 15) demo_client))
    (in_plugins demo_env) (commands_all demo_env) (get_command demo_env)
    (webhooks demo_env) (crontab demo_env).

(** The reload after [prereload]: the DB holds what [prereload] wrote. *)
Definition reload_env : Env :=
  mkEnv (now demo_env) (muc_rooms demo_env) (getRoomConfig demo_env) (setRoomConfig demo_env)
    (iq_send demo_env)
    (fun dbfile => db_after dbfile (∅, ∅) (acts_of (prereload demo_sys) demo_client))
    (in_plugins demo_env) (commands_all demo_env) (get_command demo_env)
    (webhooks demo_env) (crontab demo_env).

(** A start without a room. *)
Definition roomless_start_config : Config :=
  config_of
    [ (("xmpp", "username"), "ludolph@example.com");
      (("xmpp", "password"), "secret");
      (("xmpp", "users"), "alice@example.com, bob@example.com") ].

(* ===================================================================== *)
(** ** Reasoning about method bodies *)
(* ===================================================================== *)

Lemma triple_conseq {A} (P P' : Pred) (m : M A) (Q Q' : A -> Pred) (E E' : Pred) :
  triple P' m Q' E' ->
  (forall b tr, P b tr -> P' b tr) ->
  (forall a b tr, Q' a b tr -> Q a b tr) ->
  (forall b tr, E' b tr -> E b tr) ->
  triple P m Q E.
Proof.
  intros Hm HP HQ HE b tr Hb. specialize (Hm b tr (HP _ _ Hb)).
  destruct (m b tr) as [[[a|e] b'] tr']; auto.
Qed.

Lemma triple_top {A} (P : Pred) (m : M A) :
  triple P m (fun _ _ _ => True) (fun _ _ => True).
Proof. intros b tr _. destruct (m b tr) as [[[a|e] b'] tr']; exact I. Qed.

Lemma triple_ret {A} (P : Pred) (a : A) (Q : A -> Pred) (E : Pred) :
  (forall b tr, P b tr -> Q a b tr) -> triple P (mret a) Q E.
Proof. intros H b tr Hb. cbn. auto. Qed.

Lemma triple_raise {A} (P : Pred) (e : Exn) (Q : A -> Pred) (E : Pred) :
  (forall b tr, P b tr -> E b tr) -> triple P (raise e) Q E.
Proof. intros H b tr Hb. cbn. auto. Qed.

Lemma triple_bind {A B} (P : Pred) (m : M A) (k : A -> M B)
    (Q : A -> Pred) (R : B -> Pred) (E : Pred) :
  triple P m Q E -> (forall a, triple (Q a) (k a) R E) -> triple P (m ≫= k) R E.
Proof.
  intros Hm Hk b tr Hb. specialize (Hm b tr Hb).
  unfold mbind, M_bind, bind. destruct (m b tr) as [[[a|e] b1] tr1]; [|done].
  by apply Hk.
Qed.

Lemma triple_this_bind {B} (P : Pred) (k : Bot -> M B) (R : B -> Pred) (E : Pred) :
  (forall b0, triple (fun b tr => P b tr /\ b = b0) (k b0) R E) -> triple P (this ≫= k) R E.
Proof. intros Hk b tr Hb. by apply (Hk b b tr). Qed.

Lemma triple_this (P : Pred) (Q : Bot -> Pred) (E : Pred) :
  (forall b tr, P b tr -> Q b b tr) -> triple P this Q E.
Proof. intros H b tr Hb. cbn. auto. Qed.

Lemma triple_assign (P : Pred) (f : Bot -> Bot) (Q : unit -> Pred) (E : Pred) :
  (forall b tr, P b tr -> Q tt (f b) tr) -> triple P (assign f) Q E.
Proof. intros H b tr Hb. cbn. auto. Qed.

Lemma triple_call (P : Pred) (c : Call) (Q : unit -> Pred) (E : Pred) :
  (forall b tr, P b tr -> Q tt b (tr ++ [c])) -> triple P (call c) Q E.
Proof. intros H b tr Hb. cbn. auto. Qed.

Lemma triple_lift {A} (P : Pred) (r : Exn + A) (Q : A -> Pred) (E : Pred) :
  (forall a b tr, r = inr a -> P b tr -> Q a b tr) ->
  (forall b tr, P b tr -> E b tr) ->
  triple P (lift r) Q E.
Proof.
  intros HQ HE. destruct r as [e|a]; cbn.
  - by apply triple_raise.
  - apply (triple_ret P a Q E). eauto.
Qed.

Lemma triple_try_except {A} (P : Pred) (m : M A) (catches : Exn -> bool)
    (h : Exn -> M A) (Q : A -> Pred) (E' E : Pred) :
  triple P m Q E' ->
  (forall e, triple E' (h e) Q E) ->
  (forall e b tr, catches e = false -> E' b tr -> E b tr) ->
  triple P (try_except m catches h) Q E.
Proof.
  intros Hm Hh HE b tr Hb. specialize (Hm b tr Hb). unfold try_except.
  destruct (m b tr) as [[[a|e] b1] tr1]; [done|].
  destruct (catches e) eqn:Hc; [by apply Hh | by apply (HE e)].
Qed.

Lemma triple_for_each {X} (I E : Pred) (l : list X) (body : X -> M unit) :
  (forall x, x ∈ l -> triple I (body x) (fun _ => I) E) ->
  triple I (for_each l body) (fun _ => I) E.
Proof.
  induction l as [|x l IH]; intros Hbody; cbn [for_each].
  - by apply triple_ret.
  - apply triple_bind with (Q := fun _ => I).
    + apply Hbody. by left.
    + intros _. apply IH. intros y Hy. apply Hbody. by right.
Qed.

Lemma triple_fold_each {X S} (I E : Pred) (l : list X) (body : S -> X -> M S) (acc : S) :
  (forall s x, triple I (body s x) (fun _ => I) E) ->
  triple I (fold_each l body acc) (fun _ => I) E.
Proof.
  intros Hbody. revert acc. induction l as [|x l IH]; intros acc; cbn [fold_each].
  - by apply triple_ret.
  - apply triple_bind with (Q := fun _ => I); [apply Hbody | intros acc'; apply IH].
Qed.

(** Running a method from an empty trace, in the terms of [triple]. *)
Lemma triple_run {A} (P : Pred) (m : M A) (Q : A -> Pred) (E : Pred) (b : Bot) :
  triple P m Q E -> P b [] ->
  match result_of m b with
  | Ret a => Q a (bot_of m b) (calls_of m b)
  | Raise _ => E (bot_of m b) (calls_of m b)
  end.
Proof.
  intros Hm Hb. specialize (Hm b [] Hb). unfold result_of, bot_of, calls_of.
  by destruct (m b []) as [[[a|e] b'] tr'].
Qed.

Ltac head_of t := lazymatch t with ?f _ => head_of f | _ => t end.

(** [preserve known side]: prove [triple I m (fun _ => I) E] by following the
    shape of [m]; [known] closes a method call with a lemma already proved,
    [side] the conditions at an assignment or a call. What a [try] statement
    guards may raise where [I] holds. *)
Ltac preserve known side :=
  first
    [ solve [known]
    | lazymatch goal with
      | |- preserves _ _ => unfold preserves; preserve known side
      | |- triple ?I (mbind _ _) _ _ =>
          apply triple_bind with (Q := fun _ => I);
          [ preserve known side | intros ?; cbv beta; preserve known side ]
      | |- triple _ (mret _) _ _ => apply triple_ret; auto
      | |- triple _ (ret _) _ _ => apply triple_ret; auto
      | |- triple _ (raise _) _ _ => apply triple_raise; auto
      | |- triple _ this _ _ => apply triple_this; auto
      | |- triple _ (assign _) _ _ => apply triple_assign; side
      | |- triple _ (call _) _ _ => apply triple_call; side
      | |- triple _ (lift _) _ _ => apply triple_lift; auto
      | |- triple ?I (try_except _ _ _) _ _ =>
          apply triple_try_except with (E' := I);
          [ preserve known side | intros ?; preserve known side
          | intros ? ? ? ? ?; first [ assumption | unfold any_exception in *; discriminate ] ]
      | |- triple _ (for_each _ _) _ _ =>
          apply triple_for_each; intros ? ?; cbv beta; preserve known side
      | |- triple _ (fold_each _ _ _) _ _ =>
          apply triple_fold_each; intros ? ?; cbv beta; preserve known side
      | |- triple _ (if ?c then _ else _) _ _ => destruct c; preserve known side
      | |- triple _ (match ?x with _ => _ end) _ _ => destruct x; preserve known side
      | |- triple _ ?m _ _ =>
          first [ progress cbv zeta | let h := head_of m in unfold h ];
          preserve known side
      end ].

(** The side conditions of an assertion that the assignment or call at hand
    does not touch. *)
Ltac keep_side :=
  intros ? ? ?; first [ assumption | match goal with H : _ |- _ => exact H end ].

(** Unfold the monad and compute. *)
Ltac run_m :=
  unfold logger, when, lift, mbind, mret, M_bind, M_ret, bind, this, assign, call, ret,
    raise, try_except; cbn.

(** Case analysis on what the code branches on, innermost first. *)
Ltac split_cases :=
  repeat (cbn;
    match goal with
    | |- context [match ?x with _ => _ end] =>
        lazymatch x with
        | context [match _ with _ => _ end] => fail
        | _ => destruct x eqn:?
        end
    end).

(* ===================================================================== *)
(** ** Presence reconciliation and the invited set *)
(* ===================================================================== *)

Lemma invites_app (tr1 tr2 : list Call) : invites (tr1 ++ tr2) = invites tr1 ++ invites tr2.
Proof. apply omap_app. Qed.

Lemma invites_snoc_other (tr : list Call) (c : Call) :
  match c with Invite _ _ => False | _ => True end -> invites (tr ++ [c]) = invites tr.
Proof. intros Hc. rewrite invites_app. destruct c; cbn; try done; by rewrite app_nil_r. Qed.

Lemma invites_snoc_invite (tr : list Call) (r jid : string) :
  invites (tr ++ [Invite r jid]) = invites tr ++ [jid].
Proof. by rewrite invites_app. Qed.

Lemma reconciled_snoc (env : Env) (b0 b : Bot) (tr : list Call) (c : Call) :
  match c with Invite _ _ => False | _ => True end ->
  reconciled env b0 b tr -> reconciled env b0 b (tr ++ [c]).
Proof. intros Hc H. unfold reconciled. by rewrite invites_snoc_other. Qed.

(** One turn of the reconciliation loop: it invites [user] only when [user]
    is absent from the room and was not invited before, and records it. *)
Lemma check_room_user_reconciled (env : Env) (b0 : Bot) (user : string) :
  user ∈ room_users b0 -> preserves (reconciled env b0) (check_room_user env user).
Proof.
  intros Huser b tr Hrec.
  assert (Hpres : present env b user = present env b0 user).
  { destruct Hrec as (_ & Hroom & _). unfold present, room_occupants. by rewrite Hroom. }
  unfold present in Hpres.
  unfold check_room_user, _is_jid_in_room, _update_room_users_last_seen, logger, when,
    mbind, mret, M_bind, M_ret, bind, this, assign, call, ret, raise.
  destruct (room_occupants env b) as [occupants|] eqn:Hocc; [|done].
  destruct (jid_among occupants user) eqn:Hin.
  { cbn. by apply reconciled_snoc. }
  case_bool_decide as Hne; cbn; [done|].
  assert (Hlog : forall c, match c with Invite _ _ => False | _ => True end ->
            reconciled env b0 b (tr ++ [c])).
  { intros c Hc. by apply reconciled_snoc. }
  assert (Hgoal : forall c, match c with Invite _ _ => False | _ => True end ->
            reconciled env b0
              (if room_invites b
               then if bool_decide (user ∈ room_users_invited b) then b
                    else set_room_users_invited (room_users_invited b ∪ {[user]}) b
               else b)
              (if room_invites b
               then if bool_decide (user ∈ room_users_invited b)
                    then (tr ++ [c]) ++ [Log INFO ("User " +:+ quoted "%s"
                                                   +:+ " was already invited to MUC room")
                                           [AStr user]]
                    else ((tr ++ [c]) ++ [Log INFO ("Inviting " +:+ quoted "%s"
                                                    +:+ " to MUC room") [AStr user]])
                         ++ [Invite (py_str (room b)) user]
               else tr ++ [c])).
  { intros c Hc. specialize (Hlog c Hc).
    destruct (room_invites b); [|done].
    case_bool_decide as Hinvited; [by apply reconciled_snoc|].
    destruct Hlog as (Hru & Hroom & Hinv & Hnd & Hall).
    rewrite invites_snoc_other in Hinv, Hnd, Hall by done.
    assert (Hfresh : user ∉ invites tr).
    { intros Hin'. apply Hinvited. rewrite Hinv.
      by apply elem_of_union_r, elem_of_list_to_set. }
    unfold reconciled. cbn.
    rewrite invites_snoc_invite, !invites_snoc_other by done.
    repeat split; try done.
    - by rewrite Hinv, list_to_set_app_L, list_to_set_singleton_L, (assoc_L (∪)).
    - apply NoDup_app. repeat split; [done | | apply NoDup_singleton].
      intros x Hx ->%list_elem_of_singleton. done.
    - apply elem_of_app in H as [H | ->%list_elem_of_singleton]; [by apply Hall|done].
    - apply elem_of_app in H as [H | ->%list_elem_of_singleton]; [by apply Hall|].
      intros Hin'. apply Hinvited. rewrite Hinv. by apply elem_of_union_l.
    - apply elem_of_app in H as [H | ->%list_elem_of_singleton]; [by apply Hall|done]. }
  destruct (room_users_last_seen b !! user) as [seen|]; cbn.
  - specialize (Hgoal (Log INFO ("User " +:+ quoted "%s"
      +:+ " is not currently present in MUC room, but was last seen %s")
      [AStr user; ATime seen]) I).
    destruct (room_invites b); [case_bool_decide|]; exact Hgoal.
  - specialize (Hgoal (Log INFO ("User " +:+ quoted "%s" +:+ " is not present in MUC room")
      [AStr user]) I).
    destruct (room_invites b); [case_bool_decide|]; exact Hgoal.
Qed.

Ltac reconciled_side :=
  intros ? ? ?; first [ by apply reconciled_snoc | assumption ].

(** The whole pass over [room_users]. *)
Lemma check_room_users_reconciled (env : Env) (b0 : Bot) :
  preserves (reconciled env b0) (check_room_users env).
Proof.
  unfold check_room_users. apply triple_this_bind. intros b1 b tr [Hrec ->].
  apply triple_for_each; [|done].
  intros user Huser%elem_of_elements. apply check_room_user_reconciled.
  destruct Hrec as (Hru & _). by rewrite <- Hru.
Qed.

(** Every room presence handler keeps [reconciled]: nothing but the
    reconciliation loop invites or touches the invited set. *)
Lemma muc_online_reconciled (env : Env) (b0 : Bot) (presence : Presence) :
  preserves (reconciled env b0) (muc_online env presence).
Proof.
  preserve ltac:(apply check_room_users_reconciled) reconciled_side.
Qed.

Lemma muc_offline_reconciled (env : Env) (b0 : Bot) (presence : Presence) :
  preserves (reconciled env b0) (muc_offline env presence).
Proof.
  preserve ltac:(fail) reconciled_side.
Qed.

Lemma reconciled_start (env : Env) (b : Bot) : reconciled env b b [].
Proof.
  unfold reconciled. cbn. repeat split; try done.
  - by rewrite union_empty_r_L.
  - apply NoDup_nil_2.
  - by apply elem_of_nil in H.
  - by apply elem_of_nil in H.
  - by apply elem_of_nil in H.
Qed.

(** A handler that keeps [reconciled], run on [b] from an empty trace. *)
Lemma reconciled_run (env : Env) (m : M unit) (b : Bot) :
  (forall b0, preserves (reconciled env b0) m) ->
  reconciled env b (bot_of m b) (calls_of m b).
Proof.
  intros Hm. pose proof (triple_run _ _ _ _ b (Hm b) (reconciled_start env b)) as H.
  by destruct (result_of m b).
Qed.

Lemma present_same_room (env : Env) (b b' : Bot) (jid : string) :
  room b' = room b -> present env b' jid = present env b jid.
Proof. intros H. unfold present, room_occupants. by rewrite H. Qed.


Lemma muc_online_unchanged (env : Env) (b0 : Bot) (presence : Presence) :
  preserves (unchanged b0) (muc_online env presence).
Proof. preserve ltac:(fail) keep_side. Qed.

Lemma covered_same (env : Env) (b b' : Bot) (jid : string) :
  room b' = room b -> room_invites b' = room_invites b ->
  room_users_invited b ⊆ room_users_invited b' ->
  covered env b jid -> covered env b' jid.
Proof.
  intros Hroom Hinv Hsub [Hp|[Hr|[Hi|Hin]]]; unfold covered.
  - left. by rewrite (present_same_room env b b' jid Hroom).
  - right. left. by rewrite Hroom.
  - right. right. left. by rewrite Hinv.
  - right. right. right. by apply Hsub.
Qed.

(** One turn of the loop that returns leaves its user covered, and keeps
    covered whoever was. *)
Lemma check_room_user_covers (env : Env) (b0 : Bot) (seen : list string) (user : string) :
  triple (fun b tr => unchanged b0 b tr /\ forall jid, jid ∈ seen -> covered env b jid)
    (check_room_user env user)
    (fun _ b tr => unchanged b0 b tr /\ forall jid, jid ∈ user :: seen -> covered env b jid)
    (unchanged b0).
Proof.
  intros b tr [Hun Hseen].
  unfold check_room_user, _is_jid_in_room, _update_room_users_last_seen, logger, when,
    mbind, mret, M_bind, M_ret, bind, this, assign, call, ret, raise.
  destruct (room_occupants env b) as [occupants|] eqn:Hocc; [|exact Hun].
  assert (Hpres : present env b user = jid_among occupants user)
    by (unfold present; by rewrite Hocc).
  destruct (jid_among occupants user) eqn:Hin; cbn.
  { split; [done|]. intros jid [->|Hj]%elem_of_cons.
    - by left.
    - apply (covered_same env b); by auto. }
  case_bool_decide as Hne; cbn.
  { split; [done|]. intros jid [->|Hj]%elem_of_cons; [|by auto]. right. by left. }
  destruct (room_users_last_seen b !! user) as [t|]; cbn.
  all: destruct (room_invites b) eqn:Hinvites; cbn.
  all: try case_bool_decide as Hinvited; cbn.
  all: (split; [done|]); intros jid [->|Hj]%elem_of_cons.
  all: first
    [ by apply Hseen
    | by (apply (covered_same env b); [done | done | cbn; apply union_subseteq_l | auto])
    | by (right; right; right)
    | by (right; right; left)
    | right; right; right; cbn; by apply elem_of_union_r, elem_of_singleton ].
Qed.

(** The loop that returns has covered every user it went through. *)
Lemma check_room_users_loop_covers (env : Env) (b0 : Bot) (l seen : list string) :
  triple (fun b tr => unchanged b0 b tr /\ forall jid, jid ∈ seen -> covered env b jid)
    (for_each l (check_room_user env))
    (fun _ b tr => unchanged b0 b tr
                   /\ forall jid, jid ∈ l \/ jid ∈ seen -> covered env b jid)
    (unchanged b0).
Proof.
  revert seen. induction l as [|user l IH]; intros seen; cbn [for_each].
  - apply triple_ret. intros b tr [Hun Hseen]. split; [done|].
    intros jid [?%elem_of_nil|?]; [done|by apply Hseen].
  - apply triple_bind with
      (Q := fun _ b tr => unchanged b0 b tr
                          /\ forall jid, jid ∈ user :: seen -> covered env b jid).
    + apply check_room_user_covers.
    + intros _.
      apply triple_conseq with
        (P' := fun b tr => unchanged b0 b tr
                           /\ forall jid, jid ∈ user :: seen -> covered env b jid)
        (Q' := fun _ b tr => unchanged b0 b tr
                 /\ forall jid, jid ∈ l \/ jid ∈ user :: seen -> covered env b jid)
        (E' := unchanged b0); [apply IH | done | | done].
      intros _ b tr [Hun Hcov]. split; [done|].
      intros jid [[->|Hl]%elem_of_cons|Hseen]; apply Hcov.
      * right. by left.
      * by left.
      * right. by right.
Qed.

(** The whole reconciliation, when it returns, has covered every room user. *)
Lemma check_room_users_covers (env : Env) (b0 : Bot) :
  triple (unchanged b0) (check_room_users env)
    (fun _ b _ => forall jid, jid ∈ room_users b0 -> covered env b jid) (unchanged b0).
Proof.
  unfold check_room_users. apply triple_this_bind. intros b1.
  apply triple_conseq with
    (P' := fun b tr => (unchanged b0 b tr /\ forall jid, jid ∈ [] -> covered env b jid)
                       /\ b = b1)
    (Q' := fun _ b _ => forall jid, jid ∈ room_users b0 -> covered env b jid)
    (E' := unchanged b0); try done.
  2: { intros b tr [Hun ->]. repeat split; try apply Hun. by intros jid ?%elem_of_nil. }
  intros b tr [Hpre Heq]. subst b1.
  pose proof (check_room_users_loop_covers env b0 (elements (room_users b)) [] b tr Hpre)
    as H.
  destruct Hpre as [(_ & _ & _ & Hru) _].
  destruct (for_each (elements (room_users b)) (check_room_user env) b tr)
    as [[[[]|e] b'] tr']; [|done].
  destruct H as [_ Hcov]. intros jid Hjid. apply Hcov. left.
  apply elem_of_elements. by rewrite Hru.
Qed.

(** The own-presence branch that returns has covered every room user. *)
Lemma muc_online_covers (env : Env) (presence : Presence) (b : Bot) :
  jid_full (p_from presence) = own_jid b ->
  result_of (muc_online env presence) b = Ret tt ->
  forall jid, jid ∈ room_users b -> covered env (bot_of (muc_online env presence) b) jid.
Proof.
  intros Hown Hret.
  assert (Htriple : triple (fun b1 tr => unchanged b b1 tr /\ b1 = b)
            (muc_online env presence)
            (fun _ b1 _ => forall jid, jid ∈ room_users b -> covered env b1 jid)
            (unchanged b)).
  { unfold muc_online. apply triple_this_bind. intros b1.
    apply triple_conseq with (P' := fun b2 tr => unchanged b b2 tr /\ b1 = b)
      (Q' := fun _ b1 _ => forall jid, jid ∈ room_users b -> covered env b1 jid)
      (E' := unchanged b); [|by intros ? ? [[? ->] ->]|done|done].
    intros b2 tr [Hun ->]. revert b2 tr Hun.
    unfold own_jid in Hown. rewrite Hown, String.eqb_refl.
    change (triple (unchanged b)
      (_room_config env
         ≫= fun _ => msg_send (py_str (room b)) (nick b +:+ " is here!") "groupchat"
         ≫= fun _ => assign (set_muc_ready true)
         ≫= fun _ => call (SendPresence (py_str (room b) +:+ "/" +:+ nick b))
         ≫= fun _ => match getRoster env (room b) with
                      | Some nicks => logger INFO "People in MUC room: %s"
                                        [AStr (PyStr.join ", " nicks)]
                      | None => raise (Exception "TypeError")
                      end
         ≫= fun _ => check_room_users env)
      (fun _ b1 _ => forall jid, jid ∈ room_users b -> covered env b1 jid) (unchanged b)).
    do 5 (apply triple_bind with (Q := fun _ => unchanged b);
          [preserve ltac:(fail) keep_side | intros _]).
    apply check_room_users_covers. }
  assert (Hstart : unchanged b b [] /\ b = b) by done.
  pose proof (triple_run _ _ _ _ b Htriple Hstart) as H.
  by rewrite Hret in H.
Qed.

Lemma quiet_snoc (b0 b : Bot) (tr : list Call) (c : Call) :
  match c with Invite _ _ => False | _ => True end ->
  quiet b0 b tr -> quiet b0 b (tr ++ [c]).
Proof.
  intros Hc (Hun & Hinv & Hnone). repeat split; try apply Hun; [done|].
  by rewrite invites_snoc_other.
Qed.

Ltac quiet_side :=
  intros ? ? ?;
  first [ by apply quiet_snoc | assumption | match goal with H : _ |- _ => exact H end ].

(** A turn of the loop for a covered user sends no invitation. *)
Lemma check_room_user_quiet (env : Env) (b0 : Bot) (user : string) :
  covered env b0 user -> preserves (quiet b0) (check_room_user env user).
Proof.
  intros Hcov b tr Hq.
  assert (Hcov' : covered env b user).
  { destruct Hq as ((Hroom & _ & Hinvites & _) & Hinv & _).
    apply (covered_same env b0); [done|done|by rewrite Hinv|done]. }
  assert (Hlog : forall c, match c with Invite _ _ => False | _ => True end ->
            quiet b0 b (tr ++ [c])) by (intros c Hc; by apply quiet_snoc).
  unfold check_room_user, _is_jid_in_room, _update_room_users_last_seen, logger, when,
    mbind, mret, M_bind, M_ret, bind, this, assign, call, ret, raise.
  unfold covered, present in Hcov'.
  destruct (room_occupants env b) as [occupants|] eqn:Hocc; [|done].
  destruct (jid_among occupants user) eqn:Hin; cbn.
  { by apply Hlog. }
  case_bool_decide as Hne; cbn; [done|].
  destruct Hcov' as [?|[?|[Hoff|Hinvited]]]; [done|done| |].
  - rewrite Hoff. destruct (room_users_last_seen b !! user); cbn; by apply Hlog.
  - rewrite (bool_decide_eq_true_2 _ Hinvited).
    destruct (room_users_last_seen b !! user); destruct (room_invites b); cbn.
    all: first [ by apply Hlog | apply quiet_snoc; [done|]; by apply Hlog ].
Qed.

Lemma check_room_users_quiet (env : Env) (b0 : Bot) :
  (forall jid, jid ∈ room_users b0 -> covered env b0 jid) ->
  preserves (quiet b0) (check_room_users env).
Proof.
  intros Hcov. unfold check_room_users. apply triple_this_bind.
  intros b1 b tr [Hq ->]. apply triple_for_each; [|done].
  intros user Huser%elem_of_elements. apply check_room_user_quiet. apply Hcov.
  destruct Hq as ((_ & _ & _ & Hru) & _). by rewrite <- Hru.
Qed.

(** With every room user covered, no presence stanza makes the bot invite. *)
Lemma muc_online_quiet (env : Env) (b0 : Bot) (presence : Presence) :
  (forall jid, jid ∈ room_users b0 -> covered env b0 jid) ->
  preserves (quiet b0) (muc_online env presence).
Proof.
  intros Hcov. preserve ltac:(by apply check_room_users_quiet) quiet_side.
Qed.
(** What [muc_online] does with a stanza that is not the bot's own, and
    [muc_offline] with any: the last-seen time is set and a message sent. *)
Lemma muc_online_other (env : Env) (presence : Presence) (b : Bot) :
  jid_full (p_from presence) <> own_jid b ->
  exists fmt args,
    muc_online env presence b [] =
      (Ret tt,
       set_room_users_last_seen
         (<[jid_full (muc_jid presence) := now env]> (room_users_last_seen b)) b,
       [Log INFO fmt args;
        SendMessage (jid_bare (p_from presence)) ("Hello " +:+ muc_nick presence +:+ "!")
          "groupchat"]).
Proof.
  intros Hother%String.eqb_neq. unfold own_jid in Hother.
  unfold muc_online, _jid_entered_room, _update_room_users_last_seen, msg_send.
  run_m. rewrite Hother. cbn. eauto.
Qed.

Lemma muc_offline_any (env : Env) (presence : Presence) (b : Bot) :
  exists fmt args,
    muc_offline env presence b [] =
      (Ret tt,
       set_room_users_last_seen
         (<[jid_full (muc_jid presence) := now env]> (room_users_last_seen b)) b,
       [Log INFO fmt args;
        SendMessage (jid_bare (p_from presence)) ("Bye bye " +:+ muc_nick presence)
          "groupchat"]).
Proof.
  unfold muc_offline, _jid_left_room, _update_room_users_last_seen, msg_send.
  run_m. eauto.
Qed.

(** C5. A presence stanza handled twice in a row by [muc_online] (the bot's
    own presence, whose branch runs the reconciliation, in particular), on
    the same room roster and configuration: over both passes no JID is
    invited twice, the second pass invites nobody the invited set already
    holds, whoever is invited is a configured room user that is not in the
    room, and after a first pass that returned the second invites nobody. *)
Theorem reconciliation_twice_invites_once (env : Env) (b : Bot) (presence : Presence) :
  let b1 := bot_of (muc_online env presence) b in
  let out1 := calls_of (muc_online env presence) b in
  let out2 := calls_of (muc_online env presence) b1 in
  NoDup (invites out1 ++ invites out2) /\
  (forall jid, jid ∈ invites out2 -> jid ∉ room_users_invited b1) /\
  (forall jid, jid ∈ invites out1 ++ invites out2 ->
     jid ∈ room_users b /\ present env b jid = false) /\
  (result_of (muc_online env presence) b = Ret tt -> invites out2 = []).
Proof.
  intros b1 out1 out2.
  pose proof (reconciled_run env (muc_online env presence) b
                (fun b0 => muc_online_reconciled env b0 presence)) as H1.
  pose proof (reconciled_run env (muc_online env presence) b1
                (fun b0 => muc_online_reconciled env b0 presence)) as H2.
  fold b1 out1 in H1. fold out2 in H2.
  destruct H1 as (Hru1 & Hroom1 & Hinv1 & Hnd1 & Hall1).
  destruct H2 as (Hru2 & Hroom2 & Hinv2 & Hnd2 & Hall2).
  split; [|split; [|split]].
  - apply NoDup_app. repeat split; [done| |done].
    intros jid Hin1 Hin2. destruct (Hall2 jid Hin2) as (_ & Hnot & _).
    apply Hnot. rewrite Hinv1. apply elem_of_union_r. by apply elem_of_list_to_set.
  - intros jid Hin2. by destruct (Hall2 jid Hin2) as (_ & Hnot & _).
  - intros jid [Hin|Hin]%elem_of_app.
    + by destruct (Hall1 jid Hin) as (? & _ & ?).
    + destruct (Hall2 jid Hin) as (Hmem & _ & Hpres). split.
      * by rewrite <- Hru1.
      * by rewrite <- (present_same_room env b b1 jid Hroom1).
  - intros Hret.
    destruct (decide (jid_full (p_from presence) = own_jid b)) as [Hown|Hother].
    + assert (Hcov : forall jid, jid ∈ room_users b1 -> covered env b1 jid).
      { intros jid Hjid. apply muc_online_covers; [done|done|by rewrite <- Hru1]. }
      assert (Hstart : quiet b1 b1 []) by done.
      pose proof (triple_run _ _ _ _ b1 (muc_online_quiet env b1 presence Hcov) Hstart)
        as H.
      fold out2 in H.
      destruct (result_of (muc_online env presence) b1); by destruct H as (_ & _ & ?).
    + destruct (muc_online_other env presence b Hother) as (fmt1 & args1 & Hon).
      assert (Hb1 : b1 = set_room_users_last_seen
                (<[jid_full (muc_jid presence) := now env]> (room_users_last_seen b)) b)
        by (unfold b1, bot_of; by rewrite Hon).
      assert (Hother1 : jid_full (p_from presence) <> own_jid b1) by by rewrite Hb1.
      destruct (muc_online_other env presence b1 Hother1) as (fmt2 & args2 & Hon2).
      unfold out2, calls_of. by rewrite Hon2.
Qed.

(* ===================================================================== *)
(** ** The invited set stays within the configured room users *)
(* ===================================================================== *)

(** Peel the statements of [_load_config] that come before the one that
    prunes the invited set. *)
Ltac skip_to_invited :=
  repeat lazymatch goal with
    | |- triple _ (mbind _ this) _ _ => apply triple_this_bind; intros ?
    | |- triple _ (mbind _ ?m) _ _ =>
        lazymatch m with
        | context [room_users_invited] => fail
        | _ => apply triple_bind with (Q := fun _ _ _ => True); [apply triple_top | intros ?]
        end
    end.

(** A configuration load that returns leaves the invited set within the
    room users it has just read. *)
Lemma _load_config_invited_within (env : Env) (config : Config) (init : bool) :
  triple (fun _ _ => True) (_load_config env config init)
    (fun _ b _ => invited_within b) (fun _ _ => True).
Proof.
  unfold _load_config. skip_to_invited.
  apply triple_bind with (Q := fun _ b _ => invited_within b).
  - intros b tr [_ ->]. unfold when. case_bool_decide as Hempty; cbn.
    + unfold invited_within. rewrite Hempty. apply empty_subseteq.
    + unfold invited_within. cbn. apply intersection_subseteq_r.
  - intros _.
    apply triple_conseq with (P' := fun b _ => invited_within b)
      (Q' := fun _ b _ => invited_within b) (E' := fun b _ => invited_within b); try done.
    preserve ltac:(fail) keep_side.
Qed.

Lemma reconciled_invited_within (env : Env) (b b' : Bot) (tr : list Call) :
  reconciled env b b' tr -> invited_within b -> invited_within b'.
Proof.
  intros (Hru & _ & Hinv & _ & Hall) Hb. unfold invited_within in *.
  rewrite Hru, Hinv. apply union_least; [done|].
  intros jid Hjid%elem_of_list_to_set. by destruct (Hall jid Hjid).
Qed.

Lemma handle_invited_within (ev : RoomEvent) (b : Bot) :
  invited_within b -> invited_within (bot_of (handle ev) b).
Proof.
  intros Hb. destruct ev as [env presence|env presence]; cbn [handle].
  - eapply reconciled_invited_within; [|done].
    apply (reconciled_run env). intros b0. apply muc_online_reconciled.
  - eapply reconciled_invited_within; [|done].
    apply (reconciled_run env). intros b0. apply muc_offline_reconciled.
Qed.

Lemma after_events_invited_within (evs : list RoomEvent) (b : Bot) :
  invited_within b -> invited_within (after_events evs b).
Proof.
  revert b. induction evs as [|ev evs IH]; intros b Hb; cbn [after_events]; [done|].
  apply IH. by apply handle_invited_within.
Qed.

(** The same for [reload], which loads the configuration and then the
    plugins. *)
Lemma reload_invited_within (env : Env) (config : Config) (plugin_list : list Plugin) :
  triple (fun _ _ => True) (reload env config plugin_list)
    (fun _ b _ => invited_within b) (fun _ _ => True).
Proof.
  unfold reload.
  do 2 (apply triple_bind with (Q := fun _ _ _ => True); [apply triple_top | intros ?]).
  apply triple_bind with (Q := fun _ b _ => invited_within b).
  - apply _load_config_invited_within.
  - intros _.
    apply triple_conseq with (P' := fun b _ => invited_within b)
      (Q' := fun _ b _ => invited_within b) (E' := fun b _ => invited_within b); try done.
    preserve ltac:(fail) keep_side.
Qed.

(** C1. After a configuration load or reload that returned, and after every
    room presence stanza handled from then on (the reconciliation of the
    bot's own presence among them), every invited JID is a configured room
    user. *)
Theorem invited_always_within_room_users
    (env : Env) (config : Config) (init : bool) (b : Bot) (evs : list RoomEvent) :
  result_of (_load_config env config init) b = Ret tt ->
  invited_within (after_events evs (bot_of (_load_config env config init) b)).
Proof.
  intros Hret. apply after_events_invited_within.
  pose proof (triple_run _ _ _ _ b (_load_config_invited_within env config init) I) as H.
  by rewrite Hret in H.
Qed.

(* ===================================================================== *)
(** ** The deployment, computed *)
(* ===================================================================== *)

Example demo_load_users :
  elements (room_users demo_bot) = ["alice@example.com"; "bob@example.com"]
  /\ elements (room_admins demo_bot) = ["alice@example.com"]
  /\ elements (room_users_invited demo_bot) = [].
Proof. vm_compute. done. Qed.

Example demo_reconciliation :
  invites (calls_of (muc_online demo_env own_presence) demo_bot) = ["bob@example.com"]
  /\ invites (calls_of (muc_online demo_env own_presence)
                (bot_of (muc_online demo_env own_presence) demo_bot)) = [].
Proof. vm_compute. done. Qed.

(** At the demo deployment: the load returns, and after four presence
    stanzas the invited set is within the room users. *)
Lemma invited_always_within_room_users_witness :
  result_of (_load_config demo_env demo_config true) stale_bot = Ret tt
  /\ invited_within
       (after_events demo_events (bot_of (_load_config demo_env demo_config true) stale_bot)).
Proof.
  split; [vm_compute; reflexivity|].
  apply (invited_always_within_room_users demo_env demo_config true stale_bot demo_events).
  vm_compute; reflexivity.
Defined.

(** At the demo deployment: bob is invited by the first pass only. *)
Lemma reconciliation_twice_invites_once_witness :
  invites (calls_of (muc_online demo_env own_presence) demo_bot) = ["bob@example.com"]
  /\ NoDup (invites (calls_of (muc_online demo_env own_presence) demo_bot)
            ++ invites (calls_of (muc_online demo_env own_presence)
                          (bot_of (muc_online demo_env own_presence) demo_bot))).
Proof.
  split; [vm_compute; reflexivity|].
  apply (reconciliation_twice_invites_once demo_env demo_bot own_presence).
Defined.

(* ===================================================================== *)
(** ** Room configuration policy and affiliations *)
(* ===================================================================== *)

Lemma _room_config_calls_policy (env : Env) (b : Bot) :
  Forall (policy_of b) (calls_of (_room_config env) b).
Proof.
  unfold calls_of, _room_config, set_field, _room_members, log_iq_error.
  run_m.
  destruct (getRoomConfig env (room b)) as [e|form]; cbn.
  { destruct (is_value_error e); cbn; repeat constructor. }
  case_bool_decide as Hempty; cbn.
  all: destruct (form !! membersonly) eqn:H1; cbn; [|repeat constructor].
  all: rewrite lookup_insert_ne by done.
  all: destruct (form !! members_by_default) eqn:H2; cbn; [|repeat constructor].
  all: split_cases.
  all: repeat (apply Forall_app; split); repeat constructor; cbn.
  all: first [ rewrite bool_decide_eq_true_2 by done
             | rewrite bool_decide_eq_false_2 by done | idtac ]; cbn.
  all: try by simplify_map_eq.
Qed.

Lemma _room_config_pushes (env : Env) (b : Bot) (form : Form) :
  getRoomConfig env (room b) = inr form ->
  is_Some (form !! membersonly) -> is_Some (form !! members_by_default) ->
  SetRoomConfig (py_str (room b)) (configured b form) ∈ calls_of (_room_config env) b.
Proof.
  intros Hget [v1 H1] [v2 H2].
  unfold calls_of, _room_config, set_field, _room_members, log_iq_error, configured.
  run_m. rewrite Hget. cbn.
  case_bool_decide as Hempty; cbn.
  all: rewrite H1; cbn.
  all: rewrite lookup_insert_ne by done.
  all: rewrite H2; cbn.
  all: split_cases.
  all: cbn; by repeat constructor.
Qed.

(** C7. Every room configuration [_room_config] pushes follows the policy:
    with room users configured it is members-only and nobody is a member by
    default, with none it is open and everybody is. And a configuration is
    pushed whenever the server hands out a form that has the two fields. *)
Theorem room_config_follows_member_policy (env : Env) (b : Bot) :
  Forall (policy_of b) (calls_of (_room_config env) b)
  /\ (forall form,
        getRoomConfig env (room b) = inr form ->
        is_Some (form !! membersonly) -> is_Some (form !! members_by_default) ->
        SetRoomConfig (py_str (room b)) (configured b form) ∈ calls_of (_room_config env) b).
Proof. split; [apply _room_config_calls_policy | apply _room_config_pushes]. Qed.

(** At the demo deployment, where room users are configured: the room is
    made members-only. *)
Lemma room_config_follows_member_policy_witness :
  Forall (policy_of demo_bot) (calls_of (_room_config demo_env) demo_bot)
  /\ SetRoomConfig demo_room
       (<[members_by_default := VBool false]> (<[membersonly := VBool true]> demo_form))
     ∈ calls_of (_room_config demo_env) demo_bot.
Proof.
  split.
  - apply (room_config_follows_member_policy demo_env demo_bot).
  - apply (proj2 (room_config_follows_member_policy demo_env demo_bot) demo_form);
      vm_compute; eauto.
Defined.





(* ===================================================================== *)
(** ** Members entering and leaving *)
(* ===================================================================== *)

(** C9. A member entering (an online stanza that is not the bot's own) and a
    member leaving change one attribute of the bot, [room_users_last_seen],
    at the member's JID; the invited set and the configured room users and
    admins stay as they were, and no invitation, room configuration or
    affiliation list is sent. *)
Theorem presence_updates_last_seen_only (env : Env) (presence : Presence) (b : Bot) :
  jid_full (p_from presence) <> own_jid b ->
  let seen := <[jid_full (muc_jid presence) := now env]> (room_users_last_seen b) in
  (bot_of (muc_online env presence) b = set_room_users_last_seen seen b
   /\ bot_of (muc_offline env presence) b = set_room_users_last_seen seen b)
  /\ (room_users_invited (bot_of (muc_online env presence) b) = room_users_invited b
      /\ room_users (bot_of (muc_online env presence) b) = room_users b
      /\ room_admins (bot_of (muc_online env presence) b) = room_admins b)
  /\ (room_users_invited (bot_of (muc_offline env presence) b) = room_users_invited b
      /\ room_users (bot_of (muc_offline env presence) b) = room_users b
      /\ room_admins (bot_of (muc_offline env presence) b) = room_admins b)
  /\ existsb changes_room (calls_of (muc_online env presence) b) = false
  /\ existsb changes_room (calls_of (muc_offline env presence) b) = false.
Proof.
  intros Hother seen.
  destruct (muc_online_other env presence b Hother) as (fmt1 & args1 & Hon).
  destruct (muc_offline_any env presence b) as (fmt2 & args2 & Hoff).
  unfold bot_of, calls_of. rewrite Hon, Hoff. cbn. done.
Qed.

(** At the demo deployment: bob enters or leaves, and his last-seen time is
    all that changes. *)
Lemma presence_updates_last_seen_only_witness :
  room_users_last_seen (bot_of (muc_online demo_env bob_presence) demo_bot)
    = {[ "bob@example.com/phone" := 1700000000 ]}
  /\ bot_of (muc_offline demo_env bob_presence) demo_bot
     = set_room_users_last_seen {[ "bob@example.com/phone" := 1700000000 ]} demo_bot.
Proof.
  split; [vm_compute; reflexivity|].
  apply (presence_updates_last_seen_only demo_env bob_presence demo_bot).
  vm_compute. discriminate.
Defined.

(** C4, as the code has it. [muc_online] greets every participant whose
    stanza is not the bot's own, and [muc_offline] says good-bye for every
    offline stanza, the bot's own included, whatever [_muc_ready] is:
    neither handler reads it. *)
Theorem greeting_and_farewell_whatever_ready (env : Env) (presence : Presence) (b : Bot) :
  (jid_full (p_from presence) <> own_jid b ->
   messages_sent (calls_of (muc_online env presence) b)
   = [(jid_bare (p_from presence), "Hello " +:+ muc_nick presence +:+ "!", "groupchat")])
  /\ messages_sent (calls_of (muc_offline env presence) b)
     = [(jid_bare (p_from presence), "Bye bye " +:+ muc_nick presence, "groupchat")].
Proof.
  split.
  - intros Hother.
    destruct (muc_online_other env presence b Hother) as (fmt & args & Hon).
    unfold calls_of. by rewrite Hon.
  - destruct (muc_offline_any env presence b) as (fmt & args & Hoff).
    unfold calls_of. by rewrite Hoff.
Qed.

(** Against the claim as stated: the room is not ready, bob enters and leaves, and
    the bot greets him and says good-bye. *)
Lemma greeting_before_ready_counterexample :
  _muc_ready demo_bot = false
  /\ messages_sent (calls_of (muc_online demo_env bob_presence) demo_bot)
     = [(demo_room, "Hello bob!", "groupchat")]
  /\ messages_sent (calls_of (muc_offline demo_env bob_presence) demo_bot)
     = [(demo_room, "Bye bye bob", "groupchat")].
Proof. vm_compute. done. Qed.

(** At the demo deployment, the room not ready: bob is greeted, and the
    good-bye is said for the bot's own offline stanza too. *)
Lemma greeting_and_farewell_whatever_ready_witness :
  _muc_ready demo_bot = false
  /\ messages_sent (calls_of (muc_online demo_env bob_presence) demo_bot)
     = [(jid_bare (p_from bob_presence), "Hello " +:+ muc_nick bob_presence +:+ "!",
         "groupchat")]
  /\ jid_full (p_from own_presence) = own_jid demo_bot
  /\ messages_sent (calls_of (muc_offline demo_env own_presence) demo_bot)
     = [(jid_bare (p_from own_presence), "Bye bye " +:+ muc_nick own_presence,
         "groupchat")].
Proof.
  split; [vm_compute; reflexivity|]. split.
  - apply (proj1 (greeting_and_farewell_whatever_ready demo_env bob_presence demo_bot)).
    vm_compute. discriminate.
  - split; [vm_compute; reflexivity|].
    apply (proj2 (greeting_and_farewell_whatever_ready demo_env own_presence demo_bot)).
Defined.

(* ===================================================================== *)
(** ** Presence subscriptions *)
(* ===================================================================== *)

(** C10. A subscription request from a JID outside a non-empty [users] set
    is logged and not handed to the default auto-authorization; with [users]
    empty, or the requester in it, it is handed over. The bot is left as it
    was either way. *)
Theorem new_subscription_gated_by_users (pres_from : JID) (b : Bot) :
  let user := jid_full pres_from in
  let out := calls_of (_handle_new_subscription pres_from) b in
  (users b <> ∅ /\ user ∉ users b ->
     exists fmt, out = [Log WARNING fmt [AStr user]])
  /\ (users b = ∅ \/ user ∈ users b ->
     exists fmt, out = [Log INFO fmt [AStr user]; DefaultSubscription user])
  /\ bot_of (_handle_new_subscription pres_from) b = b
  /\ result_of (_handle_new_subscription pres_from) b = Ret tt.
Proof.
  intros user out. subst user out.
  unfold calls_of, bot_of, result_of, _handle_new_subscription. run_m.
  destruct (bool_decide (users b = ∅)) eqn:Hempty;
    destruct (bool_decide (jid_full pres_from ∈ users b)) eqn:Hin; cbn.
  all: repeat split; try done; eauto.
  - intros [Hne _]. by apply bool_decide_eq_true in Hempty.
  - intros [Hne _]. by apply bool_decide_eq_true in Hempty.
  - intros [_ Hnot]. by apply bool_decide_eq_true in Hin.
  - intros [Hemp|Hmem].
    + by apply bool_decide_eq_false in Hempty.
    + by apply bool_decide_eq_false in Hin.
Qed.

(** At the demo deployment: eve is no user, her request is only logged. *)
Lemma new_subscription_gated_by_users_witness :
  calls_of (_handle_new_subscription (mkJID "eve@example.net" EmptyString)) demo_bot
    = [Log WARNING ("User " +:+ quoted "%s" +:+ " is not allowed to subscribe")
         [AStr "eve@example.net"]]
  /\ bot_of (_handle_new_subscription (mkJID "eve@example.net" EmptyString)) demo_bot = demo_bot.
Proof.
  split; [vm_compute; reflexivity|].
  apply (new_subscription_gated_by_users (mkJID "eve@example.net" EmptyString) demo_bot).
Defined.

(* ===================================================================== *)
(** ** A failing plugin constructor *)
(* ===================================================================== *)

Lemma get_del_eq (k : string) (d : OrderedDict.t) :
  OrderedDict.get k (OrderedDict.del k d) = None.
Proof.
  unfold OrderedDict.del. induction d as [|[k' v] d IH]; cbn; [done|].
  destruct (String.eqb k k') eqn:Hk; cbn; [done|]. by rewrite Hk.
Qed.

Lemma get_del_ne (k k' : string) (d : OrderedDict.t) :
  k <> k' -> OrderedDict.get k' (OrderedDict.del k d) = OrderedDict.get k' d.
Proof.
  intros Hne. unfold OrderedDict.del.
  induction d as [|[k0 v] d IH]; cbn; [done|].
  destruct (String.eqb k k0) eqn:Hk; cbn.
  - apply String.eqb_eq in Hk as <-.
    by rewrite (proj2 (String.eqb_neq k' k)) by done.
  - by rewrite IH.
Qed.

Lemma get_set_eq (k : string) (v : PluginObj) (d : OrderedDict.t) :
  OrderedDict.get k (OrderedDict.set k v d) = Some v.
Proof.
  induction d as [|[k' v'] d IH]; cbn.
  - by rewrite String.eqb_refl.
  - destruct (String.eqb k k') eqn:Hk; cbn; by rewrite Hk.
Qed.

Lemma get_set_ne (k k' : string) (v : PluginObj) (d : OrderedDict.t) :
  k <> k' -> OrderedDict.get k' (OrderedDict.set k v d) = OrderedDict.get k' d.
Proof.
  intros Hne. induction d as [|[k0 v0] d IH]; cbn.
  - by rewrite (proj2 (String.eqb_neq k' k)) by done.
  - destruct (String.eqb k k0) eqn:Hk; cbn.
    + apply String.eqb_eq in Hk as <-.
      by rewrite (proj2 (String.eqb_neq k' k)) by done.
    + by rewrite IH.
Qed.

Ltac entry_side :=
  intros ? ? ?; unfold entry_is in *; cbn;
  rewrite ?get_del_ne, ?get_set_ne by done; assumption.

Ltac made_side :=
  intros ? ? ?; unfold made in *; first [ assumption | apply elem_of_app; by left ].

(** Loading another plugin leaves the entry of module [k] alone, and never
    raises. *)
Lemma load_plugin_other (config : Config) (init : bool) (plugin : Plugin)
    (k : string) (v : option PluginObj) :
  module plugin <> k ->
  triple (entry_is k v) (load_plugin config init plugin) (fun _ => entry_is k v) never.
Proof. intros Hne. preserve ltac:(fail) entry_side. Qed.

Lemma load_plugin_made (config : Config) (init : bool) (plugin : Plugin) (c : Call) :
  triple (made c) (load_plugin config init plugin) (fun _ => made c) never.
Proof. preserve ltac:(fail) made_side. Qed.

Lemma for_each_app {X} (l1 l2 : list X) (body : X -> M unit) (b : Bot) (tr : list Call) :
  for_each (l1 ++ l2) body b tr = (for_each l1 body ≫= fun _ => for_each l2 body) b tr.
Proof.
  revert b tr. induction l1 as [|x l1 IH]; intros b tr; [done|].
  cbn [app for_each]. unfold mbind, M_bind, bind in *.
  destruct (body x b tr) as [[[[]|e] b1] tr1]; [apply IH | done].
Qed.

(** [_load_plugins] never raises. *)
Lemma _load_plugins_returns (env : Env) (config : Config) (plugin_list : list Plugin)
    (init : bool) :
  triple always (_load_plugins env config plugin_list init) (fun _ => always) never.
Proof. preserve ltac:(fail) ltac:(done). Qed.

Lemma load_plugin_returns (config : Config) (init : bool) (plugin : Plugin) :
  triple always (load_plugin config init plugin) (fun _ => always) never.
Proof. preserve ltac:(fail) ltac:(done). Qed.

Lemma _load_plugins_turns (env : Env) (config : Config) (before after : list Plugin)
    (plugin : Plugin) (init : bool) (b : Bot) (tr : list Call) :
  _load_plugins env config (before ++ plugin :: after) init b tr
  = ((prepare_registry env (before ++ plugin :: after) init;;
      for_each before (load_plugin config init))
     ≫= fun _ => load_plugin config init plugin
     ≫= fun _ => for_each after (load_plugin config init)
     ≫= fun _ => report_registered env) b tr.
Proof.
  assert (Hturns : forall (k : M unit) b1 tr1,
            (let (p, tr2) := for_each (before ++ plugin :: after) (load_plugin config init)
                               b1 tr1 in
             let (r, b2) := p in
             match r with Ret _ => k b2 tr2 | Raise e => (Raise e, b2, tr2) end)
            = (for_each before (load_plugin config init)
               ≫= fun _ => load_plugin config init plugin
               ≫= fun _ => for_each after (load_plugin config init)
               ≫= fun _ => k) b1 tr1).
  { intros k b1 tr1. rewrite for_each_app. unfold mbind, M_bind, bind.
    destruct (for_each before (load_plugin config init) b1 tr1) as [[[[]|e] b2] tr2];
      [|reflexivity].
    cbn [for_each]. unfold mbind, M_bind, bind.
    destruct (load_plugin config init plugin b2 tr2) as [[[[]|e] b3] tr3]; reflexivity. }
  unfold _load_plugins, prepare_registry.
  fold (report_registered env).
  destruct init.
  - unfold mbind at 1 2 3. unfold M_bind at 1 2 3. unfold bind at 1 2 3.
    unfold assign at 1 2. cbv beta iota. rewrite Hturns. reflexivity.
  - unfold mbind at 1 2 3. unfold M_bind at 1 2 3. unfold bind at 1 2 3.
    unfold this at 1. cbv beta iota.
    destruct (for_each (OrderedDict.keys (plugins b))
                (disable_plugin env (before ++ plugin :: after)) b tr)
      as [[[[]|e] b1] tr1] eqn:Hdisable.
    + rewrite Hturns. unfold mbind, M_bind, bind, this. by rewrite Hdisable.
    + unfold mbind, M_bind, bind, this. by rewrite Hdisable.
Qed.

Lemma load_plugins_other (config : Config) (init : bool) (plugin_list : list Plugin)
    (k : string) (v : option PluginObj) :
  k ∉ module <$> plugin_list ->
  triple (entry_is k v) (for_each plugin_list (load_plugin config init))
    (fun _ => entry_is k v) never.
Proof.
  intros Hk. apply triple_for_each. intros plugin Hin. apply load_plugin_other.
  intros Heq. apply Hk. rewrite <- Heq. by apply list_elem_of_fmap_2.
Qed.

Lemma load_plugins_made (config : Config) (init : bool) (plugin_list : list Plugin)
    (c : Call) :
  triple (made c) (for_each plugin_list (load_plugin config init)) (fun _ => made c) never.
Proof. apply triple_for_each. intros plugin _. apply load_plugin_made. Qed.

Lemma report_registered_entry (env : Env) (k : string) (v : option PluginObj) :
  triple (entry_is k v) (report_registered env) (fun _ => entry_is k v) never.
Proof. preserve ltac:(fail) entry_side. Qed.

Lemma report_registered_made (env : Env) (c : Call) :
  triple (made c) (report_registered env) (fun _ => made c) never.
Proof. preserve ltac:(fail) made_side. Qed.

(** The turns before that of a plugin never raise; on the first load they
    leave its module unregistered. *)
Lemma before_turn (env : Env) (config : Config) (plugin_list before : list Plugin)
    (init : bool) (k : string) :
  triple always
    (prepare_registry env plugin_list init;; for_each before (load_plugin config init))
    (fun _ b _ => init = true -> k <> __name__ -> k ∉ module <$> before ->
                  OrderedDict.get k (plugins b) = None)
    never.
Proof.
  destruct init.
  - destruct (decide (k <> __name__ /\ k ∉ module <$> before)) as [[Hself Hk]|Hnot].
    + apply triple_bind with (Q := fun _ => entry_is k None).
      * intros b tr _. unfold prepare_registry. run_m. unfold entry_is. cbn.
        by rewrite (proj2 (String.eqb_neq k __name__)).
      * intros _. eapply triple_conseq; [by apply (load_plugins_other config true before k None)
                                        | done | | done].
        intros a b tr Hb H1 H2 H3. exact Hb.
    + apply triple_conseq with (P' := always) (Q' := fun _ => always) (E' := never);
        try done.
      * preserve ltac:(fail) ltac:(done).
      * intros _ b tr _ _ Hself Hk. by destruct Hnot.
  - apply triple_conseq with (P' := always) (Q' := fun _ => always) (E' := never); try done.
    preserve ltac:(fail) ltac:(done).
Qed.

(** The turn of a plugin: what the constructor call gives decides what is
    left. On the first load the module must not be registered yet. *)
Lemma load_plugin_turned (config : Config) (init : bool) (plugin : Plugin) (b0 : Bot) :
  (init = true -> OrderedDict.get (module plugin) (plugins b0) = None) ->
  triple (fun b _ => b = b0) (load_plugin config init plugin)
    (fun _ => turned config init plugin b0) never.
Proof.
  intros Hfresh b tr ->.
  unfold turned, constructor_call, bot_at_call, reinit_of, load_plugin, construct. run_m.
  destruct (init || negb (OrderedDict.contains (module plugin) (plugins b0))) eqn:Hf; cbn.
  - assert (Hnone : OrderedDict.get (module plugin) (plugins b0) = None).
    { apply orb_true_iff in Hf as [->|Hnot]; [by apply Hfresh|].
      apply negb_true_iff in Hnot. unfold OrderedDict.contains in Hnot.
      by destruct (OrderedDict.get (module plugin) (plugins b0)). }
    destruct (constructed config plugin b0 false) as [e|obj]; cbn.
    + split; [done|]. unfold could_not_load.
      apply elem_of_app. left. apply elem_of_app. right. by left.
    + apply get_set_eq.
  - destruct (constructed config plugin _ true) as [e|obj]; cbn.
    + split; [apply get_del_eq|]. unfold could_not_load.
      apply elem_of_app. left. apply elem_of_app. right. by left.
    + apply get_set_eq.
Qed.

(** A constructor call that raises is logged, whatever the registry holds. *)
Lemma load_plugin_logged (config : Config) (init : bool) (plugin : Plugin) (b0 : Bot)
    (e : Exn) :
  constructor_call config init plugin b0 = inl e ->
  triple (fun b _ => b = b0) (load_plugin config init plugin)
    (fun _ => made (could_not_load plugin)) never.
Proof.
  intros Hcall b tr ->. revert Hcall.
  unfold constructor_call, bot_at_call, reinit_of, load_plugin, construct, made. run_m.
  destruct (init || negb (OrderedDict.contains (module plugin) (plugins b0))); cbn.
  all: intros ->; cbn; unfold could_not_load.
  all: apply elem_of_app; left; apply elem_of_app; right; by left.
Qed.

Lemma turned_keeps (config : Config) (init : bool) (plugin : Plugin) (b0 : Bot)
    (m : M unit) :
  (forall v, triple (entry_is (module plugin) v) m (fun _ => entry_is (module plugin) v) never) ->
  (forall c, triple (made c) m (fun _ => made c) never) ->
  triple (turned config init plugin b0) m (fun _ => turned config init plugin b0) never.
Proof.
  intros Hentry Hmade b tr. unfold turned.
  destruct (constructor_call config init plugin b0) as [e|obj].
  - intros [Hnone Hlog].
    pose proof (Hentry None b tr Hnone) as H1. pose proof (Hmade _ b tr Hlog) as H2.
    by destruct (m b tr) as [[[[]|e'] b'] tr'].
  - intros Hsome. apply (Hentry _ b tr Hsome).
Qed.

(** C8. Every pass of [_load_plugins], first load or reload, returns
    normally, and a constructor call that raises in the pass is logged. In
    a pass over plugins of distinct modules, none the bot's own, the module
    of a plugin whose constructor call raised is absent from the registry
    afterwards, and a plugin whose constructor call returned an object is
    registered with it, wherever it stands in the list. The constructor call
    of a plugin is the one the pass makes: on the bot as the turns before it
    left it, with the [reinit] flag of its turn. *)
Theorem failing_plugin_is_left_out (env : Env) (config : Config)
    (plugin_list : list Plugin) (init : bool) (b : Bot) :
  result_of (_load_plugins env config plugin_list init) b = Ret tt
  /\ (forall before plugin after e,
        plugin_list = before ++ plugin :: after ->
        constructor_call config init plugin (at_turn env config plugin_list before init b)
        = inl e ->
        could_not_load plugin ∈ calls_of (_load_plugins env config plugin_list init) b)
  /\ (NoDup (module <$> plugin_list) -> __name__ ∉ module <$> plugin_list ->
      forall before plugin after,
        plugin_list = before ++ plugin :: after ->
        match constructor_call config init plugin
                (at_turn env config plugin_list before init b) with
        | inl _ =>
            OrderedDict.get (module plugin)
              (plugins (bot_of (_load_plugins env config plugin_list init) b)) = None
        | inr obj =>
            OrderedDict.get (module plugin)
              (plugins (bot_of (_load_plugins env config plugin_list init) b))
            = Some (Instance obj)
        end).
Proof.
  pose proof (triple_run _ _ _ _ b (_load_plugins_returns env config plugin_list init) I)
    as Hret.
  assert (Hres : result_of (_load_plugins env config plugin_list init) b = Ret tt).
  { destruct (result_of (_load_plugins env config plugin_list init) b) as [[]|e]; done. }
  split; [done|].
  (* the bot when the turn comes *)
  assert (Hturn : forall before plugin after, plugin_list = before ++ plugin :: after ->
            triple (fun b1 tr => b1 = b /\ tr = [])
              (prepare_registry env plugin_list init;;
               for_each before (load_plugin config init))
              (fun _ b1 _ =>
                 b1 = at_turn env config plugin_list before init b
                 /\ (init = true -> module plugin <> __name__ ->
                     module plugin ∉ module <$> before ->
                     OrderedDict.get (module plugin) (plugins b1) = None))
              never).
  { intros before plugin after Hlist b1 tr [-> ->].
    pose proof (before_turn env config plugin_list before init (module plugin) b [] I) as H.
    unfold at_turn, bot_of.
    by destruct ((prepare_registry env plugin_list init;;
                  for_each before (load_plugin config init)) b []) as [[[[]|e] bt] trt]. }
  split.
  - intros before plugin after e Hlist Hcall.
    assert (Hm : triple (fun b1 tr => b1 = b /\ tr = [])
              (_load_plugins env config plugin_list init)
              (fun _ => made (could_not_load plugin)) never).
    { intros b1 tr Hb1. rewrite Hlist, _load_plugins_turns, <- Hlist. revert b1 tr Hb1.
      apply triple_bind with
        (Q := fun _ b1 _ => b1 = at_turn env config plugin_list before init b).
      { eapply triple_conseq; [by apply (Hturn before plugin after) | done | | done].
        by intros _ b1 tr [? _]. }
      intros _. apply triple_bind with (Q := fun _ => made (could_not_load plugin)).
      { by apply (load_plugin_logged config init plugin _ e). }
      intros _. apply triple_bind with (Q := fun _ => made (could_not_load plugin)).
      { apply load_plugins_made. }
      intros _. apply report_registered_made. }
    pose proof (triple_run _ _ _ _ b Hm (conj eq_refl eq_refl)) as H.
    by rewrite Hres in H.
  - intros Hnodup Hself before plugin after Hlist.
    assert (Hnodup' := Hnodup). assert (Hself' := Hself).
    rewrite Hlist, fmap_app, fmap_cons in Hnodup', Hself'.
    apply NoDup_app in Hnodup' as (_ & Hdisj & [Hafter _]%NoDup_cons).
    assert (Hbefore : module plugin ∉ module <$> before).
    { intros Hin. apply (Hdisj _ Hin). by left. }
    assert (Hne : module plugin <> __name__).
    { intros Heq. apply Hself'. apply elem_of_app. right. rewrite Heq. by left. }
    set (bt := at_turn env config plugin_list before init b).
    assert (Hm : triple (fun b1 tr => b1 = b /\ tr = [])
              (_load_plugins env config plugin_list init)
              (fun _ => turned config init plugin bt) never).
    { intros b1 tr Hb1. rewrite Hlist, _load_plugins_turns, <- Hlist. revert b1 tr Hb1.
      apply triple_bind with
        (Q := fun _ b1 _ =>
                b1 = bt /\ (init = true ->
                            OrderedDict.get (module plugin) (plugins b1) = None)).
      { eapply triple_conseq; [by apply (Hturn before plugin after) | done | | done].
        intros _ b1 tr [? Hfresh]. split; [done|]. intros Hinit. by apply Hfresh. }
      intros _. apply triple_bind with (Q := fun _ => turned config init plugin bt).
      { intros b1 tr [-> Hfresh]. by apply (load_plugin_turned config init plugin bt). }
      intros _. apply triple_bind with (Q := fun _ => turned config init plugin bt).
      { apply turned_keeps.
        - intros v. by apply load_plugins_other.
        - intros c. apply load_plugins_made. }
      intros _. apply turned_keeps.
      - intros v. apply report_registered_entry.
      - intros c. apply report_registered_made. }
    pose proof (triple_run _ _ _ _ b Hm (conj eq_refl eq_refl)) as H.
    rewrite Hres in H. unfold turned in H. fold bt.
    destruct (constructor_call config init plugin bt); [by destruct H | done].
Qed.

Example demo_load_plugins :
  OrderedDict.keys (plugins (bot_of (_load_plugins demo_env demo_config demo_plugins true)
                               demo_bot))
  = ["ludolph.bot"; "ludolph.plugins.base"].
Proof. vm_compute. done. Qed.

(** At the demo deployment, which runs no web server: the pass returns; the
    constructor of zabbix raises and that of hooks raises for want of the
    web server, both are logged and left out, and base, which comes last,
    is registered. On a reload, the plugin that raises only when reloaded
    loses the entry its first load made. *)
Lemma failing_plugin_is_left_out_witness :
  (result_of (_load_plugins demo_env demo_config pass_plugins true) demo_bot = Ret tt
   /\ could_not_load hooks_plugin
        ∈ calls_of (_load_plugins demo_env demo_config pass_plugins true) demo_bot
   /\ OrderedDict.get "ludolph.plugins.zabbix"
        (plugins (bot_of (_load_plugins demo_env demo_config pass_plugins true) demo_bot))
      = None
   /\ OrderedDict.get "ludolph.plugins.hooks"
        (plugins (bot_of (_load_plugins demo_env demo_config pass_plugins true) demo_bot))
      = None
   /\ OrderedDict.get "ludolph.plugins.base"
        (plugins (bot_of (_load_plugins demo_env demo_config pass_plugins true) demo_bot))
      = Some (Instance "Base"))
  /\ OrderedDict.get "ludolph.plugins.base" (plugins loaded_once_bot)
     = Some (Instance "Base")
  /\ OrderedDict.get "ludolph.plugins.base"
       (plugins (bot_of (_load_plugins demo_env demo_config [fragile_plugin] false)
                   loaded_once_bot))
     = None.
Proof.
  assert (Hnodup : NoDup (module <$> pass_plugins))
    by (apply (bool_decide_unpack _); vm_compute; exact I).
  assert (Hself : __name__ ∉ module <$> pass_plugins)
    by (apply (bool_decide_unpack _); vm_compute; exact I).
  assert (Hnodup1 : NoDup (module <$> [fragile_plugin]))
    by (apply (bool_decide_unpack _); vm_compute; exact I).
  assert (Hself1 : __name__ ∉ module <$> [fragile_plugin])
    by (apply (bool_decide_unpack _); vm_compute; exact I).
  split; [|split].
  - destruct (failing_plugin_is_left_out demo_env demo_config pass_plugins true demo_bot)
      as (Hret & Hlog & Hall).
    specialize (Hall Hnodup Hself).
    split; [exact Hret|]. split; [|split; [|split]].
    + apply (Hlog [zabbix_plugin] hooks_plugin [base_plugin]
               (Exception "web server required"));
        [reflexivity | vm_compute; reflexivity].
    + exact (Hall [] zabbix_plugin [hooks_plugin; base_plugin] eq_refl).
    + exact (Hall [zabbix_plugin] hooks_plugin [base_plugin] eq_refl).
    + exact (Hall [zabbix_plugin; hooks_plugin] base_plugin [] eq_refl).
  - vm_compute. reflexivity.
  - destruct (failing_plugin_is_left_out demo_env demo_config [fragile_plugin] false
                loaded_once_bot) as (_ & _ & Hall).
    exact (Hall Hnodup1 Hself1 [] fragile_plugin [] eq_refl).
Defined.

(* ===================================================================== *)
(** ** The command router *)
(* ===================================================================== *)

(** A message whose first word is no command is answered with the fixed
    text, and nothing else happens. *)
Lemma message_not_understood (env : Env) (msg : Msg) (types : list string) (b : Bot)
    (word : string) (rest : list string) :
  m_type msg ∈ types ->
  PyStr.split (m_body msg) = word :: rest ->
  get_command env (PyStr.strip word) = None ->
  message env msg types b [] =
    (Ret None, b, [SendReply msg (not_understood (m_body msg))]).
Proof.
  intros Htype Hsplit Hmiss. unfold message, first_word.
  rewrite bool_decide_eq_true_2 by done. run_m. rewrite Hsplit. cbn. by rewrite Hmiss.
Qed.

(** C2 fails on the code: a chat message whose body has no word (empty, or
    white space only) makes [message] raise [IndexError] before any command
    lookup; no reply is sent. *)
Theorem message_without_words_raises (env : Env) (b : Bot) (sender : JID) :
  message env (mkMsg "chat" EmptyString sender EmptyString EmptyString) chat_types b []
    = (Raise IndexError, b, [])
  /\ message env (mkMsg "normal" "   " sender EmptyString EmptyString) chat_types b []
    = (Raise IndexError, b, []).
Proof. split; reflexivity. Qed.

(** A group chat message is handed to [message] only when the room is ready,
    the message is not the bot's own, its body starts with the nick and a
    colon, and the sender's JID is known; otherwise nothing happens. *)
#[local] Arguments PyStr.truthy : simpl never.
#[local] Arguments truthy_opt : simpl never.

Lemma muc_message_dropped (env : Env) (msg : Msg) (b : Bot) :
  PyStr.startswith (m_body msg) (nick b +:+ ":") = false
  \/ getJidProperty env (m_mucroom msg) (m_mucnick msg) = None ->
  m_type msg = "groupchat" -> truthy_opt (room b) = true ->
  muc_message env msg b [] = (Ret None, b, []).
Proof.
  intros Hdrop Htype Hroom. unfold muc_message, get_jid. run_m.
  destruct (_muc_ready b); cbn; [|done].
  destruct (String.eqb (m_mucnick msg) (nick b)); cbn; [done|].
  destruct (PyStr.startswith (m_body msg) (nick b +:+ ":")) eqn:Hstart; cbn; [|done].
  destruct Hdrop as [?|Hjid]; [done|].
  rewrite Htype, Hroom. cbn. by rewrite Hjid.
Qed.

Lemma muc_message_handled (env : Env) (msg : Msg) (b : Bot) (jid : JID) :
  _muc_ready b = true -> m_mucnick msg <> nick b ->
  PyStr.startswith (m_body msg) (nick b +:+ ":") = true ->
  m_type msg = "groupchat" -> truthy_opt (room b) = true ->
  getJidProperty env (m_mucroom msg) (m_mucnick msg) = Some jid ->
  PyStr.truthy (jid_bare jid) = true ->
  muc_message env msg b [] =
    message env (set_body (muc_body (nick b) (m_body msg)) msg) ["groupchat"] b [].
Proof.
  intros Hready Hnick%String.eqb_neq Hstart Htype Hroom Hjid Hbare.
  unfold muc_message, get_jid. run_m.
  rewrite Hready; cbn. rewrite Hnick; cbn. rewrite Hstart; cbn.
  rewrite Htype, Hroom. cbn. rewrite Hjid. cbn. by rewrite Hbare.
Qed.

(** C3 fails on the code: [lstrip(nick)] strips characters, not the prefix.
    Alice writes the registered command [help] right after the colon; the
    [h] of [help] is a letter of [Ludolph:], so [message] gets [elp] and
    answers that it does not understand. With a blank after the colon the
    command is found. *)
Theorem muc_message_strips_command_letters :
  muc_body "Ludolph" "Ludolph:help" = "elp"
  /\ muc_message router_env (room_msg "Ludolph:help") ready_bot []
     = (Ret None, ready_bot,
        [SendReply (room_msg "elp") (not_understood "elp")])
  /\ muc_body "Ludolph" "Ludolph: help" = "help"
  /\ result_of (muc_message router_env (room_msg "Ludolph: help")) ready_bot
     = Ret (Some "Available commands: help").
Proof. vm_compute. done. Qed.

(* ===================================================================== *)
(** ** The string methods on examples *)
(* ===================================================================== *)

Example split_words : PyStr.split "  ack  12 note " = ["ack"; "12"; "note"].
Proof. reflexivity. Qed.

Example split_blank : PyStr.split "   " = [].
Proof. reflexivity. Qed.

Example split_commas : PyStr.split_on "," "a@x, b@y,,@users" = ["a@x"; " b@y"; EmptyString; "@users"].
Proof. reflexivity. Qed.

Example strip_both : PyStr.strip "  a b  " = "a b".
Proof. reflexivity. Qed.

Example lstrip_set : PyStr.lstrip_chars "ab:" "abba: bab" = " bab".
Proof. reflexivity. Qed.

(* ===================================================================== *)
(** ** Words of a message body *)
(* ===================================================================== *)

Lemma rev_rev (s : string) : PyStr.rev (PyStr.rev s) = s.
Proof.
  unfold PyStr.rev. rewrite list_ascii_of_string_of_list_ascii, rev_involutive.
  apply string_of_list_ascii_of_string.
Qed.

Lemma spaceless_rev (s : string) : spaceless s = true -> spaceless (PyStr.rev s) = true.
Proof.
  unfold spaceless, PyStr.rev. rewrite list_ascii_of_string_of_list_ascii.
  rewrite !forallb_forall. intros H c Hc. apply H. by apply in_rev.
Qed.

Lemma lstrip_by_spaceless (s : string) :
  spaceless s = true -> PyStr.lstrip_by PyStr.is_space s = s.
Proof.
  destruct s as [|c s]; [done|]. unfold spaceless. cbn.
  intros [Hc _]%andb_true_iff. apply negb_true_iff in Hc. by rewrite Hc.
Qed.

(** [strip] leaves a word alone. *)
Lemma strip_spaceless (s : string) : spaceless s = true -> PyStr.strip s = s.
Proof.
  intros Hs. unfold PyStr.strip, PyStr.rstrip, PyStr.lstrip.
  rewrite (lstrip_by_spaceless (PyStr.rev s)) by by apply spaceless_rev.
  rewrite rev_rev. by apply lstrip_by_spaceless.
Qed.

(** [split] yields words only. *)
Lemma split_ws_from_spaceless (s cur : string) :
  spaceless cur = true ->
  Forall (fun w => spaceless w = true) (PyStr.split_ws_from cur s).
Proof.
  revert cur. induction s as [|c s IH]; intros cur Hcur; cbn.
  - destruct cur; [constructor|]. constructor; [by apply spaceless_rev | constructor].
  - destruct (PyStr.is_space c) eqn:Hc.
    + destruct cur.
      * by apply IH.
      * constructor; [by apply spaceless_rev | by apply IH].
    + apply IH. unfold spaceless in *. cbn. by rewrite Hc.
Qed.

Lemma split_ws_from_nil (s cur : string) :
  PyStr.split_ws_from cur s = [] <-> cur = EmptyString /\ blank s = true.
Proof.
  revert cur. induction s as [|c s IH]; intros cur; cbn.
  - destruct cur; split; try done. by intros [? _].
  - unfold blank in *. cbn. destruct (PyStr.is_space c) eqn:Hc; cbn.
    + destruct cur.
      * apply IH.
      * split; [done | by intros [? _]].
    + rewrite IH. split; [by intros [? _] | by intros [_ ?]].
Qed.

Lemma split_blank_iff (s : string) : PyStr.split s = [] <-> blank s = true.
Proof.
  unfold PyStr.split. rewrite split_ws_from_nil.
  split; [by intros [_ ?] | by intros ?].
Qed.

Lemma head_split_word (s word : string) :
  head (PyStr.split s) = Some word -> PyStr.strip word = word.
Proof.
  intros Hhead. apply strip_spaceless.
  pose proof (split_ws_from_spaceless s EmptyString eq_refl) as Hall.
  fold (PyStr.split s) in Hall.
  destruct (PyStr.split s) as [|w ws]; [done|].
  injection Hhead as <-. by inversion Hall.
Qed.

(* ===================================================================== *)
(** ** The router on every body *)
(* ===================================================================== *)

(** X1. A message of an accepted type whose body, in ASCII, holds a word,
    the first of which names no command, is answered once, with the fixed
    text quoting the whole body; [message] returns [None] and the bot is as
    before. *)
Theorem message_miss_replies_once (env : Env) (msg : Msg) (types : list string)
    (b : Bot) (tr : list Call) :
  m_type msg ∈ types ->
  ascii_only (m_body msg) = true ->
  blank (m_body msg) = false ->
  (forall word, head (PyStr.split (m_body msg)) = Some word -> get_command env word = None) ->
  message env msg types b tr
  = (Ret None, b, tr ++ [SendReply msg (not_understood (m_body msg))]).
Proof.
  intros Htype _ Hblank Hmiss. unfold message, first_word.
  rewrite bool_decide_eq_true_2 by done. run_m.
  destruct (PyStr.split (m_body msg)) as [|word rest] eqn:Hsplit.
  - apply split_blank_iff in Hsplit. congruence.
  - cbn. rewrite (head_split_word (m_body msg) word) by by rewrite Hsplit.
    by rewrite (Hmiss word eq_refl).
Qed.

Lemma message_miss_replies_once_witness :
  message router_env (mkMsg "chat" "  uptime now" (mkJID "alice@example.com" "home")
                        EmptyString EmptyString) chat_types ready_bot []
  = (Ret None, ready_bot,
     [] ++ [SendReply (mkMsg "chat" "  uptime now" (mkJID "alice@example.com" "home")
                         EmptyString EmptyString) (not_understood "  uptime now")]).
Proof.
  apply (message_miss_replies_once router_env
           (mkMsg "chat" "  uptime now" (mkJID "alice@example.com" "home")
              EmptyString EmptyString) chat_types ready_bot []).
  - apply (bool_decide_unpack _). vm_compute. exact I.
  - reflexivity.
  - reflexivity.
  - intros word Hword. vm_compute in Hword. injection Hword as <-. reflexivity.
Defined.

(** X2. A message of a type that is not accepted is dropped: nothing is
    looked up, nothing is sent, [None] is returned. A message of an accepted
    type whose body is empty or white space only makes [message] raise
    [IndexError] before any lookup: nothing is sent and the bot is as
    before. *)
Theorem message_blank_body_raises (env : Env) (msg : Msg) (types : list string)
    (b : Bot) (tr : list Call) :
  (m_type msg ∉ types -> message env msg types b tr = (Ret None, b, tr))
  /\ (m_type msg ∈ types -> blank (m_body msg) = true ->
      message env msg types b tr = (Raise IndexError, b, tr)).
Proof.
  unfold message, first_word. split.
  - intros Htype. by rewrite bool_decide_eq_false_2.
  - intros Htype Hblank%split_blank_iff. rewrite bool_decide_eq_true_2 by done.
    run_m. by rewrite Hblank.
Qed.

Lemma message_blank_body_raises_witness :
  message router_env (mkMsg "headline" "help" (mkJID "alice@example.com" "home")
                        EmptyString EmptyString) chat_types ready_bot []
  = (Ret None, ready_bot, [])
  /\ message router_env (mkMsg "chat" "   " (mkJID "alice@example.com" "home")
                        EmptyString EmptyString) chat_types ready_bot []
     = (Raise IndexError, ready_bot, []).
Proof.
  split.
  - apply (message_blank_body_raises router_env
             (mkMsg "headline" "help" (mkJID "alice@example.com" "home") EmptyString
                EmptyString)
             chat_types ready_bot []).
    apply (bool_decide_unpack _). vm_compute. exact I.
  - apply (message_blank_body_raises router_env
             (mkMsg "chat" "   " (mkJID "alice@example.com" "home") EmptyString EmptyString)
             chat_types ready_bot []); [|reflexivity].
    apply (bool_decide_unpack _). vm_compute. exact I.
Defined.

(** X3. When the first word names a command, [message] hands the message to
    it and returns what it returned; what the command raises is raised to
    the caller. The router itself sends nothing and leaves the bot alone;
    it logs the run only when the command returned a text. *)
Theorem message_runs_command (env : Env) (msg : Msg) (types : list string)
    (b : Bot) (tr : list Call) (word : string) (cmd : Command) :
  m_type msg ∈ types ->
  head (PyStr.split (m_body msg)) = Some word ->
  get_command env word = Some cmd ->
  message env msg types b tr
  = match cmd_fun cmd b msg with
    | inl e => (Raise e, b, tr)
    | inr out => (Ret out, b, if truthy_opt out then tr ++ [finished cmd] else tr)
    end.
Proof.
  intros Htype Hhead Hcmd. unfold message, first_word.
  rewrite bool_decide_eq_true_2 by done. run_m.
  pose proof (head_split_word _ _ Hhead) as Hstrip.
  destruct (PyStr.split (m_body msg)) as [|w rest]; [done|].
  injection Hhead as ->. cbn. rewrite Hstrip, Hcmd. cbn.
  destruct (cmd_fun cmd b msg) as [e|out]; cbn; [done|].
  unfold finished. by destruct (truthy_opt out).
Qed.

Lemma message_runs_command_witness :
  message router_env (mkMsg "chat" "help me" (mkJID "alice@example.com" "home")
                        EmptyString EmptyString) chat_types ready_bot []
  = (Ret (Some "Available commands: help"), ready_bot, [finished help_command]).
Proof.
  apply (message_runs_command router_env
           (mkMsg "chat" "help me" (mkJID "alice@example.com" "home")
              EmptyString EmptyString) chat_types ready_bot [] "help" help_command).
  - apply (bool_decide_unpack _). vm_compute. exact I.
  - reflexivity.
  - reflexivity.
Defined.

(** X4. [muc_message] does something (a call, a change of the bot, a result
    other than [None], an exception) only for a group chat message received
    once the room is ready, from another nick than the bot's, whose body
    starts with the bot's nick and a colon, and whose sender the room
    resolves to a JID with a bare part. *)
Theorem muc_message_acts_only_when_addressed (env : Env) (msg : Msg) (b : Bot)
    (tr : list Call) :
  muc_message env msg b tr <> (Ret None, b, tr) ->
  _muc_ready b = true /\ m_mucnick msg <> nick b
  /\ PyStr.startswith (m_body msg) (nick b +:+ ":") = true
  /\ m_type msg = "groupchat"
  /\ exists jid, sender_of env b msg = Some jid /\ jid_bare jid <> EmptyString.
Proof.
  unfold muc_message, get_jid, sender_of. run_m.
  destruct (_muc_ready b); cbn; [|done].
  destruct (String.eqb (m_mucnick msg) (nick b)) eqn:Hnick; cbn; [done|].
  apply String.eqb_neq in Hnick.
  destruct (PyStr.startswith (m_body msg) (nick b +:+ ":")); cbn; [|done].
  assert (Hdrop : m_type msg <> "groupchat" ->
            message env (set_body (muc_body (nick b) (m_body msg)) msg) ["groupchat"] b tr
            = (Ret None, b, tr)).
  { intros Hne. unfold message. cbn. rewrite bool_decide_eq_false_2; [done|].
    by intros ?%list_elem_of_singleton. }
  assert (Hbare : forall s, PyStr.truthy s = true -> s <> EmptyString)
    by (by intros [|] ?).
  destruct (String.eqb (m_type msg) "groupchat") eqn:Htype; cbn.
  - apply String.eqb_eq in Htype.
    destruct (truthy_opt (room b)); cbn.
    + destruct (getJidProperty env (m_mucroom msg) (m_mucnick msg)) as [jid|]; cbn; [|done].
      destruct (PyStr.truthy (jid_bare jid)) eqn:Ht; [|done]. intros _.
      repeat split; try done. exists jid. split; [done | by apply Hbare].
    + destruct (PyStr.truthy (jid_bare (m_from msg))) eqn:Ht; [|done]. intros _.
      repeat split; try done. exists (m_from msg). split; [done | by apply Hbare].
  - apply String.eqb_neq in Htype.
    destruct (PyStr.truthy (jid_bare (m_from msg))); [|done]. by rewrite (Hdrop Htype).
Qed.

Lemma muc_message_acts_only_when_addressed_witness :
  _muc_ready ready_bot = true /\ m_mucnick (room_msg "Ludolph: help") <> nick ready_bot
  /\ PyStr.startswith (m_body (room_msg "Ludolph: help")) (nick ready_bot +:+ ":") = true
  /\ m_type (room_msg "Ludolph: help") = "groupchat"
  /\ exists jid, sender_of router_env ready_bot (room_msg "Ludolph: help") = Some jid
       /\ jid_bare jid <> EmptyString.
Proof.
  apply (muc_message_acts_only_when_addressed router_env (room_msg "Ludolph: help")
           ready_bot []).
  vm_compute. discriminate.
Defined.

Lemma mem_self (s : string) :
  forallb (fun c => PyStr.mem c s) (list_ascii_of_string s) = true.
Proof.
  unfold PyStr.mem. apply forallb_forall. intros c Hc.
  apply existsb_exists. exists c. split; [done | apply Ascii.eqb_refl].
Qed.

Lemma lstrip_by_prefix (p : ascii -> bool) (pre rest : string) :
  forallb p (list_ascii_of_string pre) = true ->
  PyStr.lstrip_by p (pre +:+ rest) = PyStr.lstrip_by p rest.
Proof.
  induction pre as [|c pre IH]; cbn; [done|].
  intros [Hc Hpre]%andb_true_iff. change (String c pre +:+ rest) with (String c (pre +:+ rest)).
  cbn [PyStr.lstrip_by]. rewrite Hc. by apply IH.
Qed.

(** Stripping the characters of the nick amounts to removing the prefix
    when what follows does not start with one of them. *)
Lemma muc_body_is_lstrip (nick rest : string) :
  (forall c, first_char rest = Some c -> PyStr.mem c (nick +:+ ":") = false) ->
  muc_body nick ((nick +:+ ":") +:+ rest) = PyStr.lstrip rest.
Proof.
  intros Hfirst. unfold muc_body, PyStr.lstrip_chars.
  rewrite lstrip_by_prefix by apply mem_self.
  destruct rest as [|c rest]; [done|]. cbn. by rewrite (Hfirst c eq_refl).
Qed.

(** X5. For a nick and a text in ASCII: when the text after the nick and
    the colon is empty or starts with a character that occurs neither in the
    nick nor is a colon (a blank, for a nick without blanks), the body
    handed to [message] is that text without its leading white space: only
    then does stripping the characters of the nick amount to removing the
    prefix. Whatever the text, nothing of the prefix is left. *)
Theorem muc_body_after_separator (nick rest : string) :
  ascii_only nick = true ->
  (ascii_only rest = true ->
   (forall c, first_char rest = Some c -> PyStr.mem c (nick +:+ ":") = false) ->
   muc_body nick ((nick +:+ ":") +:+ rest) = PyStr.lstrip rest)
  /\ (forall text, ascii_only text = true ->
        muc_body nick ((nick +:+ ":") +:+ text) = muc_body nick text).
Proof.
  intros _. split; [intros _ Hfirst; by apply muc_body_is_lstrip|].
  intros text _. unfold muc_body, PyStr.lstrip_chars.
  by rewrite lstrip_by_prefix by apply mem_self.
Qed.

Lemma muc_body_after_separator_witness :
  muc_body "Ludolph" (("Ludolph" +:+ ":") +:+ "  help me") = PyStr.lstrip "  help me"
  /\ muc_body "Ludolph" (("Ludolph" +:+ ":") +:+ "help") = muc_body "Ludolph" "help".
Proof.
  destruct (muc_body_after_separator "Ludolph" "  help me" eq_refl) as [Hrest Hall].
  split.
  - apply Hrest; [reflexivity|]. intros c Hc. injection Hc as <-. reflexivity.
  - apply Hall. reflexivity.
Defined.

(* ===================================================================== *)
(** ** Readiness of the room: reload and the bot's own presence *)
(* ===================================================================== *)

Lemma rejoins_snoc (tr : list Call) (c : Call) :
  match c with LeaveMUC _ _ | JoinMUC _ _ _ => False | _ => True end ->
  rejoins (tr ++ [c]) = rejoins tr.
Proof.
  intros Hc. unfold rejoins. rewrite List.filter_app.
  destruct c; cbn; try done; by rewrite app_nil_r.
Qed.

Ltac reloading_side :=
  intros ? ? (? & ? & ? & ?); repeat split;
  first [ assumption | by rewrite rejoins_snoc ].

Lemma _load_config_reloading (env : Env) (config : Config) (init : bool) (b0 : Bot) :
  preserves (reloading b0) (_load_config env config init).
Proof. preserve ltac:(fail) reloading_side. Qed.

Lemma _load_plugins_reloading (env : Env) (config : Config) (plugin_list : list Plugin)
    (init : bool) (b0 : Bot) :
  preserves (reloading b0) (_load_plugins env config plugin_list init).
Proof. preserve ltac:(fail) reloading_side. Qed.

(** What a reload leaves when it returns, and when it raises. *)
Lemma reload_outcome (env : Env) (config : Config) (plugin_list : list Plugin) (b : Bot) :
  triple (fun b1 tr => b1 = b /\ tr = []) (reload env config plugin_list)
    (fun _ b1 tr =>
       _reloaded b1 = true /\ muc b1 = muc b
       /\ if truthy_opt (room b1) && muc b1
          then _muc_ready b1 = false
               /\ rejoins tr = [LeaveMUC (py_str (room b1)) (nick b1);
                                JoinMUC (py_str (room b1)) (nick b1) maxhistory]
          else _muc_ready b1 = _muc_ready b /\ rejoins tr = [])
    (fun b1 tr => muc b1 = muc b /\ _muc_ready b1 = _muc_ready b /\ rejoins tr = []).
Proof.
  unfold reload.
  apply triple_bind with (Q := fun _ b1 tr => b1 = b /\ rejoins tr = []).
  { by intros b1 tr [-> ->]. }
  intros _. apply triple_bind with (Q := fun _ => reloading b).
  { by intros b1 tr [-> ?]. }
  intros _. apply triple_bind with (Q := fun _ => reloading b).
  { apply triple_conseq with (P' := reloading b) (Q' := fun _ => reloading b)
      (E' := reloading b); try done.
    - apply _load_config_reloading.
    - by intros b1 tr (_ & ? & ? & ?). }
  intros _. apply triple_bind with (Q := fun _ => reloading b).
  { apply triple_conseq with (P' := reloading b) (Q' := fun _ => reloading b)
      (E' := reloading b); try done.
    - apply _load_plugins_reloading.
    - by intros b1 tr (_ & ? & ? & ?). }
  intros _ b1 tr (Hrel & Hready & Hmuc & Hquiet). run_m.
  destruct (truthy_opt (room b1) && muc b1) eqn:Hroom; cbn; rewrite ?Hroom.
  - split; [done|]. split; [done|]. split; [done|].
    unfold rejoins in *. rewrite !List.filter_app, Hquiet. done.
  - done.
Qed.

(** X6. A reload that returns has marked the bot as reloaded and has not
    attached nor detached the chat plugin. With a room configured and the
    chat plugin attached, it has left and joined again, once and in this
    order, the room and under the nick just configured, and the room is not
    ready: until the bot's own presence arrives every room message is
    dropped. Otherwise (no room, or a bot started without one, whose chat
    plugin is not attached) no leave nor join is sent and the readiness is
    as before. *)
Theorem reload_rejoins_unready (env : Env) (config : Config) (plugin_list : list Plugin)
    (b : Bot) :
  result_of (reload env config plugin_list) b = Ret tt ->
  let b' := bot_of (reload env config plugin_list) b in
  let out := calls_of (reload env config plugin_list) b in
  _reloaded b' = true /\ muc b' = muc b
  /\ if truthy_opt (room b') && muc b'
     then _muc_ready b' = false
          /\ rejoins out = [LeaveMUC (py_str (room b')) (nick b');
                            JoinMUC (py_str (room b')) (nick b') maxhistory]
          /\ forall env' msg tr, muc_message env' msg b' tr = (Ret None, b', tr)
     else _muc_ready b' = _muc_ready b /\ rejoins out = [].
Proof.
  intros Hret b' out.
  pose proof (triple_run _ _ _ _ b (reload_outcome env config plugin_list b)
                (conj eq_refl eq_refl)) as H.
  rewrite Hret in H. fold b' out in H. destruct H as (Hrel & Hmuc & H).
  split; [done|]. split; [done|].
  destruct (truthy_opt (room b') && muc b'); [|done].
  destruct H as [Hready Hcalls]. repeat split; try done.
  intros env' msg tr. unfold muc_message. run_m. by rewrite Hready.
Qed.

Lemma reload_rejoins_unready_witness :
  _reloaded (bot_of (reload demo_env demo_config demo_plugins) ready_bot) = true
  /\ _muc_ready (bot_of (reload demo_env demo_config demo_plugins) ready_bot) = false
  /\ rejoins (calls_of (reload demo_env demo_config demo_plugins) ready_bot)
     = [LeaveMUC demo_room "Ludolph"; JoinMUC demo_room "Ludolph" maxhistory].
Proof.
  pose proof (reload_rejoins_unready demo_env demo_config demo_plugins ready_bot eq_refl)
    as (Hrel & _ & H).
  split; [exact Hrel|].
  change (truthy_opt (room (bot_of (reload demo_env demo_config demo_plugins) ready_bot))
          && muc (bot_of (reload demo_env demo_config demo_plugins) ready_bot))
    with true in H.
  destruct H as (Hready & Hcalls & _). split; [exact Hready | exact Hcalls].
Defined.

Lemma messages_sent_app (tr1 tr2 : list Call) :
  messages_sent (tr1 ++ tr2) = messages_sent tr1 ++ messages_sent tr2.
Proof. apply omap_app. Qed.

Ltac announced_side :=
  intros ? ? [? ?]; split;
  first [ assumption | rewrite messages_sent_app; apply elem_of_app; by left ].

(** Under the tolerated failures [_room_config] returns, and writes no
    attribute but [room_config]. *)
Lemma _room_config_tolerant (env : Env) (b0 : Bot) :
  room_config_tolerated env b0 ->
  triple (fun b _ => b = b0) (_room_config env)
    (fun _ b _ => nick b = nick b0 /\ room b = room b0) never.
Proof.
  intros (Hget & Hset & Hsend) b tr ->. unfold _room_config. run_m.
  destruct Hget as [[what Hget]|(form & Hget & [v1 H1] & [v2 H2])]; rewrite Hget; cbn.
  { done. }
  unfold set_field, _room_members. run_m.
  destruct (negb (bool_decide (room_users b0 = ∅))); cbn; rewrite H1; cbn;
    rewrite lookup_insert_ne by done; rewrite H2; cbn.
  all: match goal with
       | Hs : forall r f, accepted_or_rejected (setRoomConfig _ r f)
         |- context [setRoomConfig _ ?r ?f] =>
           destruct (Hs r f) as [Hr|[text Hr]]; rewrite Hr; cbn
       end.
  all: match goal with
       | Hs : forall r f, accepted_or_rejected (iq_send _ r f)
         |- context [iq_send _ ?r ?f] =>
           destruct (Hs r f) as [Hi|[text' Hi]]; rewrite Hi; cbn
       end.
  all: done.
Qed.

(** X7. When the bot's own presence arrives and the room configuration
    fails only in the ways the code catches, the handler greets the room and
    marks it ready, whatever the reconciliation that follows does. *)
Theorem own_presence_makes_ready (env : Env) (presence : Presence) (b : Bot) :
  jid_full (p_from presence) = own_jid b ->
  room_config_tolerated env b ->
  _muc_ready (bot_of (muc_online env presence) b) = true
  /\ greeting b ∈ messages_sent (calls_of (muc_online env presence) b).
Proof.
  intros Hown Htol.
  assert (Hm : triple (fun b1 tr => b1 = b /\ tr = []) (muc_online env presence)
            (fun _ => announced b) (announced b)).
  { unfold muc_online. apply triple_this_bind. intros b0 b1 tr [[-> ->] <-].
    unfold own_jid in Hown. rewrite Hown, String.eqb_refl.
    lazymatch goal with
    | |- match ?m _ _ with _ => _ end =>
        enough (Hb : triple (fun b1 tr => b1 = b /\ tr = []) m
                  (fun _ => announced b) (announced b))
          by apply (Hb b [] (conj eq_refl eq_refl))
    end.
    apply triple_bind with (Q := fun _ b1 _ => nick b1 = nick b /\ room b1 = room b).
    { apply triple_conseq with (P' := fun b1 _ => b1 = b)
        (Q' := fun _ b1 _ => nick b1 = nick b /\ room b1 = room b) (E' := never); try done.
      - by apply _room_config_tolerant.
      - by intros b1 tr [-> _]. }
    intros _.
    apply triple_bind with (Q := fun _ b1 tr => greeting b ∈ messages_sent tr).
    { intros b1 tr _. unfold msg_send. run_m. rewrite messages_sent_app.
      apply elem_of_app. right. by left. }
    intros _. apply triple_bind with (Q := fun _ => announced b).
    { by intros b1 tr Hg. }
    intros _. preserve ltac:(fail) announced_side. }
  pose proof (triple_run _ _ _ _ b Hm (conj eq_refl eq_refl)) as H.
  unfold announced in H.
  by destruct (result_of (muc_online env presence) b).
Qed.

Lemma own_presence_makes_ready_witness :
  _muc_ready (bot_of (muc_online rejecting_env own_presence) demo_bot) = true
  /\ greeting demo_bot ∈ messages_sent (calls_of (muc_online rejecting_env own_presence) demo_bot).
Proof.
  apply (own_presence_makes_ready rejecting_env own_presence demo_bot).
  - reflexivity.
  - split; [|split].
    + right. exists demo_form. split; [reflexivity|]. split; by eexists.
    + intros r form. right. by eexists.
    + intros r items. right. by eexists.
Defined.

(** X8. When the form the room hands out lacks the members-only field, the
    handler of the bot's own presence raises [KeyError] while it configures
    the room: the room is neither greeted nor marked ready, nothing is pushed
    to the server and nobody is invited. *)
Theorem own_presence_form_without_field (env : Env) (presence : Presence) (b : Bot)
    (form : Form) :
  jid_full (p_from presence) = own_jid b ->
  getRoomConfig env (room b) = inr form ->
  form !! membersonly = None ->
  result_of (muc_online env presence) b = Raise (KeyError membersonly)
  /\ _muc_ready (bot_of (muc_online env presence) b) = _muc_ready b
  /\ messages_sent (calls_of (muc_online env presence) b) = []
  /\ List.filter changes_room (calls_of (muc_online env presence) b) = [].
Proof.
  intros Hown Hget Hnone. unfold own_jid in Hown.
  unfold result_of, bot_of, calls_of, muc_online, _room_config, set_field. run_m.
  rewrite Hown, String.eqb_refl. cbn. rewrite Hget. cbn.
  destruct (negb (bool_decide (room_users b = ∅))); cbn; rewrite Hnone; cbn; done.
Qed.

Lemma own_presence_form_without_field_witness :
  result_of (muc_online bare_form_env own_presence) demo_bot = Raise (KeyError membersonly)
  /\ _muc_ready (bot_of (muc_online bare_form_env own_presence) demo_bot)
     = _muc_ready demo_bot
  /\ messages_sent (calls_of (muc_online bare_form_env own_presence) demo_bot) = []
  /\ List.filter changes_room (calls_of (muc_online bare_form_env own_presence) demo_bot) = [].
Proof.
  apply (own_presence_form_without_field bare_form_env own_presence demo_bot
           {[ members_by_default := VBool true ]}); reflexivity.
Defined.

(* ===================================================================== *)
(** ** The registry after a pass of [_load_plugins] *)
(* ===================================================================== *)

Lemma get_del_none (k k' : string) (d : OrderedDict.t) :
  OrderedDict.get k d = None -> OrderedDict.get k (OrderedDict.del k' d) = None.
Proof.
  intros Hnone. destruct (decide (k' = k)) as [->|Hne].
  - apply get_del_eq.
  - by rewrite get_del_ne.
Qed.

(** One turn of the loop that disables plugins leaves the bot's own entry
    alone, keeps an absent module absent, and never raises. *)
Lemma disable_plugin_self (env : Env) (plugin_list : list Plugin) (k : string)
    (v : option PluginObj) :
  triple (entry_is __name__ v) (disable_plugin env plugin_list k)
    (fun _ => entry_is __name__ v) never.
Proof.
  intros b tr Hb. unfold disable_plugin.
  destruct (String.eqb k __name__) eqn:Hk; [done|]. apply String.eqb_neq in Hk.
  destruct (negb (in_plugins env k plugin_list)); [|done].
  run_m. unfold entry_is in *. cbn. by rewrite get_del_ne.
Qed.

Lemma disable_plugin_absent (env : Env) (plugin_list : list Plugin) (k k' : string) :
  triple (entry_is k None) (disable_plugin env plugin_list k')
    (fun _ => entry_is k None) never.
Proof.
  intros b tr Hb. unfold disable_plugin.
  destruct (String.eqb k' __name__); [done|].
  destruct (negb (in_plugins env k' plugin_list)); [|done].
  run_m. unfold entry_is in *. cbn. by apply get_del_none.
Qed.

(** The turn of a module that is no plugin any more removes it. *)
Lemma disable_plugin_removes (env : Env) (plugin_list : list Plugin) (k : string) :
  k <> __name__ -> in_plugins env k plugin_list = false ->
  triple always (disable_plugin env plugin_list k) (fun _ => entry_is k None) never.
Proof.
  intros Hk%String.eqb_neq Hout b tr _. unfold disable_plugin. rewrite Hk, Hout.
  run_m. unfold entry_is. cbn. apply get_del_eq.
Qed.

Lemma get_none_keys (k : string) (d : OrderedDict.t) :
  k ∉ OrderedDict.keys d -> OrderedDict.get k d = None.
Proof.
  unfold OrderedDict.keys. induction d as [|[k' v] d IH]; cbn; [done|].
  intros Hnot. destruct (String.eqb k k') eqn:Hk.
  - apply String.eqb_eq in Hk as ->. exfalso. apply Hnot. by left.
  - apply IH. intros Hin. apply Hnot. by right.
Qed.

(** The loop that disables plugins, seen from a module that is no plugin any
    more. *)
Lemma disable_plugins_removes (env : Env) (plugin_list : list Plugin) (k : string)
    (keys : list string) (d : OrderedDict.t) :
  k <> __name__ -> in_plugins env k plugin_list = false ->
  (k ∉ keys -> OrderedDict.get k d = None) ->
  triple (fun b _ => plugins b = d)
    (for_each keys (disable_plugin env plugin_list)) (fun _ => entry_is k None) never.
Proof.
  intros Hk Hout Hd.
  destruct (decide (k ∈ keys)) as [(before & after & ->)%list_elem_of_split|Hnot].
  - intros b tr _. rewrite for_each_app.
    assert (Hb : always b tr) by done. revert b tr Hb.
    change (triple always
      (for_each before (disable_plugin env plugin_list)
         ≫= fun _ => for_each (k :: after) (disable_plugin env plugin_list))
      (fun _ => entry_is k None) never).
    apply triple_bind with (Q := fun _ => always).
    { apply triple_for_each. intros k' _ b tr _.
      pose proof (disable_plugin_self env plugin_list k' _ b tr eq_refl) as H.
      by destruct (disable_plugin env plugin_list k' b tr) as [[[[]|e] b'] tr']. }
    intros _. cbn [for_each].
    apply triple_bind with (Q := fun _ => entry_is k None).
    { by apply disable_plugin_removes. }
    intros _. apply triple_for_each. intros k' _. apply disable_plugin_absent.
  - apply triple_conseq with (P' := entry_is k None) (Q' := fun _ => entry_is k None)
      (E' := never); try done.
    + apply triple_for_each. intros k' _. apply disable_plugin_absent.
    + intros b tr Hb. unfold entry_is. rewrite Hb. by apply Hd.
Qed.

(** X9. After every pass of [_load_plugins] over plugins none of which has
    the bot's own module name, [get_xmpp] returns the bot: on the first load
    whatever the registry held, on a reload when the bot was registered
    before. The pass never raises, so [get_xmpp] never raises [KeyError]. *)
Theorem get_xmpp_after_load_plugins (env : Env) (config : Config)
    (plugin_list : list Plugin) (init : bool) (b : Bot) :
  __name__ ∉ module <$> plugin_list ->
  (init = false -> OrderedDict.get __name__ (plugins b) = Some SelfBot) ->
  result_of (_load_plugins env config plugin_list init ;; get_xmpp) b = Ret SelfBot.
Proof.
  intros Hself Hreg.
  assert (Hm : triple (fun b1 _ => b1 = b)
            (_load_plugins env config plugin_list init ;; get_xmpp)
            (fun r _ _ => r = SelfBot) never).
  { apply triple_bind with (Q := fun _ => entry_is __name__ (Some SelfBot)).
    - unfold _load_plugins.
      apply triple_bind with (Q := fun _ => entry_is __name__ (Some SelfBot)).
      { destruct init.
        - by intros b1 tr _.
        - apply triple_this_bind. intros b0.
          apply triple_conseq with (P' := entry_is __name__ (Some SelfBot))
            (Q' := fun _ => entry_is __name__ (Some SelfBot)) (E' := never); try done.
          + apply triple_for_each. intros k _. apply disable_plugin_self.
          + intros b1 tr [-> _]. by apply Hreg. }
      intros _.
      apply triple_bind with (Q := fun _ => entry_is __name__ (Some SelfBot)).
      { by apply load_plugins_other. }
      intros _. preserve ltac:(fail) entry_side.
    - intros _ b1 tr Hb1. unfold get_xmpp. run_m. unfold entry_is in Hb1.
      by rewrite Hb1. }
  pose proof (triple_run _ _ _ _ b Hm eq_refl) as H.
  destruct (result_of (_load_plugins env config plugin_list init ;; get_xmpp) b);
    [by rewrite H | done].
Qed.

Lemma get_xmpp_after_load_plugins_witness :
  result_of (_load_plugins demo_env demo_config demo_plugins false ;; get_xmpp)
    old_registry_bot = Ret SelfBot.
Proof.
  apply (get_xmpp_after_load_plugins demo_env demo_config demo_plugins false
           old_registry_bot).
  - apply (bool_decide_unpack _). vm_compute. exact I.
  - intros _. reflexivity.
Defined.

(** X10. On a reload, a registered module other than the bot's own that is
    no plugin any more is absent from the registry afterwards. *)
Theorem reload_drops_removed_plugin (env : Env) (config : Config)
    (plugin_list : list Plugin) (b : Bot) (k : string) :
  k <> __name__ ->
  in_plugins env k plugin_list = false ->
  k ∉ module <$> plugin_list ->
  OrderedDict.get k (plugins (bot_of (_load_plugins env config plugin_list false) b)) = None.
Proof.
  intros Hk Hout Hnot.
  assert (Hm : triple (fun b1 _ => b1 = b) (_load_plugins env config plugin_list false)
            (fun _ => entry_is k None) never).
  { unfold _load_plugins.
    apply triple_bind with (Q := fun _ => entry_is k None).
    { apply triple_this_bind. intros b0.
      apply triple_conseq with (P' := fun b1 _ => plugins b1 = plugins b0)
        (Q' := fun _ => entry_is k None) (E' := never); try done.
      - apply disable_plugins_removes; try done. apply get_none_keys.
      - by intros b1 tr [_ ->]. }
    intros _. apply triple_bind with (Q := fun _ => entry_is k None).
    { by apply load_plugins_other. }
    intros _. preserve ltac:(fail) entry_side. }
  pose proof (triple_run _ _ _ _ b Hm eq_refl) as H.
  by destruct (result_of (_load_plugins env config plugin_list false) b).
Qed.

Lemma reload_drops_removed_plugin_witness :
  OrderedDict.get "ludolph.plugins.old"
    (plugins (bot_of (_load_plugins demo_env demo_config demo_plugins false)
                old_registry_bot)) = None.
Proof.
  apply (reload_drops_removed_plugin demo_env demo_config demo_plugins old_registry_bot
           "ludolph.plugins.old").
  - discriminate.
  - reflexivity.
  - apply (bool_decide_unpack _). vm_compute. exact I.
Defined.

Lemma set_fresh (k : string) (v : PluginObj) (d : OrderedDict.t) :
  OrderedDict.get k d = None -> OrderedDict.set k v d = d ++ [(k, v)].
Proof.
  induction d as [|[k' v'] d IH]; cbn; [done|].
  destruct (String.eqb k k'); [done|]. intros Hd. by rewrite IH.
Qed.

Lemma get_snoc_ne (k k' : string) (v : PluginObj) (d : OrderedDict.t) :
  k <> k' -> OrderedDict.get k (d ++ [(k', v)]) = OrderedDict.get k d.
Proof.
  intros Hne%String.eqb_neq. induction d as [|[k0 v0] d IH]; cbn.
  - by rewrite Hne.
  - by rewrite IH.
Qed.

(** On the first load, the turn of a plugin whose module is not registered
    yet registers the object its constructor returns, and leaves the bot as
    it is when the constructor call raises. *)
Lemma load_plugin_first (config : Config) (plugin : Plugin) (b : Bot) :
  triple (fun b1 _ => b1 = b) (load_plugin config true plugin)
    (fun _ b1 _ =>
       b1 = match constructed config plugin b false with
            | inr obj =>
                set_plugins (OrderedDict.set (module plugin) (Instance obj) (plugins b)) b
            | inl _ => b
            end)
    never.
Proof.
  intros b1 tr ->. unfold load_plugin, construct. run_m.
  by destruct (constructed config plugin b false) as [e|obj]; cbn.
Qed.

Lemma load_plugins_first (config : Config) (plugin_list : list Plugin) (b : Bot) :
  NoDup (module <$> plugin_list) ->
  (forall plugin, plugin ∈ plugin_list ->
     OrderedDict.get (module plugin) (plugins b) = None) ->
  triple (fun b1 _ => b1 = b) (for_each plugin_list (load_plugin config true))
    (fun _ b1 _ =>
       plugins b1
       = plugins b ++ instances plugin_list (constructor_results config plugin_list b))
    never.
Proof.
  revert b. induction plugin_list as [|plugin rest IH]; intros b Hnodup Hfresh.
  - intros b1 tr ->. cbn. by rewrite app_nil_r.
  - cbn [for_each]. rewrite fmap_cons in Hnodup. apply NoDup_cons in Hnodup as [Hhead Htail].
    eapply triple_bind; [apply load_plugin_first|].
    intros []. cbn [constructor_results].
    destruct (constructed config plugin b false) as [e|obj].
    + eapply triple_conseq; [apply (IH b Htail) | done | | done].
      * intros other Hother. apply Hfresh. by right.
      * by intros _ b1 tr ->.
    + set (b' := set_plugins (OrderedDict.set (module plugin) (Instance obj) (plugins b)) b).
      assert (Hb' : plugins b' = plugins b ++ [(module plugin, Instance obj)]).
      { unfold b'. cbn. apply set_fresh, Hfresh. by left. }
      eapply triple_conseq; [apply (IH b' Htail) | done | | done].
      * intros other Hother. rewrite Hb'. rewrite get_snoc_ne; [apply Hfresh; by right|].
        intros Heq. apply Hhead. rewrite <- Heq. by apply list_elem_of_fmap_2.
      * intros _ b1 tr ->. rewrite Hb', <- app_assoc. done.
Qed.

(** X11. After the first load over plugins of distinct modules, none the
    bot's own, the registry holds the bot first and then the plugins whose
    constructor calls returned, in the order of the plugin list: the ones
    whose call raised are left out, and what the registry held before is
    gone. The constructor calls are those the pass makes, each on the bot
    as the turns before it left it. *)
Theorem first_load_registry (env : Env) (config : Config) (plugin_list : list Plugin)
    (b : Bot) :
  NoDup (module <$> plugin_list) ->
  __name__ ∉ module <$> plugin_list ->
  plugins (bot_of (_load_plugins env config plugin_list true) b)
  = (__name__, SelfBot)
    :: instances plugin_list
         (constructor_results config plugin_list (set_plugins [(__name__, SelfBot)] b)).
Proof.
  intros Hnodup Hself.
  set (b0 := set_plugins [(__name__, SelfBot)] b).
  assert (Hm : triple (fun b1 _ => b1 = b) (_load_plugins env config plugin_list true)
            (fun _ b1 _ =>
               plugins b1
               = (__name__, SelfBot)
                 :: instances plugin_list (constructor_results config plugin_list b0))
            never).
  { unfold _load_plugins.
    apply triple_bind with (Q := fun _ b1 _ => b1 = b0).
    { by intros b1 tr ->. }
    intros _.
    apply triple_bind with
      (Q := fun _ b1 _ =>
              plugins b1
              = (__name__, SelfBot)
                :: instances plugin_list (constructor_results config plugin_list b0)).
    { eapply triple_conseq; [apply (load_plugins_first config plugin_list b0 Hnodup)
                            | done | | done].
      - intros plugin Hin. cbn.
        rewrite (proj2 (String.eqb_neq (module plugin) __name__)); [done|].
        intros Heq. apply Hself. rewrite <- Heq. by apply list_elem_of_fmap_2.
      - by intros _ b1 tr ->. }
    intros _. preserve ltac:(fail) keep_side. }
  pose proof (triple_run _ _ _ _ b Hm eq_refl) as H.
  by destruct (result_of (_load_plugins env config plugin_list true) b).
Qed.

(** At the demo deployment, which runs no web server, from a registry that
    still holds an old plugin: zabbix and hooks raise, base is registered
    behind the bot, and the old entries are gone. *)
Lemma first_load_registry_witness :
  plugins (bot_of (_load_plugins demo_env demo_config pass_plugins true) old_registry_bot)
  = [(__name__, SelfBot); ("ludolph.plugins.base", Instance "Base")].
Proof.
  etransitivity.
  - apply (first_load_registry demo_env demo_config pass_plugins old_registry_bot).
    + apply (bool_decide_unpack _). vm_compute. exact I.
    + apply (bool_decide_unpack _). vm_compute. exact I.
  - vm_compute. reflexivity.
Defined.

(* ===================================================================== *)
(** ** What a configuration load leaves in the bot *)
(* ===================================================================== *)

Lemma getattr_known (b : Bot) :
  getattr b = known_sets (users b) (admins b) (room_users b).
Proof. done. Qed.

Lemma jid_entry_ext (known known' : string -> gset string) (keywords : list string)
    (item : string) :
  (forall k, k ∈ keywords -> known k = known' k) ->
  jid_entry known keywords item = jid_entry known' keywords item.
Proof.
  intros Hk. unfold jid_entry.
  destruct (negb _); [done|]. destruct (PyStr.mem _ _); [|done].
  destruct (PyStr.startswith _ _); [|done].
  case_bool_decide; [by apply Hk | done].
Qed.

Lemma jid_entries_ext (known known' : string -> gset string) (keywords : list string)
    (value : string) :
  (forall k, k ∈ keywords -> known k = known' k) ->
  jid_entries known keywords value = jid_entries known' keywords value.
Proof.
  intros Hk. unfold jid_entries. f_equal. apply list_fmap_ext.
  intros _ item _. by apply jid_entry_ext.
Qed.

Lemma configured_set_ext (config : Config) (option : string)
    (known known' : string -> gset string) (keywords : list string) :
  (forall k, k ∈ keywords -> known k = known' k) ->
  configured_set config option known keywords = configured_set config option known' keywords.
Proof.
  intros Hk. unfold configured_set. destruct (has_option _ _ _); [|done].
  destruct (get _ _ _); [done|]. by apply jid_entries_ext.
Qed.

(** One turn of the loop of [read_jid_array] adds what the item stands for
    and leaves the bot alone. *)
Lemma read_jid_run (option : string) (keywords : list string) (jids : gset string)
    (item : string) (b : Bot) (tr : list Call) :
  exists tr', read_jid option keywords jids item b tr
              = (Ret (jids ∪ jid_entry (getattr b) keywords item), b, tr').
Proof.
  unfold read_jid, jid_entry. cbv zeta.
  destruct (negb (PyStr.truthy (PyStr.strip item))).
  { exists tr. by rewrite (right_id_L ∅ (∪)). }
  destruct (PyStr.mem "@" (PyStr.strip item)).
  - destruct (PyStr.startswith (PyStr.strip item) "@").
    + case_bool_decide.
      * by exists tr.
      * eexists. run_m. by rewrite (right_id_L ∅ (∪)).
    + by exists tr.
  - eexists. run_m. by rewrite (right_id_L ∅ (∪)).
Qed.

Lemma read_jids_run (option : string) (keywords : list string) (items : list string)
    (jids : gset string) (b : Bot) (tr : list Call) :
  exists tr', fold_each items (read_jid option keywords) jids b tr
              = (Ret (jids ∪ ⋃ (jid_entry (getattr b) keywords <$> items)), b, tr').
Proof.
  revert jids tr. induction items as [|item items IH]; intros jids tr; cbn [fold_each].
  - exists tr. cbn. by rewrite (right_id_L ∅ (∪)).
  - destruct (read_jid_run option keywords jids item b tr) as [tr1 H1].
    destruct (IH (jids ∪ jid_entry (getattr b) keywords item) tr1) as [tr2 H2].
    exists tr2. unfold mbind, M_bind, bind. rewrite H1, H2. cbn.
    by rewrite (assoc_L (∪)).
Qed.

(** [read_jid_array] returns the set the option stands for, given the sets
    the bot holds for the keywords, and leaves the bot alone. *)
Lemma read_jid_array_run (config : Config) (option : string) (keywords : list string)
    (b0 : Bot) :
  triple (fun b _ => b = b0) (read_jid_array config "xmpp" option keywords)
    (fun jids b _ => b = b0 /\ jids = configured_set config option (getattr b0) keywords)
    (fun b _ => b = b0).
Proof.
  intros b tr ->. unfold read_jid_array, configured_set.
  destruct (has_option config "xmpp" option); [|done].
  unfold mbind, M_bind, bind. destruct (get config "xmpp" option) as [e|value]; cbn; [done|].
  destruct (read_jids_run option keywords (PyStr.split_on "," (PyStr.strip value)) ∅ b0 tr)
    as [tr' H].
  rewrite H. split; [done|]. unfold jid_entries. by rewrite (left_id_L ∅ (∪)).
Qed.

Lemma triple_this_known {B} (P : Pred) (k : Bot -> M B) (R : B -> Pred) (E : Pred) :
  (forall b0 tr0, P b0 tr0 -> triple P (k b0) R E) -> triple P (this ≫= k) R E.
Proof. intros Hk b tr Hb. by apply (Hk b tr Hb b tr Hb). Qed.

(** [read_jid_array] under an assertion on the bot alone. *)
Lemma read_jid_array_known (config : Config) (option : string) (keywords : list string)
    (S : Bot -> Prop) :
  triple (fun b _ => S b) (read_jid_array config "xmpp" option keywords)
    (fun jids b _ => S b /\ jids = configured_set config option (getattr b) keywords)
    always.
Proof.
  intros b tr Hb.
  pose proof (read_jid_array_run config option keywords b b tr eq_refl) as H.
  destruct (read_jid_array config "xmpp" option keywords b tr) as [[[jids|e] b'] tr'];
    [|done].
  destruct H as [-> ->]. done.
Qed.

(** A statement that leaves the assertion at hand as it is. *)
Ltac kept :=
  lazymatch goal with
  | |- triple ?P _ _ _ =>
      apply triple_conseq with (P' := P) (Q' := fun _ => P) (E' := P);
      [ preserve ltac:(fail) keep_side | done | done | done ]
  end.

Ltac keep :=
  lazymatch goal with
  | |- triple ?P (mbind _ _) _ _ =>
      apply triple_bind with (Q := fun _ => P); [ kept | intros _ ]
  end.

Lemma _load_config_loaded_from (env : Env) (config : Config) (init : bool) (b0 : Bot) :
  triple (fun b _ => b = b0) (_load_config env config init)
    (fun _ b _ => loaded_from env config b0 b) always.
Proof.
  unfold _load_config.
  (* the DB file *)
  apply triple_bind with (Q := fun _ b _ => b = b0); [by intros b tr ->|]. intros _.
  apply triple_bind with (Q := fun _ b _ => stage 0 env config b0 b).
  { intros b tr ->. unfold stage, merged, roles_read, db_loaded. cbn.
    destruct (has_option config "global" "dbfile").
    - unfold mbind, M_bind, bind. destruct (get config "global" "dbfile") as [e|dbfile]; cbn; [done|].
      destruct (PyStr.truthy dbfile); cbn; [done|].
      by rewrite (right_id_L ∅ (∪)), (left_id_L ∅ (∪)).
    - cbn. by rewrite (right_id_L ∅ (∪)), (left_id_L ∅ (∪)). }
  intros _.
  (* nick and sslv3 *)
  keep. keep.
  (* users *)
  apply triple_bind with (Q := fun _ b _ => stage 0 env config b0 b /\ users b = ∅).
  { by intros b tr Hb. }
  intros _.
  apply triple_bind with
    (Q := fun jids b _ => (stage 0 env config b0 b /\ users b = ∅)
                          /\ jids = configured_users config).
  { eapply triple_conseq;
      [apply (read_jid_array_known config "users" []
                (fun b => stage 0 env config b0 b /\ users b = ∅)) | done | | done].
    intros jids b tr [Hb ->]. split; [done|].
    apply configured_set_ext. by intros k ?%elem_of_nil. }
  intros jids.
  apply triple_bind with (Q := fun _ b _ => stage 1 env config b0 b).
  { intros b tr [[[Hm Hr] Hempty] ->]. unfold stage, roles_read in *. cbn in *.
    rewrite Hempty, (left_id_L ∅ (∪)). destruct Hr as (? & ? & ? & ? & ?).
    split; [exact Hm|]. by repeat split. }
  intros _. apply triple_this_known. intros b1 tr1 Hb1. keep.
  (* admins *)
  apply triple_bind with (Q := fun _ b _ => stage 1 env config b0 b /\ admins b = ∅).
  { by intros b tr Hb. }
  intros _.
  apply triple_bind with
    (Q := fun jids b _ => (stage 1 env config b0 b /\ admins b = ∅)
                          /\ jids = configured_admins config).
  { eapply triple_conseq;
      [apply (read_jid_array_known config "admins" ["users"]
                (fun b => stage 1 env config b0 b /\ admins b = ∅)) | done | | done].
    intros jids' b tr [Hb ->]. split; [done|].
    apply configured_set_ext. intros k Hk. rewrite getattr_known.
    destruct Hb as [[Hm (Hu & _)] _]. cbn in Hu.
    repeat (apply elem_of_cons in Hk as [->|Hk]; [by rewrite ?Hu|]).
    by apply elem_of_nil in Hk. }
  intros jids'.
  apply triple_bind with (Q := fun _ b _ => stage 2 env config b0 b).
  { intros b tr [[[Hm Hr] Hempty] ->]. unfold stage, roles_read in *. cbn in *.
    rewrite Hempty, (left_id_L ∅ (∪)). destruct Hr as (? & ? & ? & ? & ?).
    split; [exact Hm|]. by repeat split. }
  intros _. apply triple_this_known. intros b2 tr2 Hb2. keep.
  apply triple_this_known. intros b3 tr3 Hb3. keep.
  (* room *)
  apply triple_bind with (Q := fun _ b _ => stage 3 env config b0 b).
  { intros b tr [Hm (Hu & Ha & _)]. unfold stage, roles_read, configured_room. cbn.
    destruct (has_option config "xmpp" "room"); [|done].
    unfold mbind, M_bind, bind. by destruct (get config "xmpp" "room") as [e|value]. }
  intros _. keep.
  (* room users *)
  apply triple_bind with (Q := fun _ b _ => stage 3 env config b0 b /\ room_users b = ∅).
  { by intros b tr Hb. }
  intros _. apply triple_this_known. intros b4 tr4 [[_ (_ & _ & Hroom & _)] _].
  cbn in Hroom. rewrite Hroom.
  apply triple_bind with (Q := fun _ b _ => stage 4 env config b0 b).
  { destruct (truthy_opt (configured_room config)) eqn:Htruthy.
    - apply triple_bind with
        (Q := fun jids b _ => (stage 3 env config b0 b /\ room_users b = ∅)
                              /\ jids = configured_room_users config).
      { eapply triple_conseq;
          [apply (read_jid_array_known config "room_users" ["users"; "admins"]
                    (fun b => stage 3 env config b0 b /\ room_users b = ∅)) | done | | done].
        intros jids'' b tr [Hb ->]. split; [done|].
        unfold configured_room_users. rewrite Htruthy.
        apply configured_set_ext. intros k Hk. rewrite getattr_known.
        destruct Hb as [[Hm (Hu & Ha & _)] _]. cbn in Hu, Ha.
        repeat (apply elem_of_cons in Hk as [->|Hk]; [by rewrite ?Hu, ?Ha|]).
        by apply elem_of_nil in Hk. }
      intros jids''.
      apply triple_bind with (Q := fun _ b _ => stage 4 env config b0 b).
      { intros b tr [[[Hm Hr] Hempty] ->]. unfold stage, roles_read in *. cbn in *.
        rewrite Hempty, (left_id_L ∅ (∪)). destruct Hr as (? & ? & ? & ? & ?).
        split; [exact Hm|]. by repeat split. }
      intros _. apply triple_this_known. intros b5 tr5 Hb5. kept.
    - intros b tr [[Hm Hr] Hempty]. unfold stage, roles_read, configured_room_users in *.
      cbn in *. rewrite Htruthy. destruct Hr as (? & ? & ? & ? & ?).
      split; [exact Hm|]. by repeat split. }
  intros _.
  (* room admins *)
  apply triple_bind with (Q := fun _ b _ => stage 4 env config b0 b /\ room_admins b = ∅).
  { by intros b tr Hb. }
  intros _. apply triple_this_known. intros b6 tr6 [[_ (_ & _ & Hroom' & _)] _].
  cbn in Hroom'. rewrite Hroom'.
  apply triple_bind with (Q := fun _ b _ => stage 5 env config b0 b).
  { destruct (truthy_opt (configured_room config)) eqn:Htruthy.
    - apply triple_bind with
        (Q := fun jids b _ => (stage 4 env config b0 b /\ room_admins b = ∅)
                              /\ jids = configured_room_admins config).
      { eapply triple_conseq;
          [apply (read_jid_array_known config "room_admins" ["users"; "admins"; "room_users"]
                    (fun b => stage 4 env config b0 b /\ room_admins b = ∅)) | done | | done].
        intros jids'' b tr [Hb ->]. split; [done|].
        unfold configured_room_admins. rewrite Htruthy.
        apply configured_set_ext. intros k Hk. rewrite getattr_known.
        destruct Hb as [[Hm (Hu & Ha & _ & Hru & _)] _]. cbn in Hu, Ha, Hru.
        repeat (apply elem_of_cons in Hk as [->|Hk]; [by rewrite ?Hu, ?Ha, ?Hru|]).
        by apply elem_of_nil in Hk. }
      intros jids''.
      apply triple_bind with (Q := fun _ b _ => stage 5 env config b0 b).
      { intros b tr [[[Hm Hr] Hempty] ->]. unfold stage, roles_read in *. cbn in *.
        rewrite Hempty, (left_id_L ∅ (∪)). destruct Hr as (? & ? & ? & ? & ?).
        split; [exact Hm|]. by repeat split. }
      intros _. apply triple_this_known. intros b7 tr7 Hb7. kept.
    - intros b tr [[Hm Hr] Hempty]. unfold stage, roles_read, configured_room_admins in *.
      cbn in *. rewrite Htruthy. destruct Hr as (? & ? & ? & ? & ?).
      split; [exact Hm|]. by repeat split. }
  intros _.
  (* the consistency warnings and the invited set *)
  apply triple_this_known. intros b8 tr8 Hb8. keep.
  apply triple_this_known. intros b9 tr9 Hb9.
  apply triple_bind with (Q := fun _ b _ => loaded_from env config b0 b).
  { intros b tr [[Hinv Hseen] Hr]. unfold when, loaded_from.
    pose proof Hb9 as [[Hinv9 _] _].
    pose proof Hr as (_ & _ & _ & Hru & _). cbn in Hru.
    case_bool_decide as Hempty; cbn.
    - split; [done|]. split; [|done].
      rewrite Hinv9 in Hempty. rewrite Hinv, Hempty. by rewrite (left_absorb_L ∅ (∩)).
    - split; [exact Hr|]. split; [|done]. by rewrite Hinv, Hru. }
  intros _.
  apply triple_this_known. intros b10 tr10 Hb10. keep.
  apply triple_this_known. intros b11 tr11 Hb11. keep.
  apply triple_this_known. intros b12 tr12 Hb12. kept.
Qed.

(** The characterisation, for a load run on [b] from an empty trace. *)
Lemma _load_config_returns_loaded_from (env : Env) (config : Config) (init : bool)
    (b : Bot) :
  result_of (_load_config env config init) b = Ret tt ->
  loaded_from env config b (bot_of (_load_config env config init) b).
Proof.
  intros Hret.
  pose proof (triple_run _ _ _ _ b (_load_config_loaded_from env config init b) eq_refl)
    as H.
  by rewrite Hret in H.
Qed.

(** X12. After a load that returns, the users, the admins, the room, the
    room users and the room admins depend on the configuration only: two
    loads of the same configuration leave the same five, whatever the bots
    they started from held, the persistent DB, and first load or reload. In
    particular nothing of the sets held before a reload survives it, and
    loading a configuration twice changes nothing. *)
Theorem roles_depend_on_configuration_only (env1 env2 : Env) (config : Config)
    (init1 init2 : bool) (b1 b2 : Bot) :
  result_of (_load_config env1 config init1) b1 = Ret tt ->
  result_of (_load_config env2 config init2) b2 = Ret tt ->
  let b1' := bot_of (_load_config env1 config init1) b1 in
  let b2' := bot_of (_load_config env2 config init2) b2 in
  users b1' = users b2' /\ admins b1' = admins b2' /\ room b1' = room b2'
  /\ room_users b1' = room_users b2' /\ room_admins b1' = room_admins b2'.
Proof.
  intros H1 H2 b1' b2'.
  destruct (_load_config_returns_loaded_from env1 config init1 b1 H1)
    as [(Hu1 & Ha1 & Hr1 & Hru1 & Hra1) _].
  destruct (_load_config_returns_loaded_from env2 config init2 b2 H2)
    as [(Hu2 & Ha2 & Hr2 & Hru2 & Hra2) _].
  cbn in *. unfold b1', b2'. by rewrite Hu1, Hu2, Ha1, Ha2, Hr1, Hr2, Hru1, Hru2, Hra1, Hra2.
Qed.

Lemma roles_depend_on_configuration_only_witness :
  users (bot_of (_load_config demo_env demo_config true) stale_bot)
  = users (bot_of (_load_config rejecting_env demo_config false) outsider_bot)
  /\ admins (bot_of (_load_config demo_env demo_config true) stale_bot)
     = admins (bot_of (_load_config rejecting_env demo_config false) outsider_bot)
  /\ room (bot_of (_load_config demo_env demo_config true) stale_bot)
     = room (bot_of (_load_config rejecting_env demo_config false) outsider_bot)
  /\ room_users (bot_of (_load_config demo_env demo_config true) stale_bot)
     = room_users (bot_of (_load_config rejecting_env demo_config false) outsider_bot)
  /\ room_admins (bot_of (_load_config demo_env demo_config true) stale_bot)
     = room_admins (bot_of (_load_config rejecting_env demo_config false) outsider_bot).
Proof.
  apply (roles_depend_on_configuration_only demo_env rejecting_env demo_config true false
           stale_bot outsider_bot); reflexivity.
Defined.

Lemma truthy_nonempty (s : string) : PyStr.truthy s = true -> s <> EmptyString.
Proof. by destruct s. Qed.

Lemma jid_entry_well_formed (known : string -> gset string) (keywords : list string)
    (item jid : string) :
  (forall k j, k ∈ keywords -> j ∈ known k -> well_formed j) ->
  jid ∈ jid_entry known keywords item -> well_formed jid.
Proof.
  intros Hknown. unfold jid_entry. cbv zeta.
  destruct (PyStr.truthy (PyStr.strip item)) eqn:Htruthy; cbn; [|by intros ?%elem_of_empty].
  destruct (PyStr.mem "@" (PyStr.strip item)) eqn:Hat; [|by intros ?%elem_of_empty].
  destruct (PyStr.startswith (PyStr.strip item) "@") eqn:Hstart.
  - case_bool_decide as Hk; [|by intros ?%elem_of_empty]. by apply Hknown.
  - intros ->%elem_of_singleton. split; [by apply truthy_nonempty | done].
Qed.

Lemma configured_set_well_formed (config : Config) (option : string)
    (known : string -> gset string) (keywords : list string) (jid : string) :
  (forall k j, k ∈ keywords -> j ∈ known k -> well_formed j) ->
  jid ∈ configured_set config option known keywords -> well_formed jid.
Proof.
  intros Hknown. unfold configured_set, jid_entries.
  destruct (has_option config "xmpp" option); [|by intros ?%elem_of_empty].
  destruct (get config "xmpp" option) as [e|value]; [by intros ?%elem_of_empty|].
  intros (X & (item & -> & _)%list_elem_of_fmap & Hjid)%elem_of_union_list.
  by apply (jid_entry_well_formed known keywords item).
Qed.

Lemma known_sets_well_formed (us ads rus : gset string) (k j : string) :
  (forall j, j ∈ us -> well_formed j) -> (forall j, j ∈ ads -> well_formed j) ->
  (forall j, j ∈ rus -> well_formed j) ->
  j ∈ known_sets us ads rus k -> well_formed j.
Proof.
  intros Hus Hads Hrus. unfold known_sets.
  repeat (destruct (String.eqb k _); [by auto|]). by intros ?%elem_of_empty.
Qed.

Lemma configured_users_well_formed (config : Config) (jid : string) :
  jid ∈ configured_users config -> well_formed jid.
Proof.
  apply configured_set_well_formed. by intros k j ?%elem_of_nil.
Qed.

Lemma configured_admins_well_formed (config : Config) (jid : string) :
  jid ∈ configured_admins config -> well_formed jid.
Proof.
  apply configured_set_well_formed. intros k j _.
  apply known_sets_well_formed; try by intros ? ?%elem_of_empty.
  apply configured_users_well_formed.
Qed.

Lemma configured_room_users_well_formed (config : Config) (jid : string) :
  jid ∈ configured_room_users config -> well_formed jid.
Proof.
  unfold configured_room_users.
  destruct (truthy_opt (configured_room config)); [|by intros ?%elem_of_empty].
  apply configured_set_well_formed. intros k j _.
  apply known_sets_well_formed; try by intros ? ?%elem_of_empty.
  - apply configured_users_well_formed.
  - apply configured_admins_well_formed.
Qed.

Lemma configured_room_admins_well_formed (config : Config) (jid : string) :
  jid ∈ configured_room_admins config -> well_formed jid.
Proof.
  unfold configured_room_admins.
  destruct (truthy_opt (configured_room config)); [|by intros ?%elem_of_empty].
  apply configured_set_well_formed. intros k j _.
  apply known_sets_well_formed.
  - apply configured_users_well_formed.
  - apply configured_admins_well_formed.
  - apply configured_room_users_well_formed.
Qed.

(** X13. After a load that returns, every JID among the users, the admins,
    the room users and the room admins is not empty and holds the address
    marker, which is not its first character: items without the marker,
    unknown keywords and empty items of the configuration are left out, and
    a keyword brings in only JIDs that were themselves accepted. *)
Theorem configured_jids_are_well_formed (env : Env) (config : Config) (init : bool)
    (b : Bot) (jid : string) :
  result_of (_load_config env config init) b = Ret tt ->
  let b' := bot_of (_load_config env config init) b in
  jid ∈ users b' ∪ admins b' ∪ room_users b' ∪ room_admins b' ->
  well_formed jid.
Proof.
  intros Hret b'.
  destruct (_load_config_returns_loaded_from env config init b Hret)
    as [(Hu & Ha & _ & Hru & Hra) _].
  cbn in *. fold b' in Hu, Ha, Hru, Hra. rewrite Hu, Ha, Hru, Hra.
  rewrite !elem_of_union. intros [[[H|H]|H]|H].
  - by apply (configured_users_well_formed config).
  - by apply (configured_admins_well_formed config).
  - by apply (configured_room_users_well_formed config).
  - by apply (configured_room_admins_well_formed config).
Qed.

Lemma configured_jids_are_well_formed_witness : well_formed "bob@example.com".
Proof.
  apply (configured_jids_are_well_formed demo_env demo_config true stale_bot
           "bob@example.com").
  - reflexivity.
  - apply (bool_decide_unpack _). vm_compute. exact I.
Defined.

(** X14. After a load that returns without a room (no room option, or a
    blank one), there are no room users and no room admins, and the invited
    set is empty: invitations kept from an earlier configuration or read
    from the persistent DB are dropped. Whoever had a last-seen time still
    has one. *)
Theorem load_without_room_clears_room_roles (env : Env) (config : Config) (init : bool)
    (b : Bot) :
  result_of (_load_config env config init) b = Ret tt ->
  let b' := bot_of (_load_config env config init) b in
  truthy_opt (room b') = false ->
  room_users b' = ∅ /\ room_admins b' = ∅ /\ room_users_invited b' = ∅
  /\ forall jid, is_Some (room_users_last_seen b !! jid) ->
       is_Some (room_users_last_seen b' !! jid).
Proof.
  intros Hret b' Hroom.
  destruct (_load_config_returns_loaded_from env config init b Hret)
    as ((_ & _ & Hr & Hru & Hra) & Hinv & Hseen).
  cbn in *. fold b' in Hr, Hru, Hra, Hinv, Hseen. rewrite Hr in Hroom.
  unfold configured_room_users in *. unfold configured_room_admins in Hra.
  rewrite Hroom in *. rewrite Hru, Hra, Hinv, Hseen. repeat split.
  - by rewrite (right_absorb_L ∅ (∩)).
  - intros jid Hjid. apply lookup_union_is_Some. by right.
Qed.

Lemma load_without_room_clears_room_roles_witness :
  room_users (bot_of (_load_config demo_env roomless_config false) invited_bot) = ∅
  /\ room_admins (bot_of (_load_config demo_env roomless_config false) invited_bot) = ∅
  /\ room_users_invited (bot_of (_load_config demo_env roomless_config false) invited_bot) = ∅
  /\ forall jid, is_Some (room_users_last_seen invited_bot !! jid) ->
       is_Some (room_users_last_seen
                  (bot_of (_load_config demo_env roomless_config false) invited_bot) !! jid).
Proof.
  apply (load_without_room_clears_room_roles demo_env roomless_config false invited_bot);
    reflexivity.
Defined.

(** X15. After a load that returns, the invited set is the one held before
    together with the one read from the configured DB file, cut down to the
    room users just configured; the last-seen times are those read from the
    DB file, completed by those the bot held for JIDs the file does not
    name. Without a DB file nothing is read. *)
Theorem load_merges_persisted_state (env : Env) (config : Config) (init : bool) (b : Bot) :
  result_of (_load_config env config init) b = Ret tt ->
  let b' := bot_of (_load_config env config init) b in
  room_users_invited b'
  = (room_users_invited b ∪ (db_loaded env config).1) ∩ room_users b'
  /\ room_users_last_seen b' = (db_loaded env config).2 ∪ room_users_last_seen b.
Proof.
  intros Hret b'.
  destruct (_load_config_returns_loaded_from env config init b Hret)
    as ((_ & _ & _ & Hru & _) & Hinv & Hseen).
  cbn in Hru. fold b' in Hru, Hinv, Hseen. by rewrite Hru.
Qed.

Lemma load_merges_persisted_state_witness :
  room_users_invited (bot_of (_load_config stored_env stored_config true) stale_bot)
  = (room_users_invited stale_bot ∪ (db_loaded stored_env stored_config).1)
    ∩ room_users (bot_of (_load_config stored_env stored_config true) stale_bot)
  /\ room_users_last_seen (bot_of (_load_config stored_env stored_config true) stale_bot)
     = (db_loaded stored_env stored_config).2 ∪ room_users_last_seen stale_bot.
Proof.
  apply (load_merges_persisted_state stored_env stored_config true stale_bot).
  reflexivity.
Defined.

(* ===================================================================== *)
(** ** Shutdown *)
(* ===================================================================== *)

(** Unfold the lifecycle monad and compute. *)
Ltac run_l :=
  unfold outcome_of, client_of, acts_of, log, perform, l_lift, mbind, mret, L_bind, L_ret,
    l_bind, l_ret, self, update, act, l_raise, system_exit, attempt; cbn.

(** Case analysis on what the collaborators answer, innermost first. *)
Ltac l_cases :=
  repeat (match goal with
          | |- context [match ?x with _ => _ end] =>
              lazymatch x with
              | context [match _ with _ => _ end] => fail
              | _ => destruct x eqn:?
              end
          end; cbn in *; try done).

(** X16. A shutdown requested while one is in progress only logs the
    request and that a shutdown is in progress: nothing is stopped, written
    or aborted again, and the call returns. After a first call, however it
    ended, a shutdown is in progress. *)
Theorem shutdown_twice_is_noop (sys sys' : Sys) (signalnum signalnum' : Z) (c : Client) :
  let c1 := client_of (shutdown sys signalnum) c in
  shutting_down c1 = true
  /\ shutdown sys' signalnum' c1 []
     = (Done tt, c1, [Logged INFO "Requested shutdown (%s)" [AInt signalnum'];
                      Logged WARNING "Shutdown is already in progress..." []]).
Proof.
  assert (Hflag : shutting_down (client_of (shutdown sys signalnum) c) = true).
  { unfold shutdown, sync_and_close, _db_set_items, close_db, db_disable. run_l.
    destruct (shutting_down c) eqn:Hc; [done|]. cbn. l_cases. }
  intros c1. split; [done|].
  unfold shutdown. run_l. fold c1. unfold c1. by rewrite Hflag.
Qed.

(** X17. A shutdown that is not yet in progress ends as the abort of the
    session decides, whatever the web server, the scheduler and the DB
    raise: it returns when the abort returns, raises what the abort raised
    when there is a socket, and exits the process with status 99 when there
    is none. The abort is attempted in every case, and so are the stop of
    the web server and of the scheduler when there is one, and the write of
    the invited set when a DB is attached. *)
Theorem shutdown_isolates_faults (sys : Sys) (signalnum : Z) (c : Client) :
  shutting_down c = false ->
  let acts := acts_of (shutdown sys signalnum) c in
  outcome_of (shutdown sys signalnum) c = teardown sys
  /\ Abort ∈ acts
  /\ (is_Some (webserver (core c)) -> WebserverStop ∈ acts)
  /\ (cron (core c) = true -> CronStop ∈ acts)
  /\ (forall dbfile, db (core c) = Some dbfile ->
        DbSet dbfile "room_users_invited" (Invited (room_users_invited (core c))) ∈ acts).
Proof.
  intros Hc acts. unfold acts, teardown.
  unfold shutdown, sync_and_close, _db_set_items, close_db, db_disable. run_l.
  rewrite Hc. cbn. l_cases.
  all: repeat split; try done.
  all: try (intros ? [= <-]).
  all: try (intros Hweb;
            try match goal with
                | H : bool_decide _ = false |- _ => by apply bool_decide_eq_false in H
                end).
  all: repeat match goal with H : Some _ = Some _ |- _ => injection H as <- end.
  all: solve [repeat constructor].
Qed.

Lemma shutdown_isolates_faults_witness :
  outcome_of (shutdown failing_sys 15) demo_client = Exited 99
  /\ Abort ∈ acts_of (shutdown failing_sys 15) demo_client
  /\ WebserverStop ∈ acts_of (shutdown failing_sys 15) demo_client
  /\ CronStop ∈ acts_of (shutdown failing_sys 15) demo_client.
Proof.
  destruct (shutdown_isolates_faults failing_sys 15 demo_client eq_refl)
    as (Hout & Habort & Hweb & Hcron & _).
  split; [exact Hout|]. split; [exact Habort|].
  split; [apply Hweb; by eexists | by apply Hcron].
Defined.

(* ===================================================================== *)
(** ** The room state across a restart and across a reload *)
(* ===================================================================== *)

(** A shutdown whose two writes succeed leaves the invited set and the
    last-seen times of the bot in the DB file, whatever else fails. *)
Lemma shutdown_db_after (sys : Sys) (signalnum : Z) (c : Client) (dbfile : string)
    (held : gset string * gmap string Z) :
  shutting_down c = false -> db (core c) = Some dbfile ->
  db_set sys "room_users_invited" = None -> db_set sys "room_users_last_seen" = None ->
  db_after dbfile held (acts_of (shutdown sys signalnum) c)
  = (room_users_invited (core c), room_users_last_seen (core c)).
Proof.
  intros Hc Hdb Hset1 Hset2.
  unfold shutdown, sync_and_close, _db_set_items, close_db, db_disable. run_l.
  rewrite Hc. cbn.
  repeat (rewrite ?Hdb, ?Hset1, ?Hset2; cbn;
          match goal with
          | |- context [match ?x with _ => _ end] =>
              lazymatch x with
              | context [match _ with _ => _ end] => fail
              | _ => destruct x eqn:?
              end
          end; cbn).
  all: rewrite ?Hdb, ?Hset1, ?Hset2; cbn.
  all: unfold db_after; cbn; simplify_eq; rewrite ?String.eqb_refl in *; done.
Qed.

(** The same for [prereload], which returns when the DB closes. *)
Lemma prereload_db_after (sys : Sys) (c : Client) (dbfile : string)
    (held : gset string * gmap string Z) :
  db (core c) = Some dbfile ->
  db_set sys "room_users_invited" = None -> db_set sys "room_users_last_seen" = None ->
  db_close sys = None ->
  outcome_of (prereload sys) c = Done tt
  /\ client_of (prereload sys) c = on_core (set_db None) c
  /\ db_after dbfile held (acts_of (prereload sys) c)
     = (room_users_invited (core c), room_users_last_seen (core c)).
Proof.
  intros Hdb Hset1 Hset2 Hclose.
  unfold prereload, sync_and_close, _db_set_items, close_db, db_disable. run_l.
  destruct (bool_decide (is_Some (webserver (core c)))), (cron (core c)); cbn.
  all: rewrite Hdb; cbn; rewrite Hset1; cbn; rewrite Hset2; cbn; rewrite Hclose; cbn.
  all: repeat split; try done.
  all: unfold db_after; cbn; rewrite ?Hdb; cbn; by rewrite ?String.eqb_refl.
Qed.

Lemma _load_plugins_same_but_plugins (env : Env) (config : Config)
    (plugin_list : list Plugin) (init : bool) (b0 : Bot) :
  preserves (same_but_plugins b0) (_load_plugins env config plugin_list init).
Proof. preserve ltac:(fail) keep_side. Qed.

(** Where the configuration names a DB file, a load reads that file. *)
Lemma db_loaded_from_file (env : Env) (config : Config) (dbfile : string) :
  has_option config "global" "dbfile" = true ->
  get config "global" "dbfile" = inr dbfile ->
  PyStr.truthy dbfile = true ->
  db_loaded env config = db_items env dbfile.
Proof. intros Hopt Hget Htruthy. unfold db_loaded. by rewrite Hopt, Hget, Htruthy. Qed.

Lemma _load_config_muc (env : Env) (config : Config) (init : bool) (v : bool) :
  preserves (fun b _ => muc b = v) (_load_config env config init).
Proof. preserve ltac:(fail) keep_side. Qed.

(** What [__init__] leaves of the room state when it returns: that of the
    configuration load on the reset bot; the chat plugin is attached when a
    room is configured. *)
Lemma __init___core (env : Env) (config : Config) (plugin_list : list Plugin) (c : Client) :
  outcome_of (__init__ env config plugin_list) c = Done tt ->
  let b1 := bot_of (_load_config env config true) (reset (core c)) in
  let b' := core (client_of (__init__ env config plugin_list) c) in
  result_of (_load_config env config true) (reset (core c)) = Ret tt
  /\ room_users_invited b' = room_users_invited b1
  /\ room_users_last_seen b' = room_users_last_seen b1
  /\ room_users b' = room_users b1
  /\ room b' = room b1
  /\ muc b' = truthy_opt (room b1) || muc (core c).
Proof.
  unfold outcome_of, client_of, result_of, bot_of, __init__, handler, on_core.
  unfold l_lift, log, mbind, mret, L_bind, L_ret, l_bind, l_ret, self, update, act, l_raise.
  cbn -[_load_config _load_plugins].
  change (set_room_users_last_seen ∅
            (set_room_users_invited ∅ (set_room_admins ∅ (set_room_users ∅ (core c)))))
    with (reset (core c)).
  pose proof (_load_config_muc env config true (muc (core c)) (reset (core c)) [] eq_refl)
    as Hmuc.
  destruct (_load_config env config true (reset (core c)) []) as [[[[]|e] b1] calls1];
    cbn -[_load_plugins]; [|done].
  pose proof (_load_plugins_same_but_plugins env config plugin_list true b1 b1 [] eq_refl)
    as Hsame.
  destruct (_load_plugins env config plugin_list true b1 []) as [[[[]|e] b2] calls2];
    cbn; [|done].
  unfold same_but_plugins in Hsame.
  assert (Hfields : room_users_invited b2 = room_users_invited b1
                    /\ room_users_last_seen b2 = room_users_last_seen b1
                    /\ room_users b2 = room_users b1 /\ room b2 = room b1
                    /\ muc b2 = muc b1).
  { repeat split.
    - exact (f_equal room_users_invited Hsame).
    - exact (f_equal room_users_last_seen Hsame).
    - exact (f_equal room_users Hsame).
    - exact (f_equal room Hsame).
    - exact (f_equal muc Hsame). }
  destruct Hfields as (Hinv & Hseen & Hru & Hroom & Hmuc2).
  destruct (get config "xmpp" "username") as [e|username]; cbn; [done|].
  destruct (get config "xmpp" "password") as [e|password]; cbn; [done|].
  rewrite Hroom. destruct (truthy_opt (room b1)); cbn.
  - destruct (bool_decide (is_Some (webserver b2))); cbn; destruct (cron b2); cbn;
      by intros _.
  - destruct (bool_decide (is_Some (webserver b2))); cbn; destruct (cron b2); cbn;
      intros _; repeat split; try done; by rewrite Hmuc2.
Qed.

(** X18. The room state survives a restart. When a shutdown with a DB
    attached gets its two writes through (whatever else fails), and the next
    start reads the same DB file, the bot starts with the last-seen times it
    had at shutdown, and with the invited set it had, cut down to the room
    users of the configuration it starts with. *)
Theorem restart_restores_room_state (sys : Sys) (signalnum : Z) (c : Client)
    (dbfile : string) (held : gset string * gmap string Z)
    (env : Env) (config : Config) (plugin_list : list Plugin) (c0 : Client) :
  shutting_down c = false -> db (core c) = Some dbfile ->
  db_set sys "room_users_invited" = None -> db_set sys "room_users_last_seen" = None ->
  has_option config "global" "dbfile" = true ->
  get config "global" "dbfile" = inr dbfile -> PyStr.truthy dbfile = true ->
  db_items env dbfile = db_after dbfile held (acts_of (shutdown sys signalnum) c) ->
  outcome_of (__init__ env config plugin_list) c0 = Done tt ->
  let b' := core (client_of (__init__ env config plugin_list) c0) in
  room_users_last_seen b' = room_users_last_seen (core c)
  /\ room_users_invited b' = room_users_invited (core c) ∩ room_users b'.
Proof.
  intros Hc Hdb Hset1 Hset2 Hopt Hget Htruthy Hitems Hinit b'.
  destruct (__init___core env config plugin_list c0 Hinit)
    as (Hret & Hinv & Hseen & Hru & _).
  destruct (_load_config_returns_loaded_from env config true (reset (core c0)) Hret)
    as ((_ & _ & _ & Hru1 & _) & Hinv1 & Hseen1).
  cbn in Hru1.
  rewrite (db_loaded_from_file env config dbfile Hopt Hget Htruthy), Hitems,
    (shutdown_db_after sys signalnum c dbfile held Hc Hdb Hset1 Hset2) in Hinv1, Hseen1.
  cbn in Hinv1, Hseen1. fold b' in Hinv, Hseen, Hru.
  rewrite Hseen, Hseen1, Hinv, Hinv1, Hru, Hru1.
  by rewrite (right_id_L ∅ (∪)), (left_id_L ∅ (∪)).
Qed.

Lemma restart_restores_room_state_witness :
  room_users_last_seen
    (core (client_of (__init__ restart_env restart_config demo_plugins)
             (new_client (mkJID "ludolph@example.com" "bot"))))
  = room_users_last_seen (core demo_client)
  /\ room_users_invited
       (core (client_of (__init__ restart_env restart_config demo_plugins)
                (new_client (mkJID "ludolph@example.com" "bot"))))
     = room_users_invited (core demo_client)
       ∩ room_users
           (core (client_of (__init__ restart_env restart_config demo_plugins)
                    (new_client (mkJID "ludolph@example.com" "bot")))).
Proof.
  apply (restart_restores_room_state demo_sys 15 demo_client demo_dbfile (∅, ∅)
           restart_env restart_config demo_plugins
           (new_client (mkJID "ludolph@example.com" "bot"))); reflexivity.
Defined.

(** The room state a reload leaves, relative to the bot it ran on. *)
Lemma reload_loaded_from (env : Env) (config : Config) (plugin_list : list Plugin)
    (b0 : Bot) :
  triple (fun b _ => b = b0) (reload env config plugin_list)
    (fun _ b _ => loaded_from env config b0 b) always.
Proof.
  unfold reload.
  apply triple_bind with (Q := fun _ b _ => b = b0); [by intros b tr ->|]. intros _.
  apply triple_bind with (Q := fun _ b _ => b = set_reloaded true b0);
    [by intros b tr ->|]. intros _.
  apply triple_bind with (Q := fun _ b _ => loaded_from env config b0 b).
  { apply (_load_config_loaded_from env config false (set_reloaded true b0)). }
  intros _. keep. apply triple_this_known. intros b1 tr1 Hb1. kept.
Qed.

(** X19. The room state survives a reload. When [prereload] runs with a DB
    attached and its writes and the close succeed, it returns with the DB
    detached; a reload that then reads the same DB file and returns leaves
    the bot with the last-seen times it had before, and with the invited
    set it had, cut down to the room users just configured. *)
Theorem reload_keeps_room_state (sys : Sys) (c : Client) (dbfile : string)
    (held : gset string * gmap string Z)
    (env : Env) (config : Config) (plugin_list : list Plugin) :
  db (core c) = Some dbfile ->
  db_set sys "room_users_invited" = None -> db_set sys "room_users_last_seen" = None ->
  db_close sys = None ->
  has_option config "global" "dbfile" = true ->
  get config "global" "dbfile" = inr dbfile -> PyStr.truthy dbfile = true ->
  db_items env dbfile = db_after dbfile held (acts_of (prereload sys) c) ->
  let c1 := client_of (prereload sys) c in
  result_of (reload env config plugin_list) (core c1) = Ret tt ->
  let b' := bot_of (reload env config plugin_list) (core c1) in
  outcome_of (prereload sys) c = Done tt /\ db (core c1) = None
  /\ room_users_last_seen b' = room_users_last_seen (core c)
  /\ room_users_invited b' = room_users_invited (core c) ∩ room_users b'.
Proof.
  intros Hdb Hset1 Hset2 Hclose Hopt Hget Htruthy Hitems c1 Hret b'.
  destruct (prereload_db_after sys c dbfile held Hdb Hset1 Hset2 Hclose)
    as (Hdone & Hc1 & Hafter).
  split; [done|]. split; [unfold c1; by rewrite Hc1|].
  pose proof (triple_run _ _ _ _ (core c1)
                (reload_loaded_from env config plugin_list (core c1)) eq_refl) as H.
  rewrite Hret in H. fold b' in H. destruct H as ((_ & _ & _ & Hru & _) & Hinv & Hseen).
  cbn in Hru.
  rewrite (db_loaded_from_file env config dbfile Hopt Hget Htruthy), Hitems, Hafter
    in Hinv, Hseen.
  cbn in Hinv, Hseen. unfold c1 in Hinv, Hseen. rewrite Hc1 in Hinv, Hseen.
  cbn in Hinv, Hseen. rewrite Hseen, Hinv, Hru. split.
  - apply map_eq. intros jid. rewrite lookup_union.
    by destruct (room_users_last_seen (core c) !! jid).
  - by rewrite (idemp_L (∪)).
Qed.

Lemma reload_keeps_room_state_witness :
  outcome_of (prereload demo_sys) demo_client = Done tt
  /\ db (core (client_of (prereload demo_sys) demo_client)) = None
  /\ room_users_last_seen
       (bot_of (reload reload_env restart_config demo_plugins)
          (core (client_of (prereload demo_sys) demo_client)))
     = room_users_last_seen (core demo_client)
  /\ room_users_invited
       (bot_of (reload reload_env restart_config demo_plugins)
          (core (client_of (prereload demo_sys) demo_client)))
     = room_users_invited (core demo_client)
       ∩ room_users
           (bot_of (reload reload_env restart_config demo_plugins)
              (core (client_of (prereload demo_sys) demo_client))).
Proof.
  apply (reload_keeps_room_state demo_sys demo_client demo_dbfile (∅, ∅)
           reload_env restart_config demo_plugins); reflexivity.
Defined.

(** X20. A start that returns has attached the chat plugin exactly when a
    room is configured. After a start without a room, no reload ever leaves
    or joins a room, whatever the configuration it loads and however it
    ends, and the chat plugin stays detached: a room added to the
    configuration is joined only after a restart. *)
Theorem start_without_room_never_joins (env : Env) (config : Config)
    (plugin_list : list Plugin) (jid : JID) :
  outcome_of (__init__ env config plugin_list) (new_client jid) = Done tt ->
  let b' := core (client_of (__init__ env config plugin_list) (new_client jid)) in
  muc b' = truthy_opt (room b')
  /\ (truthy_opt (room b') = false ->
      forall env' config' plugin_list',
        rejoins (calls_of (reload env' config' plugin_list') b') = []
        /\ muc (bot_of (reload env' config' plugin_list') b') = false).
Proof.
  intros Hinit b'.
  destruct (__init___core env config plugin_list (new_client jid) Hinit)
    as (_ & _ & _ & _ & Hroom & Hmuc).
  fold b' in Hroom, Hmuc.
  change (muc (core (new_client jid))) with false in Hmuc.
  rewrite orb_false_r, <- Hroom in Hmuc.
  split; [done|]. intros Hnone env' config' plugin_list'.
  rewrite Hnone in Hmuc.
  pose proof (triple_run _ _ _ _ b' (reload_outcome env' config' plugin_list' b')
                (conj eq_refl eq_refl)) as H.
  destruct (result_of (reload env' config' plugin_list') b').
  - destruct H as (_ & Hmuc' & H). rewrite Hmuc in Hmuc'. rewrite Hmuc', andb_false_r in H.
    by destruct H.
  - destruct H as (Hmuc' & _ & Hquiet). by rewrite Hmuc' .
Qed.

Lemma start_without_room_never_joins_witness :
  muc (core (client_of (__init__ demo_env roomless_start_config demo_plugins)
               (new_client (mkJID "ludolph@example.com" "bot"))))
  = false
  /\ rejoins (calls_of (reload demo_env demo_config demo_plugins)
                (core (client_of (__init__ demo_env roomless_start_config demo_plugins)
                         (new_client (mkJID "ludolph@example.com" "bot")))))
     = [].
Proof.
  destruct (start_without_room_never_joins demo_env roomless_start_config demo_plugins
              (mkJID "ludolph@example.com" "bot") eq_refl) as [Hmuc Hnever].
  split; [exact Hmuc|].
  exact (proj1 (Hnever eq_refl demo_env demo_config demo_plugins)).
Defined.

(* ===================================================================== *)
(** ** The roster at the start of the session *)
(* ===================================================================== *)

Lemma roster_item_run (item : string * string) (c : Client) (tr : list Act) :
  exists acts,
    roster_item item c tr = (Done tt, c, tr ++ acts)
    /\ joined_rooms acts = []
    /\ forall i, DelRosterItem i ∈ acts <-> i = item.1 /\ removed (core c) item = true.
Proof.
  unfold roster_item, removed. cbv zeta. run_l.
  destruct (String.eqb item.2 "none"
            || negb (bool_decide (users (core c) = ∅))
               && negb (bool_decide (item.1 ∈ users (core c)))); cbn.
  - eexists. split; [by rewrite <- !app_assoc|]. split; [done|]. intros i. split.
    + intros Hin. repeat (apply elem_of_cons in Hin as [Hin|Hin]; [by simplify_eq|]).
      by apply elem_of_nil in Hin.
    + intros [-> _]. repeat constructor.
  - destruct (String.eqb item.2 "to"); cbn.
    + eexists. split; [by rewrite <- !app_assoc|]. split; [done|].
      intros i. split; [|by intros [_ ?]].
      intros Hin. repeat (apply elem_of_cons in Hin as [Hin|Hin]; [by simplify_eq|]).
      by apply elem_of_nil in Hin.
    + eexists. split; [done|]. split; [done|]. intros i. split; [|by intros [_ ?]].
      intros Hin. repeat (apply elem_of_cons in Hin as [Hin|Hin]; [by simplify_eq|]).
      by apply elem_of_nil in Hin.
Qed.

Lemma joined_rooms_app (acts1 acts2 : list Act) :
  joined_rooms (acts1 ++ acts2) = joined_rooms acts1 ++ joined_rooms acts2.
Proof. apply omap_app. Qed.

Lemma roster_items_run (roster : list (string * string)) (c : Client) (tr : list Act) :
  exists acts,
    l_for_each roster roster_item c tr = (Done tt, c, tr ++ acts)
    /\ joined_rooms acts = []
    /\ forall i, DelRosterItem i ∈ acts
         <-> exists subscription, (i, subscription) ∈ roster
               /\ removed (core c) (i, subscription) = true.
Proof.
  revert tr. induction roster as [|item roster IH]; intros tr; cbn [l_for_each].
  - exists []. split; [by rewrite app_nil_r|]. split; [done|]. intros i. split.
    + by intros ?%elem_of_nil.
    + by intros (? & ?%elem_of_nil & _).
  - destruct (roster_item_run item c tr) as (acts1 & Hrun1 & Hjoin1 & Hdel1).
    destruct (IH (tr ++ acts1)) as (acts2 & Hrun2 & Hjoin2 & Hdel2).
    exists (acts1 ++ acts2). split; [|split].
    + unfold mbind, L_bind, l_bind. rewrite Hrun1, Hrun2. by rewrite app_assoc.
    + by rewrite joined_rooms_app, Hjoin1, Hjoin2.
    + intros i. rewrite elem_of_app, Hdel1, Hdel2. split.
      * intros [[-> Hrem]|(subscription & Hin & Hrem)].
        -- exists item.2. split; [|done]. destruct item. by left.
        -- exists subscription. split; [by right | done].
      * intros (subscription & [<-|Hin]%elem_of_cons & Hrem).
        -- by left.
        -- right. by exists subscription.
Qed.

(** The auto-subscription is granted to [jid] exactly when no users are
    configured or [jid] is one of them. *)
Lemma subscription_granted (b : Bot) (jid : string) :
  DefaultSubscription jid ∈ calls_of (_handle_new_subscription (mkJID jid EmptyString)) b
  <-> users b = ∅ \/ jid ∈ users b.
Proof.
  unfold calls_of, _handle_new_subscription. cbv zeta. run_m.
  change (jid_full (mkJID jid EmptyString)) with jid.
  destruct (bool_decide (users b = ∅)) eqn:Hempty; cbn.
  - apply bool_decide_eq_true in Hempty. split; [by left | intros _; repeat constructor].
  - apply bool_decide_eq_false in Hempty.
    destruct (bool_decide (jid ∈ users b)) eqn:Hin; cbn.
    + apply bool_decide_eq_true in Hin. split; [by right | intros _; repeat constructor].
    + apply bool_decide_eq_false in Hin. split; [|by intros [?|?]].
      intros H. repeat (apply elem_of_cons in H as [H|H]; [done|]).
      by apply elem_of_nil in H.
Qed.

(** X21. The roster cleanup returns and leaves the bot alone. It removes a
    JID from the roster exactly when the roster holds it with subscription
    [none], or holds it while the subscription handler would refuse it (users
    are configured and the JID is none of them): what the cleanup keeps is
    what the subscription handler lets in. *)
Theorem roster_cleanup_matches_subscription_gate (sys : Sys) (c : Client) (jid : string) :
  outcome_of (roster_cleanup sys) c = Done tt
  /\ client_of (roster_cleanup sys) c = c
  /\ (DelRosterItem jid ∈ acts_of (roster_cleanup sys) c
      <-> exists subscription, (jid, subscription) ∈ client_roster sys
            /\ (subscription = "none"
                \/ DefaultSubscription jid
                     ∉ calls_of (_handle_new_subscription (mkJID jid EmptyString)) (core c))).
Proof.
  unfold outcome_of, client_of, acts_of, roster_cleanup.
  unfold log, act, mbind, L_bind, l_bind. 
  destruct (roster_items_run (client_roster sys) c
              ([] ++ [Logged INFO "Current roster: %s"
                        [Plain (AStr (PyStr.join ", " (client_roster sys).*1))]]))
    as (acts & Hrun & _ & Hdel).
  rewrite Hrun. cbn. split; [done|]. split; [done|].
  rewrite elem_of_cons, Hdel. split.
  - intros [?|(subscription & Hin & Hrem)]; [done|].
    exists subscription. split; [done|]. rewrite subscription_granted.
    unfold removed in Hrem. cbn in Hrem.
    apply orb_true_iff in Hrem as [Hnone%String.eqb_eq|Hrem]; [by left|]. right.
    apply andb_true_iff in Hrem as [Hne%negb_true_iff%bool_decide_eq_false
                                    Hnot%negb_true_iff%bool_decide_eq_false].
    by intros [?|?].
  - intros (subscription & Hin & Hrem). right. exists subscription. split; [done|].
    unfold removed. cbn. apply orb_true_iff.
    destruct Hrem as [->|Hrem]; [by left|]. right.
    rewrite subscription_granted in Hrem.
    apply andb_true_iff.
    split; apply negb_true_iff, bool_decide_eq_false; intros ?; apply Hrem;
      [by left | by right].
Qed.

(** X22. A broadcast sends the message once to every JID of the roster, in
    the order of the roster, and returns the number of roster items; the bot
    is left alone. *)
Theorem msg_broadcast_reaches_roster (sys : Sys) (mbody mtype : string) (c : Client)
    (tr : list Act) :
  msg_broadcast sys mbody mtype c tr
  = (Done (length (client_roster sys)), c,
     tr ++ ((fun jid => Handler (SendMessage jid mbody mtype)) <$> (client_roster sys).*1)).
Proof.
  unfold msg_broadcast.
  assert (Hloop : forall (jids : list string) tr,
            l_for_each jids (fun jid => act (Handler (SendMessage jid mbody mtype))) c tr
            = (Done tt, c, tr ++ ((fun jid => Handler (SendMessage jid mbody mtype)) <$> jids))).
  { induction jids as [|jid jids IH]; intros tr0; cbn [l_for_each].
    - cbn. by rewrite app_nil_r.
    - unfold mbind, L_bind, l_bind, act. rewrite IH. cbn. by rewrite <- app_assoc. }
  unfold mbind, L_bind, l_bind. by rewrite Hloop.
Qed.

(** X23. The session start returns and leaves the bot alone; after the
    roster is fetched and cleaned up and the presence is sent, it joins the
    configured room under the configured nick, once, when a room is
    configured and the chat plugin is attached, and joins nothing
    otherwise. After a start that returned, this is exactly when the
    configuration names a room. *)
Theorem session_start_joins_configured_room (env : Env) (config : Config)
    (plugin_list : list Plugin) (jid : JID) (sys : Sys) :
  outcome_of (__init__ env config plugin_list) (new_client jid) = Done tt ->
  let c' := client_of (__init__ env config plugin_list) (new_client jid) in
  outcome_of (session_start sys) c' = Done tt
  /\ client_of (session_start sys) c' = c'
  /\ joined_rooms (acts_of (session_start sys) c')
     = if truthy_opt (room (core c'))
       then [JoinMUC (py_str (room (core c'))) (nick (core c')) maxhistory]
       else [].
Proof.
  intros Hinit c'.
  destruct (__init___core env config plugin_list (new_client jid) Hinit)
    as (_ & _ & _ & _ & Hroom & Hmuc).
  fold c' in Hroom, Hmuc.
  change (muc (core (new_client jid))) with false in Hmuc.
  rewrite orb_false_r, <- Hroom in Hmuc.
  unfold outcome_of, client_of, acts_of, session_start, roster_cleanup.
  unfold log, act, mbind, L_bind, l_bind.
  destruct (roster_items_run (client_roster sys) c'
              (([] ++ [GetRoster])
               ++ [Logged INFO "Current roster: %s"
                     [Plain (AStr (PyStr.join ", " (client_roster sys).*1))]]))
    as (acts & Hrun & Hjoin & _).
  rewrite Hrun. unfold self. cbn -[joined_rooms]. rewrite Hmuc, andb_diag.
  destruct (truthy_opt (room (core c'))); cbn -[joined_rooms].
  - split; [done|]. split; [done|]. unfold joined_rooms in *. cbn.
    by rewrite !omap_app, Hjoin.
  - split; [done|]. split; [done|]. unfold joined_rooms in *. cbn.
    by rewrite !omap_app, Hjoin.
Qed.

Lemma session_start_joins_configured_room_witness :
  outcome_of (session_start demo_sys)
    (client_of (__init__ restart_env restart_config demo_plugins)
       (new_client (mkJID "ludolph@example.com" "bot"))) = Done tt
  /\ joined_rooms
       (acts_of (session_start demo_sys)
          (client_of (__init__ restart_env restart_config demo_plugins)
             (new_client (mkJID "ludolph@example.com" "bot"))))
     = [JoinMUC demo_room "Ludolph" maxhistory].
Proof.
  destruct (session_start_joins_configured_room restart_env restart_config demo_plugins
              (mkJID "ludolph@example.com" "bot") demo_sys eq_refl) as (Hdone & _ & Hjoin).
  split; [exact Hdone | exact Hjoin].
Defined.

(* ===================================================================== *)
(** ** What a reload cannot change, and the switch of the invitations *)
(* ===================================================================== *)

(** As [preserve], for a body whose conditions compute once [init] is
    known. *)
Ltac preserve_computed side :=
  lazymatch goal with
  | |- preserves _ _ => unfold preserves; preserve_computed side
  | |- triple ?I (mbind _ _) _ _ =>
      apply triple_bind with (Q := fun _ => I);
      [ preserve_computed side | intros ?; cbv beta; preserve_computed side ]
  | |- triple _ (mret _) _ _ => apply triple_ret; auto
  | |- triple _ (ret _) _ _ => apply triple_ret; auto
  | |- triple _ (raise _) _ _ => apply triple_raise; auto
  | |- triple _ this _ _ => apply triple_this; auto
  | |- triple _ (assign _) _ _ => apply triple_assign; side
  | |- triple _ (call _) _ _ => apply triple_call; side
  | |- triple _ (lift _) _ _ => apply triple_lift; auto
  | |- triple _ (for_each _ _) _ _ =>
      apply triple_for_each; intros ? ?; cbv beta; preserve_computed side
  | |- triple _ (fold_each _ _ _) _ _ =>
      apply triple_fold_each; intros ? ?; cbv beta; preserve_computed side
  | |- triple _ (if false && _ then _ else _) _ _ =>
      cbn [andb]; preserve_computed side
  | |- triple _ (if ?c then _ else _) _ _ => destruct c; preserve_computed side
  | |- triple _ (match ?x with _ => _ end) _ _ => destruct x; preserve_computed side
  | |- triple _ ?m _ _ =>
      first [ progress cbv zeta | let h := head_of m in unfold h ];
      preserve_computed side
  end.

Lemma _load_config_reload_collaborators (env : Env) (config : Config) (b0 : Bot) :
  preserves (fun b _ => webserver b = webserver b0 /\ cron b = cron b0)
    (_load_config env config false).
Proof. preserve_computed keep_side. Qed.

Lemma _load_plugins_collaborators (env : Env) (config : Config) (plugin_list : list Plugin)
    (init : bool) (b0 : Bot) :
  preserves (fun b _ => webserver b = webserver b0 /\ cron b = cron b0)
    (_load_plugins env config plugin_list init).
Proof. preserve ltac:(fail) keep_side. Qed.

(** X24. A reload never attaches, detaches or replaces the web server or
    the scheduler, whatever the configuration it loads says about them and
    however it ends: they are set up at the first load only. *)
Theorem reload_keeps_collaborators (env : Env) (config : Config)
    (plugin_list : list Plugin) (b : Bot) :
  webserver (bot_of (reload env config plugin_list) b) = webserver b
  /\ cron (bot_of (reload env config plugin_list) b) = cron b.
Proof.
  assert (Hm : preserves (fun b1 _ => webserver b1 = webserver b /\ cron b1 = cron b)
                 (reload env config plugin_list)).
  { preserve ltac:(first [ apply _load_config_reload_collaborators
                         | apply _load_plugins_collaborators ]) keep_side. }
  pose proof (triple_run _ _ _ _ b Hm (conj eq_refl eq_refl)) as H.
  by destruct (result_of (reload env config plugin_list) b).
Qed.

(** Peel the statements of [_load_config] that come before the one that
    sets the invitations switch. *)
Ltac skip_to_invites_switch :=
  repeat lazymatch goal with
    | |- triple _ (mbind _ this) _ _ => apply triple_this_bind; intros ?
    | |- triple _ (mbind _ ?m) _ _ =>
        lazymatch m with
        | context [set_room_invites] => fail
        | _ => apply triple_bind with (Q := fun _ _ _ => True); [apply triple_top | intros ?]
        end
    end.

Lemma _load_config_invites_switch (env : Env) (config : Config) (init : bool) :
  triple (fun _ _ => True) (_load_config env config init)
    (fun _ b _ => invites_switch config b) (fun _ _ => True).
Proof.
  unfold _load_config. skip_to_invites_switch.
  apply triple_bind with (Q := fun _ b _ => invites_switch config b).
  - intros b tr _. unfold invites_switch.
    destruct (has_option config "xmpp" "enabled"); [|done].
    unfold mbind, M_bind, bind.
    by destruct (getboolean config "xmpp" "room_invites") as [e|v].
  - intros _.
    apply triple_conseq with (P' := fun b _ => invites_switch config b)
      (Q' := fun _ b _ => invites_switch config b) (E' := fun b _ => invites_switch config b);
      try done.
    preserve ltac:(fail) keep_side.
Qed.

(** X25. After a load that returns, invitations are on unless section
    [xmpp] holds the option [enabled]: only then is the option
    [room_invites] read, and the switch is what it says. A configuration
    that sets [room_invites] to false without [enabled] leaves the
    invitations on. *)
Theorem room_invites_read_only_with_enabled (env : Env) (config : Config) (init : bool)
    (b : Bot) :
  result_of (_load_config env config init) b = Ret tt ->
  invites_switch config (bot_of (_load_config env config init) b).
Proof.
  intros Hret.
  pose proof (triple_run _ _ _ _ b (_load_config_invites_switch env config init) I) as H.
  by rewrite Hret in H.
Qed.

Lemma room_invites_read_only_with_enabled_witness :
  getboolean invites_off_config "xmpp" "room_invites" = inr false
  /\ room_invites (bot_of (_load_config demo_env invites_off_config true) stale_bot) = true.
Proof.
  split; [reflexivity|].
  apply (room_invites_read_only_with_enabled demo_env invites_off_config true stale_bot
           eq_refl).
  reflexivity.
Defined.

(* ===================================================================== *)
(** ** A command sent in the room, and the nick *)
(* ===================================================================== *)

Lemma startswith_prefix (p rest : string) : PyStr.startswith (p +:+ rest) p = true.
Proof.
  induction p as [|c p IH]; [by destruct rest|].
  change (String c p +:+ rest) with (String c (p +:+ rest)). cbn.
  by rewrite Ascii.eqb_refl.
Qed.

(** Leading white space does not change the words. *)
Lemma split_lstrip (s : string) : PyStr.split (PyStr.lstrip s) = PyStr.split s.
Proof.
  unfold PyStr.split, PyStr.lstrip. induction s as [|c s IH]; [done|].
  cbn [PyStr.lstrip_by PyStr.split_ws_from]. destruct (PyStr.is_space c) eqn:Hc; [done|].
  cbn [PyStr.split_ws_from]. by rewrite Hc.
Qed.

(** X26. A command sent in the room is run. When the room is ready and a
    group chat message from another nick, whose sender the room resolves,
    has the bot's nick and a colon followed by a text that starts with a
    character that occurs neither in the nick nor is a colon (a blank, for
    a nick without blanks), and the first word of that text names a command,
    [muc_message] hands the message, its body replaced by the text without
    leading white space, to the command and returns what it returned. *)
Theorem room_command_is_run (env : Env) (msg : Msg) (b : Bot) (tr : list Call)
    (rest word : string) (cmd : Command) (jid : JID) :
  _muc_ready b = true -> m_mucnick msg <> nick b -> m_type msg = "groupchat" ->
  sender_of env b msg = Some jid -> jid_bare jid <> EmptyString ->
  m_body msg = (nick b +:+ ":") +:+ rest ->
  (forall c, first_char rest = Some c -> PyStr.mem c (nick b +:+ ":") = false) ->
  head (PyStr.split rest) = Some word ->
  get_command env word = Some cmd ->
  muc_message env msg b tr
  = match cmd_fun cmd b (set_body (PyStr.lstrip rest) msg) with
    | inl e => (Raise e, b, tr)
    | inr out => (Ret out, b, if truthy_opt out then tr ++ [finished cmd] else tr)
    end.
Proof.
  intros Hready Hnick%String.eqb_neq Htype Hsender Hbare Hbody Hfirst Hhead Hcmd.
  assert (Htruthy : PyStr.truthy (jid_bare jid) = true) by by destruct (jid_bare jid).
  unfold sender_of in Hsender. unfold muc_message, get_jid. run_m.
  rewrite Hready, Hnick, Hbody, startswith_prefix, Htype. cbn.
  rewrite (muc_body_is_lstrip (nick b) rest Hfirst).
  destruct (truthy_opt (room b)); cbn; [rewrite Hsender|injection Hsender as <-]; cbn;
    rewrite Htruthy.
  all: unfold message, first_word; cbn; rewrite Htype; cbn.
  all: rewrite bool_decide_eq_true_2 by (by left); run_m.
  all: rewrite split_lstrip.
  all: pose proof (head_split_word _ _ Hhead) as Hstrip.
  all: destruct (PyStr.split rest) as [|w ws]; [done|]; injection Hhead as ->; cbn.
  all: rewrite Hstrip, Hcmd; cbn.
  all: destruct (cmd_fun cmd b (set_body (PyStr.lstrip rest) msg)) as [e|out]; cbn; [done|].
  all: unfold finished; by destruct (truthy_opt out).
Qed.

Lemma room_command_is_run_witness :
  muc_message router_env (room_msg "Ludolph: help me") ready_bot []
  = (Ret (Some "Available commands: help"), ready_bot, [finished help_command]).
Proof.
  apply (room_command_is_run router_env (room_msg "Ludolph: help me") ready_bot []
           " help me" "help" help_command (mkJID "alice@example.com" "home")).
  all: try reflexivity.
  - discriminate.
  - discriminate.
  - intros c Hc. injection Hc as <-. reflexivity.
Defined.



